(** * Signal-fusion and gating pipeline of the stock-market analysis agent

    A shallow embedding of the decision logic of
    [src/technical_analyzer.py], [src/market_context_analyzer.py],
    [src/recommendation_engine.py], [src/no_trade_detector.py],
    [src/config.py] and the dataclasses of [src/models.py], and of the
    code around it: [src/reversal_watch_detector.py],
    [src/fundamental_analyzer.py], the filtering and the no-trade override
    of [src/agent_core.py] and the position sizing of
    [src/risk_manager.py].

    Numbers.  Python floats are embedded as rationals ([Q]), so every
    arithmetic step is exact; rounding error of binary64 is not modelled.
    The special values that the code can actually produce are modelled:
    pandas/numpy division ([npfloat]: a finite value, an infinity or NaN)
    and Python's [ZeroDivisionError] ([py_div]).

    Errors.  A Python exception is a value of [pyerr]; a function that can
    raise returns a [result].  [ValueError] carries the message text of the
    source.

    Strings.  Market states, VIX levels, trends, regimes, directions and
    actions are Python strings and are kept as strings. *)

From Stdlib Require Import QArith Qabs Qround Qreduction ZArith List String Ascii Bool Lia Lqa.
From Stdlib Require Import DecimalString.
From Stdlib Require Import Sorting.Sorted Sorting.Permutation.
Import ListNotations.

Open Scope string_scope.
Open Scope Q_scope.

(* ================================================================== *)
(** ** Python values: comparisons, division, min/max, rounding, errors *)
(* ================================================================== *)

Definition Qltb (x y : Q) : bool := negb (Qle_bool y x).
Definition Qleb (x y : Q) : bool := Qle_bool x y.
Definition Qeqb (x y : Q) : bool := Qeq_bool x y.

(** [max(a, b)] and [min(a, b)] of Python: the first argument is kept
    unless the second is strictly better. *)
Definition py_max (a b : Q) : Q := if Qltb a b then b else a.
Definition py_min (a b : Q) : Q := if Qltb b a then b else a.

(** [max(l)] and [min(l)] on a list whose head is [x]. *)
Definition py_max_list (x : Q) (xs : list Q) : Q := fold_left py_max xs x.
Definition py_min_list (x : Q) (xs : list Q) : Q := fold_left py_min xs x.

(** [sum(l)] of Python, left to right, starting from 0. *)
Definition py_sum (l : list Q) : Q := fold_left Qplus l 0.

Inductive pyerr : Type :=
| ValueError (msg : string)
| ZeroDivisionError.

Inductive result (A : Type) : Type :=
| Ok (a : A)
| Err (e : pyerr).
Arguments Ok {A} a.
Arguments Err {A} e.

Definition bind {A B : Type} (r : result A) (k : A -> result B) : result B :=
  match r with
  | Ok a => k a
  | Err e => Err e
  end.

Notation "x <- r ;; k" := (bind r (fun x => k))
  (at level 61, r at next level, right associativity).
Notation "' p <- r ;; k" := (bind r (fun x => let 'p := x in k))
  (at level 61, p pattern, r at next level, right associativity).

Definition is_ok {A : Type} (r : result A) : bool :=
  match r with Ok _ => true | Err _ => false end.

(** [a / b] on Python floats: raises [ZeroDivisionError] when [b == 0]. *)
Definition py_div (a b : Q) : result Q :=
  if Qeqb b 0 then Err ZeroDivisionError else Ok (a / b).

(** [round(x, 2)]: to the nearest hundredth, ties to the even hundredth.
    The result is the fraction [n # 100].  The tie is that of the exact
    decimal; Python rounds the binary64 value, which for a decimal ending in
    5 lies just above or below the tie, so such a value may come out one
    hundredth apart.  No property below depends on the side of a tie. *)
Definition round_half_even (x : Q) : Z :=
  let f := Qfloor x in
  let r := x - inject_Z f in
  if Qltb r (1 # 2) then f
  else if Qltb (1 # 2) r then (f + 1)%Z
  else if Z.even f then f else (f + 1)%Z.

Definition py_round2 (x : Q) : Q := round_half_even (x * 100) # 100.

(** A numpy/pandas float as the RSI computation can produce it: element-wise
    division does not raise, it yields an infinity or NaN. *)
Inductive npfloat : Type :=
| Fin (q : Q)
| PosInf
| NegInf
| NaN.

Definition np_div (a b : Q) : npfloat :=
  if Qeqb b 0 then
    (if Qeqb a 0 then NaN else if Qltb 0 a then PosInf else NegInf)
  else Fin (a / b).

(** [c + x], [c / x] and [c - x] for a finite Python float [c] and a numpy
    float [x]. *)
Definition np_radd (c : Q) (x : npfloat) : npfloat :=
  match x with
  | Fin q => Fin (c + q)
  | PosInf => PosInf
  | NegInf => NegInf
  | NaN => NaN
  end.

Definition np_rdiv (c : Q) (x : npfloat) : npfloat :=
  match x with
  | Fin q => np_div c q
  | PosInf => Fin 0
  | NegInf => Fin 0
  | NaN => NaN
  end.

Definition np_rsub (c : Q) (x : npfloat) : npfloat :=
  match x with
  | Fin q => Fin (c - q)
  | PosInf => NegInf
  | NegInf => PosInf
  | NaN => NaN
  end.

(** [lo <= x <= hi] for a numpy float [x]: every comparison with NaN is
    false. *)
Definition np_between (lo : Q) (x : npfloat) (hi : Q) : bool :=
  match x with
  | Fin q => Qleb lo q && Qleb q hi
  | PosInf => false
  | NegInf => false
  | NaN => false
  end.

(** [x in l] for strings. *)
Definition str_in (x : string) (l : list string) : bool :=
  existsb (String.eqb x) l.

(** [s.lower()] on the ASCII letters. *)
Definition ascii_lower (c : ascii) : ascii :=
  let n := nat_of_ascii c in
  if (65 <=? n)%nat && (n <=? 90)%nat then ascii_of_nat (n + 32) else c.

Fixpoint str_lower (s : string) : string :=
  match s with
  | EmptyString => EmptyString
  | String c r => String (ascii_lower c) (str_lower r)
  end.

(** [str(n)] for a non-negative integer, as an f-string formats it. *)
Definition str_of_nat (n : nat) : string :=
  NilEmpty.string_of_uint (Nat.to_uint n).

(** The last [n] elements of a list: [l[-n:]] for [n > 0]. *)
Definition last_n {A : Type} (n : nat) (l : list A) : list A :=
  skipn (List.length l - n)%nat l.

(* ================================================================== *)
(** ** src/models.py *)
(* ================================================================== *)

(** [PricePoint]; [date] is a point in time, here seconds as an integer. *)
Record PricePoint : Type := mkPricePoint {
  pp_date : Z;
  pp_open : Q;
  pp_high : Q;
  pp_low : Q;
  pp_close : Q;
  pp_volume : Z
}.

(** [PricePoint.__post_init__]. *)
Definition PricePoint_post_init (p : PricePoint) : result PricePoint :=
  if Qltb (pp_open p) 0 || Qltb (pp_high p) 0 || Qltb (pp_low p) 0 || Qltb (pp_close p) 0
  then Err (ValueError "Prices cannot be negative")
  else if (pp_volume p <? 0)%Z
  then Err (ValueError "Volume cannot be negative")
  else if Qltb (pp_high p) (pp_low p)
  then Err (ValueError "High price cannot be less than low price")
  else if negb (Qleb (pp_low p) (pp_open p) && Qleb (pp_open p) (pp_high p))
  then Err (ValueError "Open price must be between low and high")
  else if negb (Qleb (pp_low p) (pp_close p) && Qleb (pp_close p) (pp_high p))
  then Err (ValueError "Close price must be between low and high")
  else Ok p.

(** A well-formed price point is one its constructor accepts. *)
Definition well_formed (p : PricePoint) : Prop := PricePoint_post_init p = Ok p.

(** [StockData], the fields the market-context analyzer reads. *)
Record StockData : Type := mkStockData {
  sd_current_price : Q;
  sd_historical_prices : list PricePoint
}.

Record SentimentData : Type := mkSentimentData {
  sn_symbol : string;
  sn_sentiment_score : Q;
  sn_confidence : Q;
  sn_sources : nat  (* len(sentiment.sources); only the length is read *)
}.

Record TechnicalIndicators : Type := mkTechnicalIndicators {
  ti_symbol : string;
  ti_ma_20 : Q;
  ti_ma_50 : Q;
  ti_ma_200 : Q;
  ti_rsi : Q;
  ti_macd : Q;
  ti_macd_signal : Q;
  ti_support_levels : list Q;
  ti_resistance_levels : list Q;
  ti_technical_score : Q;
  ti_atr : Q;
  ti_direction : string;
  ti_strength : Q;
  ti_confidence : Q;
  ti_regime : string
}.

Definition valid_regimes : list string :=
  ["bullish-trend"; "bearish-trend"; "oversold-zone";
   "overbought-zone"; "neutral"; "consolidation"].

(** [TechnicalIndicators(...)] as [analyze] calls it: the constructor with the
    defaults [direction="neutral"], [strength=0.0], [confidence=0.0],
    [regime="neutral"], followed by [__post_init__].  The RSI argument is the
    numpy float that [calculate_rsi] returned. *)
Definition TechnicalIndicators_init
    (symbol : string) (ma_20 ma_50 ma_200 : Q) (rsi : npfloat)
    (macd macd_signal : Q) (support_levels resistance_levels : list Q)
    (technical_score atr : Q) : result TechnicalIndicators :=
  let direction := "neutral" in
  let strength := 0.0 in
  let confidence := 0.0 in
  let regime := "neutral" in
  if String.eqb symbol ""
  then Err (ValueError "Symbol cannot be empty")
  else if negb (np_between 0.0 rsi 100.0)
  then Err (ValueError "RSI must be between 0 and 100")
  else if negb (Qleb (-1.0) technical_score && Qleb technical_score 1.0)
  then Err (ValueError "Technical score must be between -1.0 and 1.0")
  else if negb (str_in direction ["bullish"; "bearish"; "neutral"])
  then Err (ValueError "Direction must be 'bullish', 'bearish', or 'neutral'")
  else if negb (Qleb 0.0 strength && Qleb strength 1.0)
  then Err (ValueError "Strength must be between 0.0 and 1.0")
  else if negb (Qleb 0.0 confidence && Qleb confidence 1.0)
  then Err (ValueError "Confidence must be between 0.0 and 1.0")
  else if negb (str_in regime valid_regimes)
  then Err (ValueError "Regime must be one of ['bullish-trend', 'bearish-trend', 'oversold-zone', 'overbought-zone', 'neutral', 'consolidation']")
  else
    match rsi with
    | Fin r =>
        Ok (mkTechnicalIndicators symbol ma_20 ma_50 ma_200 r macd macd_signal
              support_levels resistance_levels technical_score atr
              direction strength confidence regime)
    | _ => Err (ValueError "RSI must be between 0 and 100")
    end.

Record FundamentalMetrics : Type := mkFundamentalMetrics {
  fm_symbol : string;
  fm_pe_ratio : option Q;
  fm_pb_ratio : option Q;
  fm_debt_to_equity : option Q;
  fm_eps : option Q;
  fm_revenue_growth : option Q;
  fm_industry_avg_pe : option Q;
  fm_fundamental_score : Q
}.

Record TradeLevels : Type := mkTradeLevels {
  ideal_entry : Q;
  stop_loss : Q;
  target : Q;
  risk_per_trade_percent : Q;
  risk_reward_ratio : Q;
  position_size_percent : Q
}.

(** [TradeLevels.__post_init__]. *)
Definition TradeLevels_post_init (t : TradeLevels) : result TradeLevels :=
  if Qleb (ideal_entry t) 0
  then Err (ValueError "Ideal entry must be positive")
  else if Qleb (stop_loss t) 0
  then Err (ValueError "Stop loss must be positive")
  else if Qleb (target t) 0
  then Err (ValueError "Target must be positive")
  else if Qleb (ideal_entry t) (stop_loss t)
  then Err (ValueError "Stop loss must be below entry for long positions")
  else if Qleb (target t) (ideal_entry t)
  then Err (ValueError "Target must be above entry for long positions")
  else if negb (Qleb 0.0 (risk_per_trade_percent t) && Qleb (risk_per_trade_percent t) 1.5)
  then Err (ValueError "Risk per trade must be between 0 and 1.5%")
  else if Qltb (risk_reward_ratio t) 2.0
  then Err (ValueError "Risk:Reward ratio must be at least 1:2")
  else Ok t.

Record ConfidenceBreakdown : Type := mkConfidenceBreakdown {
  cb_sentiment_confidence : Q;
  cb_technical_confidence : Q;
  cb_fundamental_confidence : Q;
  cb_market_signal_quality : Q;
  cb_market_favorability : Q;
  cb_agreement_score : Q;
  cb_data_quality_penalty : Q
}.

Definition unit_interval (x : Q) : bool := Qleb 0.0 x && Qleb x 1.0.

(** [ConfidenceBreakdown.__post_init__]: the fields are checked in the order
    of the source's list; the message names the first one out of range. *)
Definition ConfidenceBreakdown_post_init (b : ConfidenceBreakdown)
  : result ConfidenceBreakdown :=
  if negb (unit_interval (cb_sentiment_confidence b))
  then Err (ValueError "sentiment_confidence must be between 0.0 and 1.0")
  else if negb (unit_interval (cb_technical_confidence b))
  then Err (ValueError "technical_confidence must be between 0.0 and 1.0")
  else if negb (unit_interval (cb_fundamental_confidence b))
  then Err (ValueError "fundamental_confidence must be between 0.0 and 1.0")
  else if negb (unit_interval (cb_market_signal_quality b))
  then Err (ValueError "market_signal_quality must be between 0.0 and 1.0")
  else if negb (unit_interval (cb_market_favorability b))
  then Err (ValueError "market_favorability must be between 0.0 and 1.0")
  else if negb (unit_interval (cb_agreement_score b))
  then Err (ValueError "agreement_score must be between 0.0 and 1.0")
  else if negb (unit_interval (cb_data_quality_penalty b))
  then Err (ValueError "data_quality_penalty must be between 0.0 and 1.0")
  else Ok b.

(** The [runtime_weights] / [_get_dynamic_weights] dictionary. *)
Record Weights : Type := mkWeights {
  w_sentiment : Q;
  w_technical : Q;
  w_fundamental : Q;
  w_source : string
}.

(** [Recommendation]; the reasoning text and the timestamp are left out. *)
Record Recommendation : Type := mkRecommendation {
  rec_symbol : string;
  rec_action : string;
  rec_confidence : Q;
  rec_entry_price_low : option Q;
  rec_entry_price_high : option Q;
  rec_exit_price_low : option Q;
  rec_exit_price_high : option Q;
  rec_sentiment_contribution : Q;
  rec_technical_contribution : Q;
  rec_fundamental_contribution : Q;
  rec_trade_levels : option TradeLevels;
  rec_confidence_breakdown : option ConfidenceBreakdown;
  rec_runtime_weights : option Weights
}.

(** The price-range check of [Recommendation.__post_init__] for one action:
    both bounds present and [low <= high]. *)
Definition range_check (low high : option Q) (missing inverted : string)
  : result unit :=
  match low, high with
  | Some l, Some h => if Qltb h l then Err (ValueError inverted) else Ok tt
  | _, _ => Err (ValueError missing)
  end.

(** [Recommendation.__post_init__]. *)
Definition Recommendation_post_init (r : Recommendation) : result Recommendation :=
  if String.eqb (rec_symbol r) ""
  then Err (ValueError "Symbol cannot be empty")
  else if negb (str_in (rec_action r) ["BUY"; "SELL"; "HOLD"])
  then Err (ValueError "Action must be 'BUY', 'SELL', or 'HOLD'")
  else if negb (Qleb 0.0 (rec_confidence r) && Qleb (rec_confidence r) 1.0)
  then Err (ValueError "Confidence must be between 0.0 and 1.0")
  else
    _ <- (if String.eqb (rec_action r) "BUY"
          then range_check (rec_entry_price_low r) (rec_entry_price_high r)
                 "BUY recommendations must have entry price range"
                 "Entry price low cannot exceed entry price high"
          else Ok tt) ;;
    _ <- (if String.eqb (rec_action r) "SELL"
          then range_check (rec_exit_price_low r) (rec_exit_price_high r)
                 "SELL recommendations must have exit price range"
                 "Exit price low cannot exceed exit price high"
          else Ok tt) ;;
    Ok r.

(** [MarketContext]: a plain dataclass, no validation. *)
Record MarketContext : Type := mkMarketContext {
  nifty_trend : string;
  banknifty_trend : string;
  vix_level : string;
  market_state : string;
  nifty_price : Q;
  nifty_20dma : Q;
  nifty_50dma : Q;
  banknifty_price : Q;
  banknifty_20dma : Q;
  banknifty_50dma : Q;
  vix_value : Q;
  timestamp : Z;
  market_signal_quality : Q;
  market_favorability : Q
}.

(* ================================================================== *)
(** ** src/technical_analyzer.py *)
(* ================================================================== *)

(** [df.sort_values('date')]: the rows in ascending date order.  The model
    is an insertion sort that keeps rows of equal date in their order;
    pandas sorts with its default quicksort, which promises no order among
    rows of equal date.  The properties below that use it hold for every
    order of such rows or are stated on histories with distinct dates. *)
Fixpoint insert_by_date (p : PricePoint) (l : list PricePoint) : list PricePoint :=
  match l with
  | [] => [p]
  | q :: r =>
      if (pp_date p <=? pp_date q)%Z then p :: l else q :: insert_by_date p r
  end.

Fixpoint sort_values_date (l : list PricePoint) : list PricePoint :=
  match l with
  | [] => []
  | p :: r => insert_by_date p (sort_values_date r)
  end.

(** [sorted(levels)] / [levels.sort()] on floats. *)
Fixpoint insert_sorted (x : Q) (l : list Q) : list Q :=
  match l with
  | [] => [x]
  | y :: r => if Qleb x y then x :: l else y :: insert_sorted x r
  end.

Fixpoint sorted (l : list Q) : list Q :=
  match l with
  | [] => []
  | x :: r => insert_sorted x (sorted r)
  end.

(** [series.rolling(window=n).mean().iloc[-1]] on a series of at least [n]
    values: the mean of the last [n]. *)
Definition rolling_mean_last (n : nat) (xs : list Q) : Q :=
  py_sum (last_n n xs) / inject_Z (Z.of_nat n).

(** [series.iloc[-1]]. *)
Definition iloc_last (xs : list Q) : Q := last xs 0.

Record MovingAverages : Type := mkMovingAverages {
  ma_20 : Q;
  ma_50 : Q;
  ma_200 : Q
}.

Definition calculate_moving_averages (prices : list PricePoint)
  : result MovingAverages :=
  if (List.length prices <? 20)%nat
  then Err (ValueError "Need at least 20 price points to calculate moving averages")
  else
    let close := map pp_close (sort_values_date prices) in
    let ma_20 := rolling_mean_last 20 close in
    let ma_50 :=
      if (50 <=? List.length prices)%nat then rolling_mean_last 50 close else ma_20 in
    let ma_200 :=
      if (200 <=? List.length prices)%nat then rolling_mean_last 200 close else ma_50 in
    Ok (mkMovingAverages ma_20 ma_50 ma_200).

(** [series.diff()]: the first entry is NaN ([None]), the others are the
    differences of consecutive values. *)
Fixpoint diffs (xs : list Q) : list Q :=
  match xs with
  | a :: (b :: _) as t => (b - a) :: diffs t
  | _ => []
  end.

Definition series_diff (xs : list Q) : list (option Q) :=
  match xs with
  | [] => []
  | _ => None :: map Some (diffs xs)
  end.

(** [delta.where(cond, 0.0)]: the value where [cond] holds, [0.0] elsewhere;
    a comparison with NaN does not hold. *)
Definition where_or_zero (cond : Q -> bool) (d : option Q) : Q :=
  match d with
  | Some x => if cond x then x else 0.0
  | None => 0.0
  end.

Definition calculate_rsi (prices : list PricePoint) (period : nat)
  : result npfloat :=
  if (List.length prices <? period + 1)%nat
  then Err (ValueError ("Need at least " ++ str_of_nat (period + 1)
                        ++ " price points to calculate RSI"))
  else
    let close := map pp_close (sort_values_date prices) in
    let delta := series_diff close in
    let gains := map (where_or_zero (fun x => Qltb 0 x)) delta in
    let losses := map (fun d => - where_or_zero (fun x => Qltb x 0) d) delta in
    let avg_gains := rolling_mean_last period gains in
    let avg_losses := rolling_mean_last period losses in
    let rs := np_div avg_gains avg_losses in
    let rsi := np_rsub 100.0 (np_rdiv 100.0 (np_radd 1.0 rs)) in
    Ok rsi.

(** [series.ewm(span=span, adjust=False).mean()]:
    [y0 = x0], [y_t = (1 - alpha) * y_(t-1) + alpha * x_t] with
    [alpha = 2 / (span + 1)].  [Qred] keeps the fraction in lowest terms; it
    does not change the value. *)
Fixpoint ewm_from (alpha prev : Q) (xs : list Q) : list Q :=
  match xs with
  | [] => []
  | x :: r =>
      let y := Qred ((1 - alpha) * prev + alpha * x) in
      y :: ewm_from alpha y r
  end.

Definition ewm_mean (span : nat) (xs : list Q) : list Q :=
  let alpha := 2 / (inject_Z (Z.of_nat span) + 1) in
  match xs with
  | [] => []
  | x0 :: r => x0 :: ewm_from alpha x0 r
  end.

Fixpoint series_sub (xs ys : list Q) : list Q :=
  match xs, ys with
  | x :: xr, y :: yr => Qred (x - y) :: series_sub xr yr
  | _, _ => []
  end.

Definition calculate_macd (prices : list PricePoint) : result (Q * Q) :=
  if (List.length prices <? 35)%nat
  then Err (ValueError "Need at least 35 price points to calculate MACD")
  else
    let close := map pp_close (sort_values_date prices) in
    let ema_12 := ewm_mean 12 close in
    let ema_26 := ewm_mean 26 close in
    let macd_line := series_sub ema_12 ema_26 in
    let signal_line := ewm_mean 9 macd_line in
    Ok (iloc_last macd_line, iloc_last signal_line).

(** The [true_range] column: on the first row [prev_close] is NaN and the
    row-wise maximum skips it, leaving [high - low]. *)
Definition true_range_row (prev_close : option Q) (p : PricePoint) : Q :=
  let tr1 := pp_high p - pp_low p in
  match prev_close with
  | None => tr1
  | Some c =>
      let tr2 := Qabs (pp_high p - c) in
      let tr3 := Qabs (pp_low p - c) in
      py_max (py_max tr1 tr2) tr3
  end.

Fixpoint true_range (prev_close : option Q) (rows : list PricePoint) : list Q :=
  match rows with
  | [] => []
  | p :: r => true_range_row prev_close p :: true_range (Some (pp_close p)) r
  end.

Definition calculate_atr (prices : list PricePoint) (period : nat) : result Q :=
  if (List.length prices <? period + 1)%nat
  then Ok 0.0
  else
    let df := sort_values_date prices in
    let atr := rolling_mean_last period (true_range None df) in
    Ok atr.

(** [scipy.signal.argrelextrema(data, comparator, order=order)] with the
    default [mode='clip']: index [i] is kept when [data[i]] compares
    favourably with [data[i + s]] and [data[i - s]] for every shift
    [1 <= s <= order], indices beyond either end being clipped to it. *)
Definition clip_index (n : nat) (i : Z) : nat :=
  Z.to_nat (Z.max 0 (Z.min i (Z.of_nat n - 1))).

Definition is_relextremum (comparator : Q -> Q -> bool) (order : nat)
    (data : list Q) (i : nat) : bool :=
  let n := List.length data in
  let at_ (j : Z) := nth (clip_index n j) data 0 in
  forallb
    (fun s =>
       comparator (nth i data 0) (at_ (Z.of_nat i + Z.of_nat s)%Z) &&
       comparator (nth i data 0) (at_ (Z.of_nat i - Z.of_nat s)%Z))
    (seq 1 order).

Definition argrelextrema (data : list Q) (comparator : Q -> Q -> bool)
    (order : nat) : list nat :=
  filter (is_relextremum comparator order data) (seq 0 (List.length data)).

(** The loop of [_cluster_levels] over [levels[1:]]; [clustered] is kept in
    order of appending. *)
Fixpoint cluster_loop (threshold_pct : Q) (levels clustered current_cluster : list Q)
  : result (list Q) :=
  match levels with
  | [] =>
      match current_cluster with
      | [] => Ok clustered
      | _ =>
          avg <- py_div (py_sum current_cluster)
                   (inject_Z (Z.of_nat (List.length current_cluster))) ;;
          Ok (clustered ++ [avg])%list
      end
  | level :: rest =>
      cluster_avg <- py_div (py_sum current_cluster)
                       (inject_Z (Z.of_nat (List.length current_cluster))) ;;
      ratio <- py_div (Qabs (level - cluster_avg)) cluster_avg ;;
      if Qleb ratio threshold_pct
      then cluster_loop threshold_pct rest clustered (current_cluster ++ [level])%list
      else
        avg <- py_div (py_sum current_cluster)
                 (inject_Z (Z.of_nat (List.length current_cluster))) ;;
        cluster_loop threshold_pct rest (clustered ++ [avg])%list [level]
  end.

Definition _cluster_levels (levels : list Q) (threshold_pct : Q) : result (list Q) :=
  match sorted levels with
  | [] => Ok []
  | l0 :: rest => cluster_loop threshold_pct rest [] [l0]
  end.

Definition find_support_resistance (prices : list PricePoint)
  : result (list Q * list Q) :=
  if (List.length prices <? 20)%nat
  then Err (ValueError "Need at least 20 price points to find support/resistance")
  else
    let df := sort_values_date prices in
    let order := Nat.max 5 (List.length prices / 20) in
    let low := map pp_low df in
    let high := map pp_high df in
    let local_min_indices := argrelextrema low Qleb order in
    let local_max_indices := argrelextrema high (fun a b => Qleb b a) order in
    let support_levels := map (fun i => nth i low 0) local_min_indices in
    let resistance_levels := map (fun i => nth i high 0) local_max_indices in
    support_levels <- _cluster_levels support_levels 0.02 ;;
    resistance_levels <- _cluster_levels resistance_levels 0.02 ;;
    let support_levels := sorted support_levels in
    let resistance_levels := sorted resistance_levels in
    Ok (last_n 5 support_levels, last_n 5 resistance_levels).

Definition classify_regime (current_price : Q) (indicators : TechnicalIndicators)
  : string :=
  let rsi := ti_rsi indicators in
  let macd := ti_macd indicators in
  let ma_20 := ti_ma_20 indicators in
  let ma_50 := ti_ma_50 indicators in
  let ma_200 := ti_ma_200 indicators in
  if Qltb rsi 25 && Qltb macd 0 && Qltb current_price ma_20 then "oversold-zone"
  else if Qltb 75 rsi && Qltb 0 macd && Qltb ma_20 current_price then "overbought-zone"
  else
    let bullish_ma_alignment :=
      Qltb ma_20 current_price && Qltb ma_50 ma_20 && Qltb ma_200 ma_50 in
    let bullish_momentum := Qltb 0 macd && (Qleb 50 rsi && Qleb rsi 70) in
    if bullish_ma_alignment && bullish_momentum then "bullish-trend"
    else
      let bearish_ma_alignment :=
        Qltb current_price ma_20 && Qltb ma_20 ma_50 && Qltb ma_50 ma_200 in
      let bearish_momentum := Qltb macd 0 && (Qleb 30 rsi && Qleb rsi 50) in
      if bearish_ma_alignment && bearish_momentum then "bearish-trend"
      else if Qltb ma_20 current_price && Qltb 0 macd then "bullish-trend"
      else if Qltb current_price ma_20 && Qltb macd 0 then "bearish-trend"
      else "consolidation".

(** [regime_mapping.get(regime, ("neutral", 0.5))]. *)
Definition map_regime_to_direction (regime : string) : string * Q :=
  if String.eqb regime "bullish-trend" then ("bullish", 1.0)
  else if String.eqb regime "bearish-trend" then ("bearish", 1.0)
  else if String.eqb regime "oversold-zone" then ("bearish-exhaustion", 0.8)
  else if String.eqb regime "overbought-zone" then ("bullish-exhaustion", 0.8)
  else if String.eqb regime "consolidation" then ("neutral", 0.5)
  else if String.eqb regime "neutral" then ("neutral", 0.5)
  else ("neutral", 0.5).

Definition _calculate_ma_score (indicators : TechnicalIndicators) : Q :=
  let score := 0.0 in
  let score :=
    if Qltb (ti_ma_50 indicators) (ti_ma_20 indicators)
    then score + 0.33 else score - 0.33 in
  let score :=
    if Qltb (ti_ma_200 indicators) (ti_ma_50 indicators)
    then score + 0.33 else score - 0.33 in
  if Qltb (ti_ma_50 indicators) (ti_ma_20 indicators) &&
     Qltb (ti_ma_200 indicators) (ti_ma_50 indicators)
  then score + 0.34
  else if Qltb (ti_ma_20 indicators) (ti_ma_50 indicators) &&
          Qltb (ti_ma_50 indicators) (ti_ma_200 indicators)
  then score - 0.34
  else score.

Definition _calculate_rsi_score (rsi : Q) : Q :=
  if Qltb 70 rsi then - (rsi - 70) / 30
  else if Qltb rsi 30 then (30 - rsi) / 30
  else (rsi - 50) / 100.

Section TechnicalAnalyzer.

(** [numpy.tanh] is a library function outside the repository; the analyzer
    is parameterised by it. *)
Variable tanh : Q -> Q.

Definition _calculate_macd_score (macd signal : Q) : Q :=
  let diff := macd - signal in
  let scale := 2.0 in
  tanh (diff / scale).

Definition generate_technical_score (indicators : TechnicalIndicators) : Q :=
  let ma_score := _calculate_ma_score indicators in
  let rsi_score := _calculate_rsi_score (ti_rsi indicators) in
  let macd_score :=
    _calculate_macd_score (ti_macd indicators) (ti_macd_signal indicators) in
  let technical_score :=
    py_sum [ma_score * 0.30; rsi_score * 0.30; macd_score * 0.40] in
  py_max (-1.0) (py_min 1.0 technical_score).

(** The part of [analyze] after the indicators object is built: regime,
    score, direction, strength and confidence, assigned to the object. *)
Definition analyze_finish (current_price : Q) (indicators : TechnicalIndicators)
  : TechnicalIndicators :=
  let regime := classify_regime current_price indicators in
  let '(direction, strength_multiplier) := map_regime_to_direction regime in
  let technical_score := generate_technical_score indicators in
  let base_strength := Qabs technical_score in
  let strength := base_strength * strength_multiplier in
  let '(direction, strength) :=
    if String.eqb regime "oversold-zone" then ("bearish", strength * 0.7)
    else if String.eqb regime "overbought-zone" then ("bullish", strength * 0.7)
    else if String.eqb regime "consolidation" then ("neutral", strength * 0.3)
    else if Qltb 0.2 technical_score then ("bullish", strength)
    else if Qltb technical_score (-0.2) then ("bearish", strength)
    else ("neutral", strength * 0.3) in
  let confidence :=
    if Qltb (Qabs technical_score) 0.2 then 0.5
    else if Qltb 0.6 (Qabs technical_score) then 0.95
    else 0.8 in
  let confidence :=
    if str_in regime ["bullish-trend"; "bearish-trend"]
    then py_min 1.0 (confidence * 1.1)
    else if str_in regime ["oversold-zone"; "overbought-zone"]
    then py_min 1.0 (confidence * 1.05)
    else confidence in
  mkTechnicalIndicators
    (ti_symbol indicators) (ti_ma_20 indicators) (ti_ma_50 indicators)
    (ti_ma_200 indicators) (ti_rsi indicators) (ti_macd indicators)
    (ti_macd_signal indicators) (ti_support_levels indicators)
    (ti_resistance_levels indicators)
    technical_score (ti_atr indicators)
    direction (py_min 1.0 strength) confidence regime.

Definition analyze (symbol : string) (prices : list PricePoint)
  : result TechnicalIndicators :=
  if (List.length prices <? 200)%nat
  then Err (ValueError "Need at least 200 price points for complete technical analysis")
  else
    let current_price := pp_close (last prices (mkPricePoint 0 0 0 0 0 0)) in
    mas <- calculate_moving_averages prices ;;
    rsi <- calculate_rsi prices 14 ;;
    '(macd, macd_signal) <- calculate_macd prices ;;
    atr <- calculate_atr prices 14 ;;
    '(support, resistance) <- find_support_resistance prices ;;
    indicators <- TechnicalIndicators_init symbol
                    (ma_20 mas) (ma_50 mas) (ma_200 mas) rsi macd macd_signal
                    support resistance 0.0 atr ;;
    Ok (analyze_finish current_price indicators).

End TechnicalAnalyzer.

(* ================================================================== *)
(** ** src/market_context_analyzer.py *)
(* ================================================================== *)

Definition NIFTY_50 : string := "^NSEI".
Definition BANK_NIFTY : string := "^NSEBANK".
Definition INDIA_VIX : string := "^INDIAVIX".

Definition VIX_LOW : Q := 15.0.
Definition VIX_MODERATE : Q := 20.0.
Definition VIX_HIGH : Q := 25.0.

(** The dictionary returned by [_fetch_index_data]. *)
Record IndexData : Type := mkIndexData {
  ix_price : Q;
  ix_ma_20 : Q;
  ix_ma_50 : Q
}.

(** The data provider is an external collaborator: [get_stock_data(symbol)]
    returns stock data or raises. *)
Definition DataProvider : Type := string -> result StockData.

(** The analyzer object: its cache and the time the cache was filled
    (seconds). *)
Record MarketContextAnalyzer : Type := mkMarketContextAnalyzer {
  _cache : option MarketContext;
  _cache_time : option Z
}.

Definition MarketContextAnalyzer_init : MarketContextAnalyzer :=
  mkMarketContextAnalyzer None None.

(** [timedelta(minutes=15)] in seconds. *)
Definition _cache_duration : Z := 900.

Definition _fetch_index_data (data_provider : DataProvider) (symbol : string)
  : IndexData :=
  match data_provider symbol with
  | Ok stock_data =>
      let current_price := sd_current_price stock_data in
      let historical_prices := sd_historical_prices stock_data in
      if (50 <=? List.length historical_prices)%nat then
        let prices := map pp_close (last_n 50 historical_prices) in
        let ma_20 := py_sum (last_n 20 prices) / 20 in
        let ma_50 := py_sum prices / 50 in
        mkIndexData current_price ma_20 ma_50
      else if (20 <=? List.length historical_prices)%nat then
        let prices := map pp_close (last_n 20 historical_prices) in
        let ma_20 := py_sum prices / 20 in
        mkIndexData current_price ma_20 ma_20
      else mkIndexData current_price current_price current_price
  | Err _ => mkIndexData 0.0 0.0 0.0
  end.

Definition _fetch_vix (data_provider : DataProvider) : Q :=
  match data_provider INDIA_VIX with
  | Ok stock_data => sd_current_price stock_data
  | Err _ => 18.0
  end.

Definition _determine_trend (price ma_20 ma_50 : Q) : string :=
  if Qeqb price 0 || Qeqb ma_20 0 || Qeqb ma_50 0 then "neutral"
  else if Qltb ma_20 price && Qltb ma_50 price then "bullish"
  else if Qltb price ma_20 && Qltb price ma_50 then "bearish"
  else "neutral".

Definition _determine_vix_level (vix : Q) : string :=
  if Qltb vix VIX_LOW then "low"
  else if Qltb vix VIX_MODERATE then "moderate"
  else if Qltb vix VIX_HIGH then "high"
  else "very_high".

Definition _determine_market_state (nifty_trend banknifty_trend vix_level : string)
  : string :=
  if str_in vix_level ["high"; "very_high"] then "volatile"
  else if String.eqb nifty_trend "bullish" && String.eqb banknifty_trend "bullish"
  then "bullish"
  else if String.eqb nifty_trend "bearish" && String.eqb banknifty_trend "bearish"
  then "bearish"
  else "neutral".

Definition _calculate_signal_quality
    (nifty_price nifty_20dma nifty_50dma
     banknifty_price banknifty_20dma banknifty_50dma volume : Q) : Q :=
  let quality_score := 0.0 in
  let quality_score :=
    if Qltb 0 nifty_20dma && Qltb 0 nifty_50dma then
      let nifty_distance_20 := Qabs (nifty_price - nifty_20dma) / nifty_20dma in
      let nifty_distance_50 := Qabs (nifty_price - nifty_50dma) / nifty_50dma in
      let avg_distance := (nifty_distance_20 + nifty_distance_50) / 2 in
      let distance_score := py_min 1.0 (avg_distance / 0.05) in
      quality_score + distance_score * 0.4
    else quality_score + 0.5 * 0.4 in
  let volume_score := 0.7 in
  let quality_score := quality_score + volume_score * 0.2 in
  let nifty_trend := _determine_trend nifty_price nifty_20dma nifty_50dma in
  let banknifty_trend :=
    _determine_trend banknifty_price banknifty_20dma banknifty_50dma in
  let consistency_score :=
    if String.eqb nifty_trend banknifty_trend then
      (if str_in nifty_trend ["bullish"; "bearish"] then 1.0 else 0.6)
    else 0.3 in
  let quality_score := quality_score + consistency_score * 0.4 in
  py_min 1.0 (py_max 0.0 quality_score).

Definition _calculate_favorability
    (market_state vix_level nifty_trend banknifty_trend : string) : Q :=
  let base_score :=
    if String.eqb market_state "bullish" then 0.85
    else if String.eqb market_state "neutral" then 0.55
    else if String.eqb market_state "bearish" then 0.30
    else 0.35 in
  let favorability := base_score * 0.6 in
  let vix_score :=
    if String.eqb vix_level "low" then 0.9
    else if String.eqb vix_level "moderate" then 0.7
    else if String.eqb vix_level "high" then 0.4
    else 0.2 in
  let favorability := favorability + vix_score * 0.25 in
  let breadth_score :=
    if String.eqb nifty_trend "bullish" && String.eqb banknifty_trend "bullish"
    then 1.0
    else if String.eqb nifty_trend "bearish" && String.eqb banknifty_trend "bearish"
    then 0.2
    else 0.5 in
  let favorability := favorability + breadth_score * 0.15 in
  let favorability :=
    if String.eqb market_state "bearish" then py_min favorability 0.40
    else favorability in
  let favorability :=
    if String.eqb vix_level "very_high" then py_min favorability 0.25
    else favorability in
  let favorability :=
    if String.eqb market_state "bullish" then py_max favorability 0.70
    else favorability in
  py_min 1.0 (py_max 0.0 favorability).

(** The body of [get_market_context] past the cache check: a fresh context
    from the provider's data at time [now]. *)
Definition fresh_market_context (data_provider : DataProvider) (now : Z)
  : MarketContext :=
  let nifty_data := _fetch_index_data data_provider NIFTY_50 in
  let nifty_trend :=
    _determine_trend (ix_price nifty_data) (ix_ma_20 nifty_data) (ix_ma_50 nifty_data) in
  let banknifty_data := _fetch_index_data data_provider BANK_NIFTY in
  let banknifty_trend :=
    _determine_trend (ix_price banknifty_data) (ix_ma_20 banknifty_data)
      (ix_ma_50 banknifty_data) in
  let vix_value := _fetch_vix data_provider in
  let vix_level := _determine_vix_level vix_value in
  let market_state := _determine_market_state nifty_trend banknifty_trend vix_level in
  let market_signal_quality :=
    _calculate_signal_quality
      (ix_price nifty_data) (ix_ma_20 nifty_data) (ix_ma_50 nifty_data)
      (ix_price banknifty_data) (ix_ma_20 banknifty_data) (ix_ma_50 banknifty_data)
      0 in
  let market_favorability :=
    _calculate_favorability market_state vix_level nifty_trend banknifty_trend in
  mkMarketContext nifty_trend banknifty_trend vix_level market_state
    (ix_price nifty_data) (ix_ma_20 nifty_data) (ix_ma_50 nifty_data)
    (ix_price banknifty_data) (ix_ma_20 banknifty_data) (ix_ma_50 banknifty_data)
    vix_value now market_signal_quality market_favorability.

(** [get_market_context(use_cache)]: the analyzer [self] before the call, the
    provider's answers and the clock at the call; returns the context and
    the analyzer after the call. *)
Definition get_market_context (self : MarketContextAnalyzer)
    (data_provider : DataProvider) (now : Z) (use_cache : bool)
  : MarketContext * MarketContextAnalyzer :=
  let fresh :=
    let context := fresh_market_context data_provider now in
    (context, mkMarketContextAnalyzer (Some context) (Some now)) in
  match _cache self, _cache_time self with
  | Some cached, Some cache_time =>
      if use_cache && (now - cache_time <? _cache_duration)%Z
      then (cached, self)
      else fresh
  | _, _ => fresh
  end.

(* ================================================================== *)
(** ** src/config.py *)
(* ================================================================== *)

(** [Configuration], the three analysis weights. *)
Record Configuration : Type := mkConfiguration {
  sentiment_weight : Q;
  technical_weight : Q;
  fundamental_weight : Q
}.

Definition default_Configuration : Configuration := mkConfiguration 0.5 0.3 0.2.

Definition validate_weights (self : Configuration) : bool :=
  forallb (fun w => Qleb 0.0 w && Qleb w 1.0)
    [sentiment_weight self; technical_weight self; fundamental_weight self].

(** [normalize_weights].  The test [total == 0] is exact here.  For weights
    that are not negative the total is 0 only when all three are 0, also in
    binary64; weights of both signs can cancel exactly here and leave a
    rounding residue there, so the properties of the normalised weights are
    stated for weights that are not negative. *)
Definition normalize_weights (self : Configuration) : Configuration :=
  let total := sentiment_weight self + technical_weight self + fundamental_weight self in
  if Qeqb total 0 then mkConfiguration 0.5 0.3 0.2
  else if negb (Qeqb total 1.0) then
    mkConfiguration (sentiment_weight self / total)
                    (technical_weight self / total)
                    (fundamental_weight self / total)
  else self.

(* ================================================================== *)
(** ** src/recommendation_engine.py *)
(* ================================================================== *)

Record RecommendationEngine : Type := mkRecommendationEngine {
  config : Configuration
}.

(** [RecommendationEngine.__init__]: the configuration is normalised in
    place when its weights are invalid or do not sum to 1.0 within 0.001. *)
Definition RecommendationEngine_init (config : Configuration) : RecommendationEngine :=
  if negb (validate_weights config)
  then mkRecommendationEngine (normalize_weights config)
  else if Qltb 0.001
            (Qabs (py_sum [sentiment_weight config; technical_weight config;
                           fundamental_weight config] - 1.0))
  then mkRecommendationEngine (normalize_weights config)
  else mkRecommendationEngine config.

Definition _get_dynamic_weights (self : RecommendationEngine)
    (market_context : option MarketContext) : Weights :=
  match market_context with
  | None =>
      mkWeights (sentiment_weight (config self)) (technical_weight (config self))
        (fundamental_weight (config self)) "static"
  | Some market_context =>
      let market_state := str_lower (market_state market_context) in
      if String.eqb market_state "bullish"
      then mkWeights 0.30 0.40 0.30 "dynamic-bullish"
      else if String.eqb market_state "neutral"
      then mkWeights 0.25 0.35 0.40 "dynamic-neutral"
      else if String.eqb market_state "bearish"
      then mkWeights 0.15 0.35 0.50 "dynamic-bearish"
      else if String.eqb market_state "volatile"
      then mkWeights 0.15 0.35 0.50 "dynamic-volatile"
      else
        mkWeights (sentiment_weight (config self)) (technical_weight (config self))
          (fundamental_weight (config self)) "static-fallback"
  end.

(** Step 1 of [calculate_confidence]: the signal direction. *)
Definition signal_direction_of (combined_score : Q) : string :=
  if Qltb 0.3 combined_score then "bullish"
  else if Qltb combined_score (-0.3) then "bearish"
  else "neutral".

(** The nested function [agrees_with_signal] of [calculate_confidence]. *)
Definition agrees_with_signal (score : Q) (direction : string) : bool :=
  if String.eqb direction "bullish" then Qltb 0.2 score
  else if String.eqb direction "bearish" then Qltb score (-0.2)
  else Qleb (-0.2) score && Qleb score 0.2.

(** [market_agrees] of [calculate_confidence]. *)
Definition market_agrees_of (market_context : option MarketContext)
    (signal_direction : string) : bool :=
  match market_context with
  | None => false
  | Some market_context =>
      if String.eqb signal_direction "bullish"
      then str_in (market_state market_context) ["bullish"; "neutral"]
      else if String.eqb signal_direction "bearish"
      then str_in (market_state market_context) ["bearish"; "neutral"]
      else String.eqb (market_state market_context) "neutral"
  end.

Definition bool_int (b : bool) : nat := if b then 1%nat else 0%nat.

(** [agreements] and [total_components] of [calculate_confidence]. *)
Definition agreements_of (sentiment_agrees technical_agrees fundamental_agrees
    market_agrees : bool) (market_context : option MarketContext) : nat * nat :=
  let agreements :=
    (bool_int sentiment_agrees + bool_int technical_agrees +
     bool_int fundamental_agrees)%nat in
  match market_context with
  | Some _ => ((agreements + bool_int market_agrees)%nat, 4%nat)
  | None => (agreements, 3%nat)
  end.

(** Step 3 of [calculate_confidence]: the base agreement score. *)
Definition agreement_score_of (agreements total_components : nat) : Q :=
  if (total_components =? 4)%nat then
    if (agreements =? 4)%nat then 0.85
    else if (agreements =? 3)%nat then 0.75
    else if (agreements =? 2)%nat then 0.65
    else 0.45
  else
    if (agreements =? 3)%nat then 0.80
    else if (agreements =? 2)%nat then 0.70
    else 0.50.

Definition is_none {A : Type} (o : option A) : bool :=
  match o with None => true | Some _ => false end.

Definition calculate_confidence
    (sentiment : SentimentData) (technical : TechnicalIndicators)
    (fundamental : FundamentalMetrics) (combined_score : Q)
    (market_context : option MarketContext)
  : result (Q * ConfidenceBreakdown) :=
  let signal_direction := signal_direction_of combined_score in
  let sentiment_agrees :=
    agrees_with_signal (sn_sentiment_score sentiment) signal_direction in
  let technical_agrees :=
    agrees_with_signal (ti_technical_score technical) signal_direction in
  let fundamental_agrees :=
    agrees_with_signal (fm_fundamental_score fundamental) signal_direction in
  let market_agrees := market_agrees_of market_context signal_direction in
  let '(agreements, total_components) :=
    agreements_of sentiment_agrees technical_agrees fundamental_agrees
      market_agrees market_context in
  let agreement_score := agreement_score_of agreements total_components in
  let sentiment_conf :=
    if Qltb 0 (sn_confidence sentiment) then sn_confidence sentiment else 0.5 in
  let sentiment_conf :=
    if (sn_sources sentiment <? 2)%nat then sentiment_conf * 0.7
    else if (5 <=? sn_sources sentiment)%nat then py_min 1.0 (sentiment_conf * 1.1)
    else sentiment_conf in
  let technical_conf :=
    if Qltb (Qabs (ti_technical_score technical)) 0.2 then 0.5
    else if Qltb 0.6 (Qabs (ti_technical_score technical)) then 0.95
    else 0.8 in
  let missing_metrics :=
    (bool_int (is_none (fm_pe_ratio fundamental)) +
     bool_int (is_none (fm_pb_ratio fundamental)) +
     bool_int (is_none (fm_revenue_growth fundamental)))%nat in
  let fundamental_conf :=
    if (missing_metrics =? 0)%nat then 0.9
    else if (2 <=? missing_metrics)%nat then 0.5
    else 0.7 in
  let '(market_signal_quality_, market_favorability_) :=
    match market_context with
    | Some mc => (market_signal_quality mc, market_favorability mc)
    | None => (0.0, 0.0)
    end in
  let data_quality_penalty := 0.0 in
  let data_quality_penalty :=
    if is_none market_context then data_quality_penalty + 0.05
    else data_quality_penalty in
  let data_quality_penalty :=
    if (sn_sources sentiment <? 2)%nat then data_quality_penalty + 0.10
    else if (sn_sources sentiment <? 3)%nat then data_quality_penalty + 0.05
    else data_quality_penalty in
  let data_quality_penalty :=
    if (2 <=? missing_metrics)%nat then data_quality_penalty + 0.10
    else if (missing_metrics =? 1)%nat then data_quality_penalty + 0.05
    else data_quality_penalty in
  let data_quality_penalty :=
    if Qeqb (sn_sentiment_score sentiment) 0 && (sn_sources sentiment =? 0)%nat
    then data_quality_penalty + 0.15
    else data_quality_penalty in
  let data_quality_penalty := py_min 0.3 data_quality_penalty in
  let confidence :=
    agreement_score * 0.6 + sentiment_conf * 0.15 + technical_conf * 0.10 +
    fundamental_conf * 0.10 + market_favorability_ * 0.05 in
  let confidence := confidence * (1.0 - data_quality_penalty) in
  let confidence := py_max 0.0 (py_min 1.0 confidence) in
  breakdown <- ConfidenceBreakdown_post_init
                 (mkConfidenceBreakdown
                    (py_round2 sentiment_conf) (py_round2 technical_conf)
                    (py_round2 fundamental_conf) (py_round2 market_signal_quality_)
                    (py_round2 market_favorability_) (py_round2 agreement_score)
                    (py_round2 data_quality_penalty)) ;;
  Ok (confidence, breakdown).

Definition suggest_price_range (action : string) (current_price : Q)
    (technical : TechnicalIndicators) : Q * Q :=
  if String.eqb action "BUY" then
    match ti_support_levels technical with
    | _ :: _ =>
        match filter (fun s => Qltb s current_price) (ti_support_levels technical) with
        | s0 :: rest =>
            let nearest_support := py_max_list s0 rest in
            (nearest_support, current_price * 1.02)
        | [] => (current_price * 0.98, current_price * 1.02)
        end
    | [] => (current_price * 0.98, current_price * 1.02)
    end
  else if String.eqb action "SELL" then
    match ti_resistance_levels technical with
    | _ :: _ =>
        match filter (fun r => Qltb current_price r) (ti_resistance_levels technical) with
        | r0 :: rest =>
            let nearest_resistance := py_min_list r0 rest in
            (current_price * 0.98, nearest_resistance)
        | [] => (current_price * 0.98, current_price * 1.02)
        end
    | [] => (current_price * 0.98, current_price * 1.02)
    end
  else (current_price * 0.98, current_price * 1.02).

Definition _adjust_for_market_context (action : string) (combined_score : Q)
    (market_context : MarketContext) : string :=
  if String.eqb (market_state market_context) "volatile" &&
     (String.eqb action "BUY" && Qltb combined_score 0.5)
  then "HOLD"
  else if String.eqb (market_state market_context) "volatile" &&
          (String.eqb action "SELL" && Qltb (-0.5) combined_score)
  then "HOLD"
  else if String.eqb (market_state market_context) "bearish" &&
          (String.eqb action "BUY" && Qltb combined_score 0.6)
  then "HOLD"
  else action.

Definition calculate_trade_levels (current_price : Q)
    (technical : TechnicalIndicators) (action : string) : result TradeLevels :=
  if negb (String.eqb action "BUY")
  then Err (ValueError "Trade levels currently only supported for BUY recommendations")
  else
    let ideal_entry :=
      match ti_support_levels technical with
      | _ :: _ =>
          match filter (fun s => Qltb s current_price) (ti_support_levels technical) with
          | s0 :: rest =>
              let nearest_support := py_max_list s0 rest in
              nearest_support * 1.005
          | [] => current_price * 0.98
          end
      | [] => current_price * 0.98
      end in
    let ideal_entry := py_min ideal_entry (current_price * 0.99) in
    let atr_stop :=
      if Qltb 0 (ti_atr technical)
      then ideal_entry - (ti_atr technical * 1.5)
      else ideal_entry * 0.95 in
    let stop_loss :=
      match ti_support_levels technical with
      | _ :: _ =>
          match filter (fun s => Qltb s ideal_entry) (ti_support_levels technical) with
          | s0 :: rest =>
              let support_stop := py_max_list s0 rest * 0.995 in
              py_max atr_stop support_stop
          | [] => atr_stop
          end
      | [] => atr_stop
      end in
    let min_stop := ideal_entry * 0.92 in
    let stop_loss := py_max stop_loss min_stop in
    let risk_per_share := ideal_entry - stop_loss in
    let min_reward := risk_per_share * 2.0 in
    let target := ideal_entry + min_reward in
    let target :=
      match ti_resistance_levels technical with
      | _ :: _ =>
          match filter (fun r => Qltb ideal_entry r) (ti_resistance_levels technical) with
          | r0 :: rest =>
              let nearest_resistance := py_min_list r0 rest in
              if Qltb target nearest_resistance then nearest_resistance * 0.995
              else if Qltb nearest_resistance target
              then py_max target (nearest_resistance * 1.02)
              else target
          | [] => target
          end
      | [] => target
      end in
    let actual_reward := target - ideal_entry in
    risk_reward_ratio <-
      (if Qltb 0 risk_per_share then py_div actual_reward risk_per_share
       else Ok 2.0) ;;
    let '(target, risk_reward_ratio) :=
      if Qltb risk_reward_ratio 2.0
      then (ideal_entry + (risk_per_share * 2.0), 2.0)
      else (target, risk_reward_ratio) in
    let risk_per_trade_percent := 1.5 in
    risk_fraction <- py_div risk_per_share ideal_entry ;;
    position_size_percent <- py_div risk_per_trade_percent (risk_fraction * 100) ;;
    let position_size_percent := py_min position_size_percent 10.0 in
    TradeLevels_post_init
      (mkTradeLevels (py_round2 ideal_entry) (py_round2 stop_loss) (py_round2 target)
         risk_per_trade_percent (py_round2 risk_reward_ratio)
         (py_round2 position_size_percent)).

(** [generate_recommendation]; the reasoning text ([_generate_reasoning], a
    formatted string that raises nothing) and the logging are left out. *)
Definition generate_recommendation (self : RecommendationEngine)
    (sentiment : SentimentData) (technical : TechnicalIndicators)
    (fundamental : FundamentalMetrics) (current_price : Q)
    (market_context : option MarketContext) : result Recommendation :=
  let weights := _get_dynamic_weights self market_context in
  let sentiment_weight := w_sentiment weights in
  let technical_weight := w_technical weights in
  let fundamental_weight := w_fundamental weights in
  let weights_source := w_source weights in
  let combined_score :=
    sn_sentiment_score sentiment * sentiment_weight +
    ti_technical_score technical * technical_weight +
    fm_fundamental_score fundamental * fundamental_weight in
  let sentiment_contribution := sn_sentiment_score sentiment * sentiment_weight in
  let technical_contribution := ti_technical_score technical * technical_weight in
  let fundamental_contribution :=
    fm_fundamental_score fundamental * fundamental_weight in
  let runtime_weights :=
    mkWeights sentiment_weight technical_weight fundamental_weight weights_source in
  let action :=
    if Qltb 0.3 combined_score then "BUY"
    else if Qltb combined_score (-0.3) then "SELL"
    else "HOLD" in
  '(confidence, confidence_breakdown) <-
    calculate_confidence sentiment technical fundamental combined_score
      market_context ;;
  let action :=
    match market_context with
    | Some mc => _adjust_for_market_context action combined_score mc
    | None => action
    end in
  '(entry_price_low, entry_price_high, exit_price_low, exit_price_high, trade_levels) <-
    (if String.eqb action "BUY" then
       let '(low, high) := suggest_price_range action current_price technical in
       levels <- calculate_trade_levels current_price technical action ;;
       Ok (Some low, Some high, None, None, Some levels)
     else if String.eqb action "SELL" then
       let '(low, high) := suggest_price_range action current_price technical in
       Ok (None, None, Some low, Some high, None)
     else Ok (None, None, None, None, None)) ;;
  Recommendation_post_init
    (mkRecommendation (sn_symbol sentiment) action confidence
       entry_price_low entry_price_high exit_price_low exit_price_high
       sentiment_contribution technical_contribution fundamental_contribution
       trade_levels (Some confidence_breakdown) (Some runtime_weights)).

(* ================================================================== *)
(** ** src/no_trade_detector.py *)
(* ================================================================== *)

(** The entries of [reasons]: each constructor stands for one message
    template of the source, with the values formatted into it. *)
Inductive NoTradeReason : Type :=
| NoMarketContextAvailable
| BearishWithVolatility (vix_level : string) (vix_value : Q)
| NiftyBelow50DMA (nifty_below_50dma nifty_price nifty_50dma : Q)
| VixSpikeDetected (vix_value vix_spike_threshold : Q)
| BothIndicesBearish
| HighlyVolatile (vix_value : Q).

(** The texts of [suggested_action]. *)
Inductive SuggestedAction : Type :=
| TradingEnabled        (* "Trading enabled" *)
| ProceedWithCaution    (* "Proceed with caution" *)
| StayInCash            (* "Stay in cash. Avoid all new positions. ..." *)
| ExtremeCaution        (* "Exercise extreme caution. Only consider ..." *)
| AllowTrading.         (* "Market conditions allow trading, but remain vigilant" *)

Record NoTradeSignal : Type := mkNoTradeSignal {
  is_no_trade : bool;
  reasons : list NoTradeReason;
  suggested_action : SuggestedAction;
  severity : string
}.

Record NoTradeDetector : Type := mkNoTradeDetector {
  vix_spike_threshold : Q;
  nifty_drop_threshold : Q;
  enable_no_trade : bool
}.

(** [NoTradeDetector()] with the default arguments. *)
Definition default_NoTradeDetector : NoTradeDetector :=
  mkNoTradeDetector 25.0 0.03 true.

Definition check_market_conditions (self : NoTradeDetector)
    (market_context : option MarketContext) : result NoTradeSignal :=
  if negb (enable_no_trade self)
  then Ok (mkNoTradeSignal false [] TradingEnabled "low")
  else
    match market_context with
    | None => Ok (mkNoTradeSignal false [NoMarketContextAvailable] ProceedWithCaution "low")
    | Some market_context =>
        let reasons := [] in
        let severity := "low" in
        (* Check 1 *)
        let '(reasons, severity) :=
          if String.eqb (market_state market_context) "bearish" &&
             str_in (vix_level market_context) ["high"; "very_high"]
          then ((reasons ++ [BearishWithVolatility (vix_level market_context)
                               (vix_value market_context)])%list, "high")
          else (reasons, severity) in
        (* Check 2 *)
        nifty_below_50dma <-
          py_div (nifty_price market_context - nifty_50dma market_context)
            (nifty_50dma market_context) ;;
        let '(reasons, severity) :=
          if Qltb nifty_below_50dma (- nifty_drop_threshold self)
          then ((reasons ++ [NiftyBelow50DMA nifty_below_50dma
                               (nifty_price market_context)
                               (nifty_50dma market_context)])%list,
                if String.eqb severity "low" then "medium" else severity)
          else (reasons, severity) in
        (* Check 3 *)
        let '(reasons, severity) :=
          if Qltb (vix_spike_threshold self) (vix_value market_context)
          then ((reasons ++ [VixSpikeDetected (vix_value market_context)
                               (vix_spike_threshold self)])%list, "high")
          else (reasons, severity) in
        (* Check 4 *)
        let '(reasons, severity) :=
          if String.eqb (nifty_trend market_context) "bearish" &&
             String.eqb (banknifty_trend market_context) "bearish" &&
             str_in (vix_level market_context) ["moderate"; "high"; "very_high"]
          then ((reasons ++ [BothIndicesBearish])%list,
                if String.eqb severity "low" then "medium" else severity)
          else (reasons, severity) in
        (* Check 5 *)
        let '(reasons, severity) :=
          if String.eqb (market_state market_context) "volatile" &&
             Qltb 20 (vix_value market_context)
          then ((reasons ++ [HighlyVolatile (vix_value market_context)])%list,
                if String.eqb severity "low" then "medium" else severity)
          else (reasons, severity) in
        let is_no_trade :=
          (0 <? List.length reasons)%nat && str_in severity ["high"; "medium"] in
        let suggested_action :=
          if is_no_trade then
            (if String.eqb severity "high" then StayInCash else ExtremeCaution)
          else AllowTrading in
        Ok (mkNoTradeSignal is_no_trade reasons suggested_action severity)
    end.

(* ================================================================== *)
(** ** Inputs and auxiliary definitions of the properties *)
(* ================================================================== *)

(** "approximately": within half a unit of price. *)
Definition approx (x y : Q) : Prop := Qabs (x - y) <= 1 # 2.

(** The indicators of the end-to-end example of the specification. *)
Definition example_indicators : TechnicalIndicators :=
  mkTechnicalIndicators "TEST" 105.0 100.0 95.0 45.0 1.0 0.5 [90.0] [110.0]
    0.0 2.0 "neutral" 0.0 0.0 "neutral".

Definition example_trade_levels : TradeLevels :=
  mkTradeLevels (9045 # 100) (8955 # 100) (10945 # 100) 1.5 (2111 # 100) (151 # 100).

(** A hand-built context as the tests build them: market state bullish and
    VIX level low, while the Nifty stands about 7% below its 50-day
    average. *)
Definition bullish_low_below_50dma : MarketContext :=
  mkMarketContext "bullish" "bullish" "low" "bullish"
    20000.0 21800.0 21500.0 48000.0 47500.0 47000.0 12.5 0 0.85 0.85.

(** A context as the tests build it for the bearish, very volatile market. *)
Definition bearish_very_high : MarketContext :=
  mkMarketContext "bearish" "bearish" "very_high" "bearish"
    20000 20500 21000 44000 45000 46000 28 0 0.75 0.25.

(** The bullish, calm market of the tests. *)
Definition bullish_low : MarketContext :=
  mkMarketContext "bullish" "bullish" "low" "bullish"
    22000 21800 21500 48000 47500 47000 12.5 0 0.85 0.85.

(** A context whose market state is neutral. *)
Definition neutral_context : MarketContext :=
  mkMarketContext "neutral" "neutral" "moderate" "neutral"
    22000.0 22000.0 22000.0 48000.0 48000.0 48000.0 17.0 0 0.5 0.55.

(** Inputs for one BUY recommendation without a market context. *)
Definition example_sentiment : SentimentData := mkSentimentData "TEST" 0.9 0.8 5.

Definition example_fundamental : FundamentalMetrics :=
  mkFundamentalMetrics "TEST" (Some 15.0) (Some 2.0) (Some 0.5) (Some 5.0)
    (Some 10.0) (Some 20.0) 0.5.

Definition example_engine : RecommendationEngine :=
  RecommendationEngine_init default_Configuration.

(** The action before and after the market-context adjustment. *)
Definition combined_score_of (self : RecommendationEngine)
    (sentiment : SentimentData) (technical : TechnicalIndicators)
    (fundamental : FundamentalMetrics) (market_context : option MarketContext) : Q :=
  let weights := _get_dynamic_weights self market_context in
  sn_sentiment_score sentiment * w_sentiment weights +
  ti_technical_score technical * w_technical weights +
  fm_fundamental_score fundamental * w_fundamental weights.

Definition final_action_of (combined_score : Q)
    (market_context : option MarketContext) : string :=
  let action :=
    if Qltb 0.3 combined_score then "BUY"
    else if Qltb combined_score (-0.3) then "SELL"
    else "HOLD" in
  match market_context with
  | Some mc => _adjust_for_market_context action combined_score mc
  | None => action
  end.

(** The three hard bounds of [_calculate_favorability]'s docstring. *)
Definition favorability_rule (mc : MarketContext) : Prop :=
  (market_state mc = "bearish" -> market_favorability mc <= 0.40) /\
  (vix_level mc = "very_high" -> market_favorability mc <= 0.25) /\
  (market_state mc = "bullish" -> 0.70 <= market_favorability mc).

(** The analyzers that calls of [get_market_context] can leave behind,
    starting from a newly constructed one. *)
Inductive reachable : MarketContextAnalyzer -> Prop :=
| reachable_init : reachable MarketContextAnalyzer_init
| reachable_call (self : MarketContextAnalyzer) (data_provider : DataProvider)
    (now : Z) (use_cache : bool) :
    reachable self ->
    reachable (snd (get_market_context self data_provider now use_cache)).

Definition cache_ok (self : MarketContextAnalyzer) : Prop :=
  forall mc, _cache self = Some mc -> favorability_rule mc.

(** A provider under which both indices trade at 90 below a 50-day history
    at 100 while the VIX stands at 18: a bearish market. *)
Definition bearish_provider : DataProvider :=
  fun symbol =>
    if String.eqb symbol INDIA_VIX then Ok (mkStockData 18.0 [])
    else Ok (mkStockData 90.0 (repeat (mkPricePoint 0 100 100 100 100 0) 50)).

(** Ten well-formed daily points, fewer than the 15 that a 14-period ATR
    or RSI needs. *)
Definition short_history : list PricePoint :=
  map (fun d => mkPricePoint (Z.of_nat d) 100 101 99 100 1000) (seq 1 10).

(** A chronological history: strictly increasing dates. *)
Fixpoint chronologicalb (l : list PricePoint) : bool :=
  match l with
  | p :: (q :: _) as r => (pp_date p <? pp_date q)%Z && chronologicalb r
  | _ => true
  end.

Definition chronological (l : list PricePoint) : Prop := chronologicalb l = true.

(** The part of [analyze] before the score: the length check, the five
    indicator computations and the construction of the indicators object. *)
Definition analyze_indicators (symbol : string) (prices : list PricePoint)
  : result (Q * TechnicalIndicators) :=
  if (List.length prices <? 200)%nat
  then Err (ValueError "Need at least 200 price points for complete technical analysis")
  else
    let current_price := pp_close (last prices (mkPricePoint 0 0 0 0 0 0)) in
    mas <- calculate_moving_averages prices ;;
    rsi <- calculate_rsi prices 14 ;;
    '(macd, macd_signal) <- calculate_macd prices ;;
    atr <- calculate_atr prices 14 ;;
    '(support, resistance) <- find_support_resistance prices ;;
    indicators <- TechnicalIndicators_init symbol
                    (ma_20 mas) (ma_50 mas) (ma_200 mas) rsi macd macd_signal
                    support resistance 0.0 atr ;;
    Ok (current_price, indicators).

(** Two hundred daily points at a constant price of 100. *)
Definition flat_history : list PricePoint :=
  map (fun d => mkPricePoint (Z.of_nat d) 100 100 100 100 1000) (seq 1 200).

(** What is known of [numpy.tanh] where an example needs it: its values lie
    in [-1, 1] and have the sign of the argument. *)
Definition tanh_like (f : Q -> Q) : Prop :=
  forall x, -1 <= f x <= 1 /\ (0 < x -> 0 < f x) /\ (x < 0 -> f x < 0).

(** The piecewise-linear "hard tanh", a function of that kind that
    computes. *)
Definition hard_tanh (x : Q) : Q := py_max (-1) (py_min 1 x).

(** A history from a list of closing prices, one point a day, with
    [open = high = low = close]. *)
Definition history_of_closes (closes : list Q) : list PricePoint :=
  map (fun dc => mkPricePoint (Z.of_nat (fst dc)) (snd dc) (snd dc) (snd dc) (snd dc) 1000)
      (combine (seq 1 (List.length closes)) closes).

(** 196 days at 100, one day at 101, three days back at 100: the price is
    below the 20-day average while the MACD is still positive, which
    classifies as consolidation. *)
Definition blip_history : list PricePoint :=
  history_of_closes (repeat 100 196 ++ [101; 100; 100; 100])%list.

(** 186 days at 100, then fourteen days falling by 1 a day: RSI 0, MACD
    negative, price below the 20-day average, which classifies as
    oversold-zone. *)
Definition slide_history : list PricePoint :=
  history_of_closes
    (repeat 100 186 ++ map (fun k => 100 - inject_Z (Z.of_nat k)) (seq 1 14))%list.

Definition indicators_of (prices : list PricePoint) : TechnicalIndicators :=
  match analyze_indicators "TEST" prices with
  | Ok (_, i) => i
  | Err _ => example_indicators
  end.

Definition blip_indicators : TechnicalIndicators :=
  Eval vm_compute in indicators_of blip_history.

Definition slide_indicators : TechnicalIndicators :=
  Eval vm_compute in indicators_of slide_history.

(* ================================================================== *)
(** ** src/no_trade_detector.py: blocking and the safety score *)
(* ================================================================== *)

Definition should_block_recommendation (self : NoTradeDetector) (action : string)
    (market_context : option MarketContext) : result bool :=
  if negb (String.eqb action "BUY") then Ok false
  else
    signal <- check_market_conditions self market_context ;;
    if is_no_trade signal then Ok true else Ok false.

Definition get_market_safety_score (self : NoTradeDetector)
    (market_context : option MarketContext) : result Q :=
  match market_context with
  | None => Ok 0.5
  | Some market_context =>
      let safety_score := 1.0 in
      let safety_score :=
        if String.eqb (market_state market_context) "bearish" then safety_score - 0.3
        else if String.eqb (market_state market_context) "volatile"
        then safety_score - 0.4
        else safety_score in
      let safety_score :=
        if String.eqb (vix_level market_context) "very_high" then safety_score - 0.4
        else if String.eqb (vix_level market_context) "high" then safety_score - 0.3
        else if String.eqb (vix_level market_context) "moderate" then safety_score - 0.1
        else safety_score in
      nifty_below_50dma <-
        py_div (nifty_price market_context - nifty_50dma market_context)
          (nifty_50dma market_context) ;;
      let safety_score :=
        if Qltb nifty_below_50dma (-0.05) then safety_score - 0.3
        else if Qltb nifty_below_50dma (-0.03) then safety_score - 0.2
        else safety_score in
      Ok (py_max 0.0 (py_min 1.0 safety_score))
  end.

(* ================================================================== *)
(** ** src/reversal_watch_detector.py *)
(* ================================================================== *)

(** [ReversalTrigger]; the description text is left out. *)
Record ReversalTrigger : Type := mkReversalTrigger {
  rt_name : string;
  rt_met : bool;
  rt_value : Q;
  rt_threshold : Q
}.

(** [ReversalWatch]; the reasoning text and the timestamp are left out. *)
Record ReversalWatch : Type := mkReversalWatch {
  rw_symbol : string;
  rw_is_reversal_setup : bool;
  rw_status : string;
  rw_triggers : list ReversalTrigger;
  rw_confidence : Q
}.

(** The reason texts of [check_fundamental_quality], each constructor one
    message template with the values formatted into it. *)
Inductive FundamentalQuality : Type :=
| ScoreNegative
| PERatioTooHigh (pe_ratio : Q)
| PBRatioTooHigh (pb_ratio : Q)
| DebtToEquityTooHigh (debt_to_equity : Q)
| RevenueDecliningRapidly (revenue_growth : Q)
| FairFundamentals (reasons : list (string * Q)).

(** An early [return False, reason], or the running [reasons] list. *)
Definition or_return {A B : Type} (r : B + A) (k : A -> bool * B) : bool * B :=
  match r with
  | inl why => (false, why)
  | inr a => k a
  end.

Definition check_fundamental_quality (fundamental : FundamentalMetrics)
  : bool * FundamentalQuality :=
  let reasons : list (string * Q) := [] in
  if Qltb (fm_fundamental_score fundamental) 0 then (false, ScoreNegative)
  else
    or_return
      (match fm_pe_ratio fundamental with
       | Some pe_ratio =>
           if Qltb 30 pe_ratio then inl (PERatioTooHigh pe_ratio)
           else inr (reasons ++ [("P/E", pe_ratio)])%list
       | None => inr reasons
       end)
      (fun reasons =>
    or_return
      (match fm_pb_ratio fundamental with
       | Some pb_ratio =>
           if Qltb 5 pb_ratio then inl (PBRatioTooHigh pb_ratio)
           else inr (reasons ++ [("P/B", pb_ratio)])%list
       | None => inr reasons
       end)
      (fun reasons =>
    or_return
      (match fm_debt_to_equity fundamental with
       | Some debt_to_equity =>
           if Qltb 2.0 debt_to_equity then inl (DebtToEquityTooHigh debt_to_equity)
           else inr (reasons ++ [("D/E", debt_to_equity)])%list
       | None => inr reasons
       end)
      (fun reasons =>
    or_return
      (match fm_revenue_growth fundamental with
       | Some revenue_growth =>
           if Qltb revenue_growth (-10) then inl (RevenueDecliningRapidly revenue_growth)
           else inr (reasons ++ [("Revenue growth", revenue_growth)])%list
       | None => inr reasons
       end)
      (fun reasons => (true, FairFundamentals reasons))))).

(** The reason texts of [check_market_panic]. *)
Inductive PanicReason : Type :=
| NoContextAssumeNotPanic
| VixExtremelyHigh (vix_value : Q)
| VolatileWithHighVix (vix_value : Q)
| NotInPanic (vix_value : Q).

Definition check_market_panic (market_context : option MarketContext)
  : bool * PanicReason :=
  match market_context with
  | None => (false, NoContextAssumeNotPanic)
  | Some market_context =>
      if Qltb 30 (vix_value market_context)
      then (true, VixExtremelyHigh (vix_value market_context))
      else if String.eqb (market_state market_context) "volatile" &&
              Qltb 25 (vix_value market_context)
      then (true, VolatileWithHighVix (vix_value market_context))
      else (false, NotInPanic (vix_value market_context))
  end.

(** [sum(l)] on Python integers. *)
Definition py_sum_int (l : list Z) : Z := fold_left Z.add l 0%Z.

Definition check_reversal_triggers (technical : TechnicalIndicators)
    (prices : list PricePoint) : list ReversalTrigger :=
  let triggers := [] in
  let rsi_met := Qltb 30 (ti_rsi technical) in
  let triggers :=
    (triggers ++ [mkReversalTrigger "RSI Recovery" rsi_met (ti_rsi technical) 30.0])%list in
  let macd_histogram := ti_macd technical - ti_macd_signal technical in
  let macd_met := Qltb 0 macd_histogram in
  let triggers :=
    (triggers ++ [mkReversalTrigger "MACD Momentum" macd_met macd_histogram 0.0])%list in
  if (20 <=? List.length prices)%nat then
    let recent_volumes := map pp_volume (last_n 20 prices) in
    let avg_volume :=
      inject_Z (py_sum_int recent_volumes)
      / inject_Z (Z.of_nat (List.length recent_volumes)) in
    let current_volume := pp_volume (last prices (mkPricePoint 0 0 0 0 0 0)) in
    let volume_ratio :=
      if Qltb 0 avg_volume then inject_Z current_volume / avg_volume else 1.0 in
    let volume_met := Qltb 1.5 volume_ratio in
    (triggers ++ [mkReversalTrigger "Volume Spike" volume_met volume_ratio 1.5])%list
  else
    (triggers ++ [mkReversalTrigger "Volume Spike" false 0.0 1.5])%list.

(** [sum(1 for t in triggers if t.met)]. *)
Definition count_met (triggers : list ReversalTrigger) : nat :=
  List.length (filter rt_met triggers).

Definition detect (symbol : string) (technical : TechnicalIndicators)
    (fundamental : FundamentalMetrics) (market_context : option MarketContext)
    (prices : list PricePoint) : ReversalWatch :=
  let is_oversold := String.eqb (ti_regime technical) "oversold-zone" in
  if negb is_oversold
  then mkReversalWatch symbol false "not-applicable" [] 0.0
  else
    let '(fundamentals_ok, fund_reason) := check_fundamental_quality fundamental in
    if negb fundamentals_ok
    then mkReversalWatch symbol false "not-applicable" [] 0.0
    else
      let '(is_panic, panic_reason) := check_market_panic market_context in
      if is_panic
      then mkReversalWatch symbol false "not-applicable" [] 0.0
      else
        let triggers := check_reversal_triggers technical prices in
        let triggers_met := count_met triggers in
        let total_triggers := List.length triggers in
        let '(status, confidence) :=
          if (triggers_met =? total_triggers)%nat then ("triggered", 0.85)
          else if (2 <=? triggers_met)%nat then ("watch-only", 0.65)
          else ("watch-only", 0.45) in
        mkReversalWatch symbol true status triggers confidence.

(* ================================================================== *)
(** ** src/fundamental_analyzer.py *)
(* ================================================================== *)

(** [CompanyFinancials] of src/data_provider.py: a plain object. *)
Record CompanyFinancials : Type := mkCompanyFinancials {
  cf_symbol : string;
  cf_market_cap : option Q;
  cf_pe_ratio : option Q;
  cf_pb_ratio : option Q;
  cf_debt_to_equity : option Q;
  cf_eps : option Q;
  cf_revenue : option Q;
  cf_revenue_growth : option Q;
  cf_book_value : option Q
}.

(** [FundamentalMetrics.__post_init__] on an object whose direction,
    strength and confidence are the defaults ["neutral"], [0.0], [0.0], as
    [calculate_ratios] builds it: the symbol and the score are checked. *)
Definition FundamentalMetrics_post_init (m : FundamentalMetrics)
  : result FundamentalMetrics :=
  if String.eqb (fm_symbol m) ""
  then Err (ValueError "Symbol cannot be empty")
  else if negb (Qleb (-1.0) (fm_fundamental_score m) && Qleb (fm_fundamental_score m) 1.0)
  then Err (ValueError "Fundamental score must be between -1.0 and 1.0")
  else Ok m.

Definition calculate_ratios (financials : CompanyFinancials) (current_price : Q)
  : result FundamentalMetrics :=
  let pe_ratio :=
    match cf_eps financials with
    | Some eps =>
        if Qltb 0 eps then Some (current_price / eps) else cf_pe_ratio financials
    | None => cf_pe_ratio financials
    end in
  let pb_ratio :=
    match cf_book_value financials with
    | Some book_value =>
        if Qltb 0 book_value then Some (current_price / book_value)
        else cf_pb_ratio financials
    | None => cf_pb_ratio financials
    end in
  let debt_to_equity := cf_debt_to_equity financials in
  let eps := cf_eps financials in
  let revenue_growth :=
    match cf_revenue_growth financials with
    | Some revenue_growth =>
        if Qleb (-1.0) revenue_growth && Qleb revenue_growth 1.0
        then Some (revenue_growth * 100)
        else Some revenue_growth
    | None => None
    end in
  FundamentalMetrics_post_init
    (mkFundamentalMetrics (cf_symbol financials) pe_ratio pb_ratio debt_to_equity
       eps revenue_growth None 0.0).

(** The [industry_averages] dictionary of [compare_to_industry]. *)
Definition industry_averages : list (string * Q) :=
  [("Technology", 25.0); ("Healthcare", 20.0); ("Finance", 15.0);
   ("Consumer", 18.0); ("Energy", 12.0); ("Utilities", 16.0);
   ("Real Estate", 22.0); ("Materials", 14.0); ("Industrials", 17.0);
   ("Telecommunications", 13.0)].

(** [d.get(key, default)] on a dictionary with string keys. *)
Fixpoint dict_get {A : Type} (d : list (string * A)) (key : string) (default : A) : A :=
  match d with
  | [] => default
  | (k, v) :: rest => if String.eqb k key then v else dict_get rest key default
  end.

Definition compare_to_industry (metrics : FundamentalMetrics) (industry : string)
  : FundamentalMetrics :=
  let industry_avg_pe := dict_get industry_averages industry 18.0 in
  mkFundamentalMetrics (fm_symbol metrics) (fm_pe_ratio metrics) (fm_pb_ratio metrics)
    (fm_debt_to_equity metrics) (fm_eps metrics) (fm_revenue_growth metrics)
    (Some industry_avg_pe) (fm_fundamental_score metrics).

(** The four component scores of [generate_fundamental_score]. *)
Definition pe_score_of (pe_ratio_normalized : Q) : Q :=
  if Qltb pe_ratio_normalized 0.7 then 1.0
  else if Qltb pe_ratio_normalized 0.9 then 0.5
  else if Qltb pe_ratio_normalized 1.1 then 0.0
  else if Qltb pe_ratio_normalized 1.3 then -0.5
  else -1.0.

Definition pb_score_of (pb_ratio : Q) : Q :=
  if Qltb pb_ratio 1.0 then 1.0
  else if Qltb pb_ratio 2.0 then 0.5
  else if Qltb pb_ratio 3.0 then 0.0
  else if Qltb pb_ratio 5.0 then -0.5
  else -1.0.

Definition de_score_of (debt_to_equity : Q) : Q :=
  if Qltb debt_to_equity 0.3 then 1.0
  else if Qltb debt_to_equity 0.5 then 0.5
  else if Qltb debt_to_equity 1.0 then 0.0
  else if Qltb debt_to_equity 2.0 then -0.5
  else -1.0.

Definition growth_score_of (revenue_growth : Q) : Q :=
  if Qltb 20.0 revenue_growth then 1.0
  else if Qltb 10.0 revenue_growth then 0.5
  else if Qltb 0.0 revenue_growth then 0.0
  else if Qltb (-5.0) revenue_growth then -0.5
  else -1.0.

(** [generate_fundamental_score]; [components] pairs each appended score with
    its weight, in the order of appending. *)
Definition generate_fundamental_score (metrics : FundamentalMetrics) : result Q :=
  let components : list (Q * Q) := [] in
  components <-
    match fm_pe_ratio metrics, fm_industry_avg_pe metrics with
    | Some pe_ratio, Some industry_avg_pe =>
        pe_ratio_normalized <- py_div pe_ratio industry_avg_pe ;;
        Ok (components ++ [(pe_score_of pe_ratio_normalized, 0.35)])%list
    | _, _ => Ok components
    end ;;
  let components :=
    match fm_pb_ratio metrics with
    | Some pb_ratio => (components ++ [(pb_score_of pb_ratio, 0.25)])%list
    | None => components
    end in
  let components :=
    match fm_debt_to_equity metrics with
    | Some debt_to_equity => (components ++ [(de_score_of debt_to_equity, 0.20)])%list
    | None => components
    end in
  let components :=
    match fm_revenue_growth metrics with
    | Some revenue_growth => (components ++ [(growth_score_of revenue_growth, 0.20)])%list
    | None => components
    end in
  match components with
  | [] => Ok 0.0
  | _ =>
      let total_weight := py_sum (map snd components) in
      let weighted_sum := py_sum (map (fun sw => fst sw * snd sw) components) in
      fundamental_score <- py_div weighted_sum total_weight ;;
      Ok (py_max (-1.0) (py_min 1.0 fundamental_score))
  end.

(** The [FundamentalMetrics] object that [FundamentalAnalyzer.analyze]
    returns: the metrics with the score filled in, and the direction,
    strength and confidence assigned to it. *)
Record FundamentalSignal : Type := mkFundamentalSignal {
  fs_metrics : FundamentalMetrics;
  fs_direction : string;
  fs_strength : Q;
  fs_confidence : Q
}.

(** [FundamentalAnalyzer.analyze]. *)
Definition FundamentalAnalyzer_analyze (financials : CompanyFinancials)
    (current_price : Q) (industry : string) : result FundamentalSignal :=
  metrics <- calculate_ratios financials current_price ;;
  let metrics := compare_to_industry metrics industry in
  fundamental_score <- generate_fundamental_score metrics ;;
  let metrics :=
    mkFundamentalMetrics (fm_symbol metrics) (fm_pe_ratio metrics) (fm_pb_ratio metrics)
      (fm_debt_to_equity metrics) (fm_eps metrics) (fm_revenue_growth metrics)
      (fm_industry_avg_pe metrics) fundamental_score in
  let '(direction, strength) :=
    if Qltb 0.2 fundamental_score then ("bullish", Qabs fundamental_score)
    else if Qltb fundamental_score (-0.2) then ("bearish", Qabs fundamental_score)
    else ("neutral", Qabs fundamental_score * 0.3) in
  let missing_metrics :=
    (bool_int (is_none (fm_pe_ratio metrics)) +
     bool_int (is_none (fm_pb_ratio metrics)) +
     bool_int (is_none (fm_revenue_growth metrics)))%nat in
  let confidence :=
    if (missing_metrics =? 0)%nat then 0.9
    else if (2 <=? missing_metrics)%nat then 0.5
    else 0.7 in
  Ok (mkFundamentalSignal metrics direction strength confidence).

(* ================================================================== *)
(** ** src/agent_core.py: filtering and the no-trade override *)
(* ================================================================== *)

(** [AnalysisResult], the fields that [filter_actionable_recommendations]
    reads. *)
Record AnalysisResult : Type := mkAnalysisResult {
  ar_symbol : string;
  ar_recommendation : Recommendation
}.

(** [DiscoveredStock] of src/news_discovery.py, the two fields read here. *)
Record DiscoveredStock : Type := mkDiscoveredStock {
  ds_symbol : string;
  ds_mention_count : Z
}.

(** [d[key] = value] on a dictionary with string keys. *)
Fixpoint dict_set {A : Type} (d : list (string * A)) (key : string) (value : A)
  : list (string * A) :=
  match d with
  | [] => [(key, value)]
  | (k, v) :: rest =>
      if String.eqb k key then (k, value) :: rest else (k, v) :: dict_set rest key value
  end.

(** [{stock.symbol: stock.mention_count for stock in discovered_stocks}]. *)
Definition mention_counts_of (discovered_stocks : option (list DiscoveredStock))
  : list (string * Z) :=
  match discovered_stocks with
  | None => []
  | Some stocks =>
      fold_left (fun d stock => dict_set d (ds_symbol stock) (ds_mention_count stock))
        stocks []
  end.

(** [sort_key]: the pair [(-confidence, -mention_count)]. *)
Definition sort_key (mention_counts : list (string * Z)) (result : AnalysisResult)
  : Q * Z :=
  let confidence := rec_confidence (ar_recommendation result) in
  let mention_count := dict_get mention_counts (ar_symbol result) 0%Z in
  (- confidence, (- mention_count)%Z).

(** [k1 <= k2] on such pairs: Python compares tuples lexicographically. *)
Definition key_le (k1 k2 : Q * Z) : bool :=
  Qltb (fst k1) (fst k2) || (Qeqb (fst k1) (fst k2) && (snd k1 <=? snd k2)%Z).

(** [list.sort(key=...)]: a stable sort, here by insertion. *)
Fixpoint insert_by_key {A : Type} (key : A -> Q * Z) (x : A) (l : list A) : list A :=
  match l with
  | [] => [x]
  | y :: r => if key_le (key x) (key y) then x :: l else y :: insert_by_key key x r
  end.

Fixpoint sort_by_key {A : Type} (key : A -> Q * Z) (l : list A) : list A :=
  match l with
  | [] => []
  | x :: r => insert_by_key key x (sort_by_key key r)
  end.

Definition filter_actionable_recommendations (analysis_results : list AnalysisResult)
    (discovered_stocks : option (list DiscoveredStock)) : list AnalysisResult :=
  let actionable_results :=
    filter (fun result => str_in (rec_action (ar_recommendation result)) ["BUY"; "SELL"])
      analysis_results in
  let mention_counts := mention_counts_of discovered_stocks in
  sort_by_key (sort_key mention_counts) actionable_results.

(** The override step of [AgentCore.analyze_stock]: with an active no-trade
    signal the action of a BUY recommendation is reassigned to HOLD; every
    other attribute of the object stays (the reasoning text is not
    modelled). *)
Definition override_buy_on_no_trade (no_trade_signal : NoTradeSignal)
    (recommendation : Recommendation) : Recommendation :=
  if is_no_trade no_trade_signal && String.eqb (rec_action recommendation) "BUY"
  then
    mkRecommendation (rec_symbol recommendation) "HOLD"
      (rec_confidence recommendation)
      (rec_entry_price_low recommendation) (rec_entry_price_high recommendation)
      (rec_exit_price_low recommendation) (rec_exit_price_high recommendation)
      (rec_sentiment_contribution recommendation)
      (rec_technical_contribution recommendation)
      (rec_fundamental_contribution recommendation)
      (rec_trade_levels recommendation)
      (rec_confidence_breakdown recommendation)
      (rec_runtime_weights recommendation)
  else recommendation.

(* ================================================================== *)
(** ** src/risk_manager.py *)
(* ================================================================== *)

Definition RISK_TOLERANCE_MULTIPLIERS : list (string * Q) :=
  [("conservative", 0.5); ("moderate", 1.0); ("aggressive", 1.5)].

Definition CONCENTRATION_THRESHOLD : Q := 20.0.
Definition HIGH_CORRELATION_THRESHOLD : Q := 0.7.

(** [key in d]. *)
Definition dict_mem {A : Type} (d : list (string * A)) (key : string) : bool :=
  existsb (fun kv => String.eqb (fst kv) key) d.

Record RiskManager : Type := mkRiskManager {
  risk_tolerance : string
}.

Definition RiskManager_init (risk_tolerance : string) : result RiskManager :=
  if negb (dict_mem RISK_TOLERANCE_MULTIPLIERS risk_tolerance)
  then Err (ValueError
              "Risk tolerance must be one of: ['conservative', 'moderate', 'aggressive']")
  else Ok (mkRiskManager risk_tolerance).

(** [suggest_position_size]; [risk_tolerance] is [None] or a string, and
    [risk_tolerance or self.risk_tolerance] also falls back on the empty
    string. *)
Definition suggest_position_size (self : RiskManager) (symbol : string)
    (portfolio_value stock_volatility : Q) (risk_tolerance_arg : option string)
  : result Q :=
  if Qleb portfolio_value 0
  then Err (ValueError "Portfolio value must be positive")
  else if Qltb stock_volatility 0
  then Err (ValueError "Stock volatility cannot be negative")
  else
    let tolerance :=
      match risk_tolerance_arg with
      | Some t => if String.eqb t "" then risk_tolerance self else t
      | None => risk_tolerance self
      end in
    if negb (dict_mem RISK_TOLERANCE_MULTIPLIERS tolerance)
    then Err (ValueError
                "Risk tolerance must be one of: ['conservative', 'moderate', 'aggressive']")
    else
      let base_size := 5.0 in
      let tolerance_multiplier := dict_get RISK_TOLERANCE_MULTIPLIERS tolerance 0 in
      let volatility_multiplier :=
        if Qltb stock_volatility 0.2 then 1.5
        else if Qleb stock_volatility 0.4 then 1.0
        else 0.5 in
      let suggested_size := base_size * tolerance_multiplier * volatility_multiplier in
      let suggested_size := py_min suggested_size CONCENTRATION_THRESHOLD in
      let suggested_size := py_max 0.0 suggested_size in
      Ok suggested_size.

(* ================================================================== *)
(** ** Further inputs and auxiliary definitions *)
(* ================================================================== *)

(** A provider whose every fetch raises. *)
Definition failing_provider : DataProvider :=
  fun _ => Err (ValueError "unavailable").

(** A context that [get_market_context] computed from some provider's data
    at some time. *)
Definition produced_context (c : MarketContext) : Prop :=
  exists (data_provider : DataProvider) (now : Z),
    c = fresh_market_context data_provider now.

(* ================================================================== *)
(** * Properties *)
(* ================================================================== *)

(** ** Comparisons and Python's min/max *)

Lemma Qltb_lt (x y : Q) : Qltb x y = true <-> x < y.
Proof.
  unfold Qltb. rewrite negb_true_iff. split; intro H.
  - apply Qnot_le_lt. intro Hle. apply Qle_bool_iff in Hle. congruence.
  - destruct (Qle_bool y x) eqn:E; [|reflexivity].
    apply Qle_bool_iff in E. exfalso. apply (Qlt_not_le _ _ H E).
Qed.

Lemma Qltb_ge (x y : Q) : Qltb x y = false <-> y <= x.
Proof.
  unfold Qltb. rewrite negb_false_iff. apply Qle_bool_iff.
Qed.

Lemma Qleb_le (x y : Q) : Qleb x y = true <-> x <= y.
Proof. apply Qle_bool_iff. Qed.

Lemma Qleb_gt (x y : Q) : Qleb x y = false <-> y < x.
Proof.
  unfold Qleb. split; intro H.
  - apply Qnot_le_lt. intro Hle. apply Qle_bool_iff in Hle. congruence.
  - destruct (Qle_bool x y) eqn:E; [|reflexivity].
    apply Qle_bool_iff in E. exfalso. apply (Qlt_not_le _ _ H E).
Qed.

Lemma Qeqb_eq (x y : Q) : Qeqb x y = true <-> x == y.
Proof. apply Qeq_bool_iff. Qed.

Lemma Qeqb_neq (x y : Q) : Qeqb x y = false <-> ~ x == y.
Proof.
  unfold Qeqb. split; intro H.
  - apply Qeq_bool_neq, H.
  - destruct (Qeq_bool x y) eqn:E; [|reflexivity].
    apply Qeq_bool_iff in E. contradiction.
Qed.

(** [qcases] turns every boolean comparison of the goal into the order fact
    it decides, innermost comparisons first; [qhyps] does the same for the
    hypotheses. *)
Ltac no_if t :=
  lazymatch t with
  | context [if _ then _ else _] => fail
  | _ => idtac
  end.

Ltac qcases :=
  repeat match goal with
  | |- context [Qltb ?a ?b] =>
      no_if a; no_if b;
      let E := fresh "E" in
      destruct (Qltb a b) eqn:E;
      [apply Qltb_lt in E | apply Qltb_ge in E]
  | |- context [Qleb ?a ?b] =>
      no_if a; no_if b;
      let E := fresh "E" in
      destruct (Qleb a b) eqn:E;
      [apply Qleb_le in E | apply Qleb_gt in E]
  end.

Ltac qhyps :=
  repeat match goal with
  | H : Qltb _ _ = true |- _ => apply Qltb_lt in H
  | H : Qltb _ _ = false |- _ => apply Qltb_ge in H
  | H : Qleb _ _ = true |- _ => apply Qleb_le in H
  | H : Qleb _ _ = false |- _ => apply Qleb_gt in H
  | H : Qeqb _ _ = true |- _ => apply Qeqb_eq in H
  | H : Qeqb _ _ = false |- _ => apply Qeqb_neq in H
  end.

Lemma py_max_spec (a b : Q) :
  a <= py_max a b /\ b <= py_max a b /\ (py_max a b = a \/ py_max a b = b).
Proof. unfold py_max. qcases; repeat split; auto; lra. Qed.

Lemma py_min_spec (a b : Q) :
  py_min a b <= a /\ py_min a b <= b /\ (py_min a b = a \/ py_min a b = b).
Proof. unfold py_min. qcases; repeat split; auto; lra. Qed.

Lemma bind_ok {A B : Type} (r : result A) (k : A -> result B) (b : B) :
  bind r k = Ok b -> exists a, r = Ok a /\ k a = Ok b.
Proof. destruct r as [a|e]; simpl; [eauto | discriminate]. Qed.

(** ** Trade levels (src/recommendation_engine.py, src/models.py) *)

Lemma TradeLevels_post_init_ok (t tl : TradeLevels) :
  TradeLevels_post_init t = Ok tl ->
  tl = t /\ 0 < ideal_entry t /\ 0 < stop_loss t /\ 0 < target t /\
  stop_loss t < ideal_entry t /\ ideal_entry t < target t /\
  2 <= risk_reward_ratio t.
Proof.
  unfold TradeLevels_post_init.
  destruct (negb _) eqn:Er; qcases; try discriminate.
  intro H. inversion H; subst. repeat split; lra.
Qed.

Lemma calculate_trade_levels_validated
    (current_price : Q) (technical : TechnicalIndicators) (action : string)
    (tl : TradeLevels) :
  calculate_trade_levels current_price technical action = Ok tl ->
  action = "BUY" /\ exists t, TradeLevels_post_init t = Ok tl.
Proof.
  unfold calculate_trade_levels.
  destruct (String.eqb action "BUY") eqn:Ea; simpl; [|discriminate].
  apply String.eqb_eq in Ea.
  intro H.
  apply bind_ok in H. destruct H as [rr [_ H]].
  match type of H with
  | (let '(_, _) := ?c in _) = _ => destruct c as [tg rr']
  end.
  apply bind_ok in H. destruct H as [rf [_ H]].
  apply bind_ok in H. destruct H as [ps [_ H]].
  split; [exact Ea | eauto].
Qed.

(** C2.  Every trade-levels value that [calculate_trade_levels] returns has
    a risk-reward ratio of at least 2.0 and satisfies
    [stop_loss < ideal_entry < target].  The function returns only for the
    action BUY; no assumption on the price, the ATR or the support and
    resistance lists is needed, because the value is checked by
    [TradeLevels.__post_init__] before it is returned. *)
Theorem calculate_trade_levels_invariants
    (current_price : Q) (technical : TechnicalIndicators) (tl : TradeLevels) :
  calculate_trade_levels current_price technical "BUY" = Ok tl ->
  2.0 <= risk_reward_ratio tl /\
  stop_loss tl < ideal_entry tl /\ ideal_entry tl < target tl.
Proof.
  intro H. apply calculate_trade_levels_validated in H.
  destruct H as [_ [t H]].
  apply TradeLevels_post_init_ok in H.
  destruct H as [-> H]. repeat split; lra.
Qed.

Lemma example_trade_levels_eval :
  calculate_trade_levels 100.0 example_indicators "BUY" = Ok example_trade_levels.
Proof. vm_compute. reflexivity. Qed.

Lemma calculate_trade_levels_invariants_witness :
  2.0 <= risk_reward_ratio example_trade_levels /\
  stop_loss example_trade_levels < ideal_entry example_trade_levels /\
  ideal_entry example_trade_levels < target example_trade_levels.
Proof.
  apply (calculate_trade_levels_invariants 100.0 example_indicators).
  vm_compute. reflexivity.
Defined.

(** The qualification "returned" matters: with a positive but tiny ATR the
    entry and the stop round to the same hundredth, and the constructor
    check makes the calculator raise instead of returning. *)
Example calculate_trade_levels_tiny_atr_raises :
  calculate_trade_levels 100
    (mkTechnicalIndicators "TEST" 105 100 95 45 1 0.5 [] [] 0 0.001
       "neutral" 0 0 "neutral") "BUY"
  = Err (ValueError "Stop loss must be below entry for long positions").
Proof. vm_compute. reflexivity. Qed.

(** C5, as stated, fails: on the example input the ideal entry is 90.45,
    not approximately 98.0, and the stop loss is 89.55, not approximately
    95.0.  The support at 90 lies below the current price 100, so the entry
    is taken from it. *)
Lemma example_trade_levels_not_98_95 :
  exists tl,
    calculate_trade_levels 100.0 example_indicators "BUY" = Ok tl /\
    ~ approx (ideal_entry tl) 98.0 /\ ~ approx (stop_loss tl) 95.0.
Proof.
  exists example_trade_levels. split; [vm_compute; reflexivity|].
  unfold approx, example_trade_levels; simpl.
  split; intro H; vm_compute in H; apply H; reflexivity.
Qed.

(** C5, amended.  With [current_price = 100], [support_levels = [90]],
    [resistance_levels = [110]] and [atr = 2.0] the calculator yields
    [ideal_entry = 90.45] (nearest support 90 times 1.005),
    [stop_loss = 89.55] (the maximum of 90.45 - 3.0, 90 * 0.995 and
    0.92 * 90.45), [target = 109.45 >= 104] and
    [risk_reward_ratio = 21.11 >= 2.0]. *)
Theorem example_trade_levels_values :
  exists tl,
    calculate_trade_levels 100.0 example_indicators "BUY" = Ok tl /\
    ideal_entry tl == 90.45 /\ stop_loss tl == 89.55 /\
    target tl == 109.45 /\ 104 <= target tl /\
    risk_reward_ratio tl == 21.11 /\ 2.0 <= risk_reward_ratio tl.
Proof.
  exists example_trade_levels. split; [vm_compute; reflexivity|].
  unfold example_trade_levels; simpl.
  repeat split; try reflexivity; try (vm_compute; discriminate).
Qed.

(** ** The no-trade gate (src/no_trade_detector.py) *)

(** C3, as stated, fails: the rules of the gate are independent of one
    another, so a context with market state bullish and VIX level low is
    still blocked (severity medium) when the Nifty is more than the drop
    threshold below its 50-day average. *)
Lemma bullish_low_can_block :
  market_state bullish_low_below_50dma = "bullish" /\
  vix_level bullish_low_below_50dma = "low" /\
  exists signal,
    check_market_conditions default_NoTradeDetector (Some bullish_low_below_50dma)
      = Ok signal /\
    is_no_trade signal = true /\ severity signal = "medium".
Proof.
  split; [reflexivity|]. split; [reflexivity|].
  eexists. split; [vm_compute; reflexivity|]. split; reflexivity.
Qed.

(** The two guards that the claim leaves out: a disabled gate always allows
    trading, and a context whose Nifty 50-day average is 0 (what
    [_fetch_index_data] reports when the fetch fails) makes the check raise. *)
Example disabled_gate_allows (mc : MarketContext) :
  check_market_conditions (mkNoTradeDetector 25.0 0.03 false) (Some mc)
  = Ok (mkNoTradeSignal false [] TradingEnabled "low").
Proof. reflexivity. Qed.

Example zero_50dma_raises :
  check_market_conditions default_NoTradeDetector
    (Some (mkMarketContext "bearish" "bearish" "very_high" "bearish"
             0.0 0.0 0.0 44000.0 45000.0 46000.0 28.0 0 0.5 0.25))
  = Err ZeroDivisionError.
Proof. vm_compute. reflexivity. Qed.

Lemma py_div_ok (a b : Q) : ~ b == 0 -> py_div a b = Ok (a / b).
Proof.
  intro H. unfold py_div. apply Qeqb_neq in H. rewrite H. reflexivity.
Qed.

(** C3, amended.  With the gate enabled and a non-zero Nifty 50-day average:
    a context with market state bearish and VIX level very_high is blocked
    with severity high; a context with market state bullish and VIX level
    low is not blocked provided the Nifty is not more than the drop
    threshold below its 50-day average and the VIX value does not exceed the
    spike threshold. *)
Theorem check_market_conditions_gate
    (self : NoTradeDetector) (mc : MarketContext) :
  enable_no_trade self = true ->
  ~ nifty_50dma mc == 0 ->
  (market_state mc = "bearish" -> vix_level mc = "very_high" ->
   exists signal,
     check_market_conditions self (Some mc) = Ok signal /\
     is_no_trade signal = true /\ severity signal = "high") /\
  (market_state mc = "bullish" -> vix_level mc = "low" ->
   - nifty_drop_threshold self <= (nifty_price mc - nifty_50dma mc) / nifty_50dma mc ->
   vix_value mc <= vix_spike_threshold self ->
   exists signal,
     check_market_conditions self (Some mc) = Ok signal /\
     is_no_trade signal = false).
Proof.
  intros Hen Hdma. split.
  - intros Hs Hv. unfold check_market_conditions.
    rewrite Hen, Hs, Hv, (py_div_ok _ _ Hdma). simpl.
    destruct (Qltb _ (- nifty_drop_threshold self));
      destruct (Qltb (vix_spike_threshold self) _);
      destruct (String.eqb (nifty_trend mc) "bearish");
      destruct (String.eqb (banknifty_trend mc) "bearish");
      simpl; eexists; (split; [reflexivity|]); split; reflexivity.
  - intros Hs Hv Hdrop Hvix. unfold check_market_conditions.
    rewrite Hen, Hs, Hv, (py_div_ok _ _ Hdma). simpl.
    apply Qltb_ge in Hdrop. rewrite Hdrop.
    apply Qltb_ge in Hvix. rewrite Hvix.
    rewrite !andb_false_r. simpl.
    eexists. split; reflexivity.
Qed.

Lemma check_market_conditions_gate_witness :
  (exists signal,
     check_market_conditions default_NoTradeDetector (Some bearish_very_high)
       = Ok signal /\
     is_no_trade signal = true /\ severity signal = "high") /\
  (exists signal,
     check_market_conditions default_NoTradeDetector (Some bullish_low)
       = Ok signal /\
     is_no_trade signal = false).
Proof.
  split.
  - apply (proj1 (check_market_conditions_gate default_NoTradeDetector
                    bearish_very_high eq_refl
                    ltac:(vm_compute; discriminate)));
      reflexivity.
  - apply (proj2 (check_market_conditions_gate default_NoTradeDetector
                    bullish_low eq_refl
                    ltac:(vm_compute; discriminate)));
      try reflexivity; vm_compute; discriminate.
Defined.

(** ** Agreement in the confidence calculation (src/recommendation_engine.py) *)

(** C4, as stated, fails for the market signal: its agreement is not decided
    by a score of its own on the +-0.2 band.  A neutral market agrees with a
    bullish and with a bearish direction alike, which no single score can do
    (it would have to be above +0.2 and below -0.2). *)
Lemma market_agreement_is_not_a_score_band :
  ~ exists score : Q,
      market_agrees_of (Some neutral_context) "bullish"
        = agrees_with_signal score "bullish" /\
      market_agrees_of (Some neutral_context) "bearish"
        = agrees_with_signal score "bearish".
Proof.
  intros [score [Hb Hs]]. simpl in Hb, Hs.
  unfold agrees_with_signal in Hb, Hs. simpl in Hb, Hs.
  symmetry in Hb, Hs. qhyps. lra.
Qed.

(** The fused direction itself is cut at +-0.3, not at +-0.2: a combined
    score of 0.25 is a neutral direction, and a signal scoring 0.25, on the
    same side of the +-0.2 band, does not agree with it. *)
Example direction_band_is_03 :
  signal_direction_of 0.25 = "neutral" /\
  agrees_with_signal 0.25 (signal_direction_of 0.25) = false.
Proof. split; reflexivity. Qed.

Lemma signal_direction_of_cases (combined_score : Q) :
  (0.3 < combined_score /\ signal_direction_of combined_score = "bullish") \/
  (combined_score < -0.3 /\ signal_direction_of combined_score = "bearish") \/
  (-0.3 <= combined_score <= 0.3 /\ signal_direction_of combined_score = "neutral").
Proof.
  unfold signal_direction_of. qcases; auto.
Qed.

(** ** Fusion weights (src/recommendation_engine.py, src/config.py) *)

Lemma Qabs_le_iff (x y : Q) : Qabs x <= y <-> - y <= x <= y.
Proof. apply Qabs_Qle_condition. Qed.

Lemma normalize_weights_sum (c : Configuration) :
  ~ sentiment_weight c + technical_weight c + fundamental_weight c == 0 ->
  ~ sentiment_weight c + technical_weight c + fundamental_weight c == 1.0 ->
  sentiment_weight (normalize_weights c) + technical_weight (normalize_weights c) +
  fundamental_weight (normalize_weights c) == 1.
Proof.
  intros H0 H1. unfold normalize_weights.
  apply Qeqb_neq in H0. rewrite H0.
  assert (H1' : Qeqb (sentiment_weight c + technical_weight c + fundamental_weight c) 1.0
                = false) by (apply Qeqb_neq; exact H1).
  rewrite H1'. simpl. apply Qeqb_neq in H0. field. exact H0.
Qed.

Lemma normalize_weights_total (c : Configuration) :
  sentiment_weight (normalize_weights c) + technical_weight (normalize_weights c) +
  fundamental_weight (normalize_weights c) == 1.
Proof.
  destruct (Qeqb (sentiment_weight c + technical_weight c + fundamental_weight c) 0)
    eqn:E0.
  - unfold normalize_weights. rewrite E0. reflexivity.
  - destruct (Qeqb (sentiment_weight c + technical_weight c + fundamental_weight c) 1.0)
      eqn:E1.
    + unfold normalize_weights. rewrite E0, E1. simpl. apply Qeqb_eq in E1. lra.
    + apply normalize_weights_sum; apply Qeqb_neq; assumption.
Qed.

(** After [RecommendationEngine.__init__] the configured weights sum to 1.0
    within 0.001, for every configuration whose weights are not negative.
    (Weights of both signs can cancel to a total that is 0 on exact
    rationals and a rounding residue in binary64; they are left out.) *)
Lemma RecommendationEngine_init_weights (c : Configuration) :
  0 <= sentiment_weight c -> 0 <= technical_weight c -> 0 <= fundamental_weight c ->
  let cfg := config (RecommendationEngine_init c) in
  Qabs (sentiment_weight cfg + technical_weight cfg + fundamental_weight cfg - 1.0)
  <= 0.001.
Proof.
  intros _ _ _. cbv zeta. unfold RecommendationEngine_init.
  destruct (negb (validate_weights c)).
  - simpl config. rewrite Qabs_le_iff.
    pose proof (normalize_weights_total c) as H. split; lra.
  - destruct (Qltb 0.001 _) eqn:E.
    + simpl config. rewrite Qabs_le_iff.
      pose proof (normalize_weights_total c) as H. split; lra.
    + simpl config. apply Qltb_ge in E. unfold py_sum in E. cbn [fold_left] in E.
      rewrite Qabs_le_iff in *. split; lra.
Qed.

(** C8.  For every market state -- bullish, neutral, bearish, volatile or
    any other string, which falls back to the static weights -- and also
    when no MarketContext is supplied, the three weights selected by
    [_get_dynamic_weights] of an engine built by its constructor from a
    configuration with weights that are not negative sum to 1.0 within
    1e-3. *)
Theorem fusion_weights_sum_to_one
    (c : Configuration) (market_context : option MarketContext) :
  0 <= sentiment_weight c -> 0 <= technical_weight c -> 0 <= fundamental_weight c ->
  let w := _get_dynamic_weights (RecommendationEngine_init c) market_context in
  Qabs (w_sentiment w + w_technical w + w_fundamental w - 1.0) <= 0.001.
Proof.
  intros Hs0 Ht0 Hf0. cbv zeta.
  pose proof (RecommendationEngine_init_weights c Hs0 Ht0 Hf0) as Hs. cbv zeta in Hs.
  unfold _get_dynamic_weights.
  destruct market_context as [mc|]; [|exact Hs].
  destruct (String.eqb _ "bullish"); [vm_compute; discriminate|].
  destruct (String.eqb _ "neutral"); [vm_compute; discriminate|].
  destruct (String.eqb _ "bearish"); [vm_compute; discriminate|].
  destruct (String.eqb _ "volatile"); [vm_compute; discriminate|].
  exact Hs.
Qed.

(** A configuration that the constructor has to normalise (2, 1, 1), under
    a market state that falls back to the static weights. *)
Lemma fusion_weights_sum_to_one_witness :
  let w :=
    _get_dynamic_weights (RecommendationEngine_init (mkConfiguration 2 1 1))
      (Some (mkMarketContext "neutral" "neutral" "low" "sideways"
               0 0 0 0 0 0 0 0 0 0)) in
  w_source w = "static-fallback" /\
  Qabs (w_sentiment w + w_technical w + w_fundamental w - 1.0) <= 0.001.
Proof.
  split; [reflexivity|].
  apply (fusion_weights_sum_to_one (mkConfiguration 2 1 1)
           (Some (mkMarketContext "neutral" "neutral" "low" "sideways"
                    0 0 0 0 0 0 0 0 0 0)));
    vm_compute; discriminate.
Defined.

(** The selection on the four known states, in any letter case, and on an
    unknown one. *)
Example weights_by_state :
  let e := RecommendationEngine_init default_Configuration in
  let ctx s := Some (mkMarketContext "neutral" "neutral" "low" s
                       0 0 0 0 0 0 0 0 0 0) in
  _get_dynamic_weights e (ctx "bullish") = mkWeights 0.30 0.40 0.30 "dynamic-bullish" /\
  _get_dynamic_weights e (ctx "NEUTRAL") = mkWeights 0.25 0.35 0.40 "dynamic-neutral" /\
  _get_dynamic_weights e (ctx "bearish") = mkWeights 0.15 0.35 0.50 "dynamic-bearish" /\
  _get_dynamic_weights e (ctx "Volatile") = mkWeights 0.15 0.35 0.50 "dynamic-volatile" /\
  _get_dynamic_weights e (ctx "sideways") = mkWeights 0.5 0.3 0.2 "static-fallback" /\
  _get_dynamic_weights e None = mkWeights 0.5 0.3 0.2 "static".
Proof. repeat split; reflexivity. Qed.

(** ** Market favorability (src/market_context_analyzer.py) *)

Ltac closed_q := vm_compute; discriminate.

(** The bounds hold for a market state that [_determine_market_state]
    derived from the same trends and VIX level. *)
Lemma _calculate_favorability_bounds (nifty_trend banknifty_trend vix_level : string) :
  let market_state := _determine_market_state nifty_trend banknifty_trend vix_level in
  let f := _calculate_favorability market_state vix_level nifty_trend banknifty_trend in
  (market_state = "bearish" -> f <= 0.40) /\
  (vix_level = "very_high" -> f <= 0.25) /\
  (market_state = "bullish" -> 0.70 <= f).
Proof.
  cbv zeta. repeat split.
  - unfold _determine_market_state, str_in, existsb.
    destruct (String.eqb vix_level "high") eqn:Eh;
    destruct (String.eqb vix_level "very_high") eqn:Ev;
    destruct (String.eqb nifty_trend "bullish") eqn:Enb;
    destruct (String.eqb banknifty_trend "bullish") eqn:Ebb;
    destruct (String.eqb nifty_trend "bearish") eqn:Ens;
    destruct (String.eqb banknifty_trend "bearish") eqn:Ebs;
    simpl; intro H; try discriminate H;
    unfold _calculate_favorability; simpl String.eqb;
    rewrite ?Eh, ?Ev, ?Enb, ?Ebb, ?Ens, ?Ebs; cbv iota;
    destruct (String.eqb vix_level "low");
    destruct (String.eqb vix_level "moderate"); closed_q.
  - intro H. subst vix_level. simpl _determine_market_state.
    unfold _calculate_favorability; simpl String.eqb; cbv iota.
    destruct (String.eqb nifty_trend "bullish");
    destruct (String.eqb banknifty_trend "bullish");
    destruct (String.eqb nifty_trend "bearish");
    destruct (String.eqb banknifty_trend "bearish"); closed_q.
  - unfold _determine_market_state, str_in, existsb.
    destruct (String.eqb vix_level "high") eqn:Eh;
    destruct (String.eqb vix_level "very_high") eqn:Ev;
    destruct (String.eqb nifty_trend "bullish") eqn:Enb;
    destruct (String.eqb banknifty_trend "bullish") eqn:Ebb;
    destruct (String.eqb nifty_trend "bearish") eqn:Ens;
    destruct (String.eqb banknifty_trend "bearish") eqn:Ebs;
    simpl; intro H; try discriminate H;
    unfold _calculate_favorability; simpl String.eqb;
    rewrite ?Eh, ?Ev, ?Enb, ?Ebb, ?Ens, ?Ebs; cbv iota;
    destruct (String.eqb vix_level "low");
    destruct (String.eqb vix_level "moderate"); closed_q.
Qed.

Lemma fresh_market_context_favorability (data_provider : DataProvider) (now : Z) :
  favorability_rule (fresh_market_context data_provider now).
Proof.
  unfold favorability_rule, fresh_market_context. simpl.
  apply _calculate_favorability_bounds.
Qed.

Lemma get_market_context_step (self : MarketContextAnalyzer)
    (data_provider : DataProvider) (now : Z) (use_cache : bool) :
  cache_ok self ->
  favorability_rule (fst (get_market_context self data_provider now use_cache)) /\
  cache_ok (snd (get_market_context self data_provider now use_cache)).
Proof.
  intro Hc. unfold get_market_context.
  destruct (_cache self) as [cached|] eqn:Ec;
    [destruct (_cache_time self) as [t|];
     [destruct (use_cache && _) |] |]; simpl.
  - split; [apply Hc, Ec | exact Hc].
  - split; [apply fresh_market_context_favorability|].
    intros mc H. inversion H; subst. apply fresh_market_context_favorability.
  - split; [apply fresh_market_context_favorability|].
    intros mc H. inversion H; subst. apply fresh_market_context_favorability.
  - split; [apply fresh_market_context_favorability|].
    intros mc H. inversion H; subst. apply fresh_market_context_favorability.
Qed.

Lemma reachable_cache_ok (self : MarketContextAnalyzer) :
  reachable self -> cache_ok self.
Proof.
  induction 1 as [|self dp now uc Hr IH].
  - intros mc H. discriminate H.
  - apply get_market_context_step, IH.
Qed.

(** C7.  Every MarketContext that [get_market_context] returns -- computed
    afresh or taken from the cache, after any sequence of earlier calls --
    has favorability at most 0.40 when its market state is bearish, at most
    0.25 when its VIX level is very_high, and at least 0.70 when its market
    state is bullish. *)
Theorem get_market_context_favorability
    (self : MarketContextAnalyzer) (data_provider : DataProvider)
    (now : Z) (use_cache : bool) :
  reachable self ->
  let mc := fst (get_market_context self data_provider now use_cache) in
  (market_state mc = "bearish" -> market_favorability mc <= 0.40) /\
  (vix_level mc = "very_high" -> market_favorability mc <= 0.25) /\
  (market_state mc = "bullish" -> 0.70 <= market_favorability mc).
Proof.
  intro Hr. apply reachable_cache_ok in Hr.
  exact (proj1 (get_market_context_step self data_provider now use_cache Hr)).
Qed.

Example bearish_provider_context :
  let mc := fst (get_market_context MarketContextAnalyzer_init bearish_provider 0 true) in
  market_state mc = "bearish" /\ vix_level mc = "moderate" /\
  market_favorability mc == 0.385.
Proof. cbv zeta. repeat split. Qed.

Lemma get_market_context_favorability_witness :
  let mc := fst (get_market_context MarketContextAnalyzer_init bearish_provider 0 true) in
  (market_state mc = "bearish" -> market_favorability mc <= 0.40) /\
  (vix_level mc = "very_high" -> market_favorability mc <= 0.25) /\
  (market_state mc = "bullish" -> 0.70 <= market_favorability mc).
Proof.
  apply (get_market_context_favorability MarketContextAnalyzer_init bearish_provider 0 true).
  apply reachable_init.
Defined.

(** ** Insufficient data (src/technical_analyzer.py) *)

Lemma calculate_atr_short (prices : list PricePoint) (period : nat) :
  (List.length prices < period + 1)%nat -> calculate_atr prices period = Ok 0.0.
Proof.
  intro H. unfold calculate_atr.
  apply Nat.ltb_lt in H. rewrite H. reflexivity.
Qed.

(** C9.  On ten price points the 14-period ATR does not fail: it returns the
    default 0.0, where its docstring promises a ValueError and where
    [calculate_rsi] and [calculate_macd], given the same points, raise
    one. *)
Theorem calculate_atr_insufficient_data_default :
  Forall well_formed short_history /\
  calculate_atr short_history 14 = Ok 0.0 /\
  calculate_rsi short_history 14
    = Err (ValueError "Need at least 15 price points to calculate RSI") /\
  calculate_macd short_history
    = Err (ValueError "Need at least 35 price points to calculate MACD").
Proof.
  split.
  - unfold short_history. simpl. repeat constructor.
  - repeat split; reflexivity.
Qed.

(** ** The fields of a recommendation (src/recommendation_engine.py) *)

Lemma range_check_ok (low high : option Q) (m i : string) (u : unit) :
  range_check low high m i = Ok u -> low <> None /\ high <> None.
Proof.
  destruct low, high; simpl; try discriminate. intros _. split; discriminate.
Qed.

Lemma Recommendation_post_init_ok (r0 r : Recommendation) :
  Recommendation_post_init r0 = Ok r -> r = r0.
Proof.
  unfold Recommendation_post_init.
  destruct (String.eqb (rec_symbol r0) ""); [discriminate|].
  destruct (negb (str_in _ _)); [discriminate|].
  destruct (negb (_ && _)); [discriminate|].
  intro H.
  apply bind_ok in H. destruct H as [u1 [_ H]].
  apply bind_ok in H. destruct H as [u2 [_ H]].
  inversion H. reflexivity.
Qed.

(** C10.  For every Recommendation that [generate_recommendation] returns,
    [trade_levels] is present exactly when the action is BUY, the entry
    price bounds are set exactly when it is BUY, the exit price bounds are
    set exactly when it is SELL, and a HOLD recommendation carries none of
    them.  The action of the returned value is the final one, after the
    market-context downgrade. *)
Theorem generate_recommendation_fields
    (self : RecommendationEngine) (sentiment : SentimentData)
    (technical : TechnicalIndicators) (fundamental : FundamentalMetrics)
    (current_price : Q) (market_context : option MarketContext)
    (r : Recommendation) :
  generate_recommendation self sentiment technical fundamental current_price
    market_context = Ok r ->
  (rec_trade_levels r <> None <-> rec_action r = "BUY") /\
  (rec_entry_price_low r <> None <-> rec_action r = "BUY") /\
  (rec_entry_price_high r <> None <-> rec_action r = "BUY") /\
  (rec_exit_price_low r <> None <-> rec_action r = "SELL") /\
  (rec_exit_price_high r <> None <-> rec_action r = "SELL") /\
  (rec_action r = "HOLD" ->
   rec_trade_levels r = None /\
   rec_entry_price_low r = None /\ rec_entry_price_high r = None /\
   rec_exit_price_low r = None /\ rec_exit_price_high r = None).
Proof.
  unfold generate_recommendation. intro H.
  apply bind_ok in H. destruct H as [[confidence breakdown] [_ H]].
  cbv beta iota in H.
  match type of H with
  | context [String.eqb ?a "BUY"] => set (action := a) in H
  end.
  apply bind_ok in H. destruct H as [fields [Hf H]].
  destruct (String.eqb action "BUY") eqn:Eb.
  - destruct (suggest_price_range action current_price technical) as [low high].
    apply bind_ok in Hf. destruct Hf as [levels [_ Hf]].
    inversion Hf; subst fields. cbv beta iota in H.
    apply Recommendation_post_init_ok in H. subst r. simpl.
    apply String.eqb_eq in Eb. rewrite Eb.
    repeat split; intros; try discriminate; try reflexivity; try contradiction.
  - destruct (String.eqb action "SELL") eqn:Es.
    + destruct (suggest_price_range action current_price technical) as [low high].
      inversion Hf; subst fields. cbv beta iota in H.
      apply Recommendation_post_init_ok in H. subst r. simpl.
      apply String.eqb_eq in Es. rewrite Es.
      repeat split; intros; try discriminate; try reflexivity; try contradiction.
    + inversion Hf; subst fields. cbv beta iota in H.
      apply Recommendation_post_init_ok in H. subst r. simpl.
      apply String.eqb_neq in Eb. apply String.eqb_neq in Es.
      repeat split; intros; try discriminate; try reflexivity; try contradiction.
Qed.

Lemma generate_recommendation_fields_witness :
  exists r,
    generate_recommendation example_engine example_sentiment example_indicators
      example_fundamental 100.0 None = Ok r /\
    rec_action r = "BUY" /\
    (rec_trade_levels r <> None <-> rec_action r = "BUY") /\
    (rec_entry_price_low r <> None <-> rec_action r = "BUY") /\
    (rec_entry_price_high r <> None <-> rec_action r = "BUY") /\
    (rec_exit_price_low r <> None <-> rec_action r = "SELL") /\
    (rec_exit_price_high r <> None <-> rec_action r = "SELL") /\
    (rec_action r = "HOLD" ->
     rec_trade_levels r = None /\
     rec_entry_price_low r = None /\ rec_entry_price_high r = None /\
     rec_exit_price_low r = None /\ rec_exit_price_high r = None).
Proof.
  eexists. split; [vm_compute; reflexivity|]. split; [reflexivity|].
  apply (generate_recommendation_fields example_engine example_sentiment
           example_indicators example_fundamental 100.0 None).
  vm_compute. reflexivity.
Defined.

(** ** The indicator engine (src/technical_analyzer.py) *)

(** Sorting by date leaves a chronological history as it is. *)
Lemma sort_values_date_chronological (l : list PricePoint) :
  chronological l -> sort_values_date l = l.
Proof.
  unfold chronological. induction l as [|p r IH]; [reflexivity|].
  intro H. simpl sort_values_date.
  destruct r as [|q r'].
  - reflexivity.
  - simpl in H. apply andb_true_iff in H. destruct H as [Hpq Hr].
    rewrite (IH Hr). simpl.
    apply Z.ltb_lt in Hpq.
    destruct (pp_date p <=? pp_date q)%Z eqn:E; [reflexivity|].
    apply Z.leb_gt in E. lia.
Qed.

(** Well-formedness of every point of a history, as a computation. *)
Lemma PricePoint_post_init_ok (p q : PricePoint) :
  PricePoint_post_init p = Ok q -> q = p.
Proof.
  unfold PricePoint_post_init.
  repeat match goal with
  | |- context [if ?c then _ else _] => destruct c; try discriminate
  end.
  intro H. inversion H. reflexivity.
Qed.

Lemma well_formed_all (l : list PricePoint) :
  forallb (fun p => is_ok (PricePoint_post_init p)) l = true -> Forall well_formed l.
Proof.
  intro H. apply Forall_forall. intros p Hp.
  rewrite forallb_forall in H. specialize (H p Hp).
  unfold well_formed. destruct (PricePoint_post_init p) as [q|e] eqn:E; [|discriminate].
  apply PricePoint_post_init_ok in E. subst q. reflexivity.
Qed.

Lemma analyze_split (tanh : Q -> Q) (symbol : string) (prices : list PricePoint) :
  analyze tanh symbol prices =
  bind (analyze_indicators symbol prices)
       (fun ci => Ok (analyze_finish tanh (fst ci) (snd ci))).
Proof.
  unfold analyze, analyze_indicators.
  destruct (List.length prices <? 200)%nat; [reflexivity|].
  destruct (calculate_moving_averages prices); [simpl|reflexivity].
  destruct (calculate_rsi prices 14); [simpl|reflexivity].
  destruct (calculate_macd prices) as [[m s]|]; [simpl|reflexivity].
  destruct (calculate_atr prices 14); [simpl|reflexivity].
  destruct (find_support_resistance prices) as [[su re]|]; [simpl|reflexivity].
  destruct (TechnicalIndicators_init _ _ _ _ _ _ _ _ _ _ _); reflexivity.
Qed.

Lemma np_between_fin (lo hi : Q) (x : npfloat) :
  np_between lo x hi = true -> exists q, x = Fin q /\ lo <= q <= hi.
Proof.
  destruct x; simpl; try discriminate.
  intro H. apply andb_true_iff in H. destruct H. qhyps. eauto.
Qed.

Lemma TechnicalIndicators_init_ok
    (symbol : string) (m20 m50 m200 : Q) (rsi : npfloat) (macd sig : Q)
    (sup res : list Q) (score atr : Q) (i : TechnicalIndicators) :
  TechnicalIndicators_init symbol m20 m50 m200 rsi macd sig sup res score atr = Ok i ->
  0 <= ti_rsi i <= 100 /\ ti_macd i = macd /\ ti_macd_signal i = sig /\
  ti_ma_20 i = m20 /\ ti_ma_50 i = m50 /\ ti_ma_200 i = m200.
Proof.
  unfold TechnicalIndicators_init.
  destruct (String.eqb symbol ""); [discriminate|].
  destruct (np_between 0.0 rsi 100.0) eqn:Er; simpl; [|discriminate].
  destruct (Qleb (-1.0) score && Qleb score 1.0); simpl; [|discriminate].
  apply np_between_fin in Er. destruct Er as [q [-> Hq]].
  intro H. inversion H; subst; simpl. repeat split; lra.
Qed.

Lemma generate_technical_score_range (tanh : Q -> Q) (i : TechnicalIndicators) :
  -1 <= generate_technical_score tanh i <= 1.
Proof.
  unfold generate_technical_score. cbv zeta.
  set (s := py_sum _).
  unfold py_max, py_min. qcases; lra.
Qed.

Lemma analyze_finish_fields (tanh : Q -> Q) (cp : Q) (i : TechnicalIndicators) :
  ti_regime (analyze_finish tanh cp i) = classify_regime cp i /\
  ti_technical_score (analyze_finish tanh cp i) = generate_technical_score tanh i /\
  ti_rsi (analyze_finish tanh cp i) = ti_rsi i.
Proof.
  unfold analyze_finish.
  destruct (map_regime_to_direction _) as [d m].
  match goal with
  | |- context [let '(_, _) := ?X in _] => destruct X as [d' s']
  end.
  simpl. auto.
Qed.

Lemma analyze_ok_finish (tanh : Q -> Q) (symbol : string) (prices : list PricePoint)
    (ind : TechnicalIndicators) :
  analyze tanh symbol prices = Ok ind ->
  (200 <= List.length prices)%nat /\
  exists cp i, 0 <= ti_rsi i <= 100 /\ ind = analyze_finish tanh cp i.
Proof.
  unfold analyze.
  destruct (List.length prices <? 200)%nat eqn:El; [discriminate|].
  apply Nat.ltb_ge in El. intro H. split; [exact El|].
  apply bind_ok in H. destruct H as [mas [_ H]].
  apply bind_ok in H. destruct H as [rsi [_ H]].
  apply bind_ok in H. destruct H as [[macd sig] [_ H]].
  apply bind_ok in H. destruct H as [atr [_ H]].
  apply bind_ok in H. destruct H as [[sup res] [_ H]].
  apply bind_ok in H. destruct H as [i [Hi H]].
  apply TechnicalIndicators_init_ok in Hi.
  inversion H. eexists. exists i. split; [tauto | reflexivity].
Qed.

(** Below 200 points, and so below 20, [analyze] fails with the
    insufficient-data error. *)
Lemma analyze_insufficient_data (tanh : Q -> Q) (symbol : string)
    (prices : list PricePoint) :
  (List.length prices < 200)%nat ->
  analyze tanh symbol prices
  = Err (ValueError "Need at least 200 price points for complete technical analysis").
Proof.
  intro H. unfold analyze. apply Nat.ltb_lt in H. rewrite H. reflexivity.
Qed.

(** Whenever [analyze] returns, the RSI lies in [0, 100] and the technical
    score in [-1, 1]. *)
Lemma analyze_ok_ranges (tanh : Q -> Q) (symbol : string) (prices : list PricePoint)
    (ind : TechnicalIndicators) :
  analyze tanh symbol prices = Ok ind ->
  0 <= ti_rsi ind <= 100 /\ -1 <= ti_technical_score ind <= 1.
Proof.
  intro H. apply analyze_ok_finish in H.
  destruct H as [_ [cp [i [Hr ->]]]].
  destruct (analyze_finish_fields tanh cp i) as [_ [Hs Hrsi]].
  rewrite Hs, Hrsi. split; [exact Hr | apply generate_technical_score_range].
Qed.

Lemma flat_history_well_formed : Forall well_formed flat_history.
Proof. apply well_formed_all. vm_compute. reflexivity. Qed.

(** C1.  On a well-formed chronological history of 200 points at a constant
    price the RSI is 0/0: [calculate_rsi] returns NaN, the constructor of
    the indicators object rejects it, and [analyze] raises a ValueError
    instead of returning an indicator set with the RSI in [0, 100]. *)
Theorem analyze_flat_history_raises :
  Forall well_formed flat_history /\ chronological flat_history /\
  List.length flat_history = 200%nat /\
  calculate_rsi flat_history 14 = Ok NaN /\
  forall tanh : Q -> Q,
    analyze tanh "TEST" flat_history
    = Err (ValueError "RSI must be between 0 and 100").
Proof.
  split; [exact flat_history_well_formed|].
  split; [vm_compute; reflexivity|].
  split; [reflexivity|].
  split; [vm_compute; reflexivity|].
  intro tanh. rewrite analyze_split.
  assert (E : analyze_indicators "TEST" flat_history
              = Err (ValueError "RSI must be between 0 and 100"))
    by (vm_compute; reflexivity).
  rewrite E. reflexivity.
Qed.

(** ** Strength by regime *)

Lemma classify_regime_values (cp : Q) (i : TechnicalIndicators) :
  In (classify_regime cp i)
     ["oversold-zone"; "overbought-zone"; "bullish-trend"; "bearish-trend";
      "consolidation"].
Proof.
  unfold classify_regime. cbv zeta.
  repeat match goal with
  | |- context [if ?c then _ else _] => destruct c
  end; simpl; auto 10.
Qed.

Lemma Qabs_score_le_1 (tanh : Q -> Q) (i : TechnicalIndicators) :
  0 <= Qabs (generate_technical_score tanh i) <= 1.
Proof.
  split; [apply Qabs_nonneg|].
  apply Qabs_le_iff. pose proof (generate_technical_score_range tanh i). lra.
Qed.

(** What [analyze_finish] assigns to [direction] and [strength], regime by
    regime. *)
Lemma analyze_finish_strength (tanh : Q -> Q) (cp : Q) (i : TechnicalIndicators) :
  let r := analyze_finish tanh cp i in
  let score := generate_technical_score tanh i in
  (classify_regime cp i = "oversold-zone" ->
   ti_direction r = "bearish" /\ ti_strength r == 0.56 * Qabs score) /\
  (classify_regime cp i = "overbought-zone" ->
   ti_direction r = "bullish" /\ ti_strength r == 0.56 * Qabs score) /\
  (classify_regime cp i = "consolidation" ->
   ti_direction r = "neutral" /\ ti_strength r == 0.15 * Qabs score) /\
  (classify_regime cp i = "bullish-trend" \/ classify_regime cp i = "bearish-trend" ->
   (0.2 < score /\ ti_direction r = "bullish" /\ ti_strength r == Qabs score) \/
   (score < -0.2 /\ ti_direction r = "bearish" /\ ti_strength r == Qabs score) \/
   (-0.2 <= score <= 0.2 /\ ti_direction r = "neutral" /\
    ti_strength r == 0.3 * Qabs score)).
Proof.
  cbv zeta. pose proof (Qabs_score_le_1 tanh i) as Hb.
  unfold analyze_finish.
  set (score := generate_technical_score tanh i) in *.
  split; [|split; [|split]]; intro H.
  - rewrite H. unfold map_regime_to_direction. simpl (String.eqb _ _). cbv iota beta.
    split; [reflexivity|]. cbn [ti_strength]. unfold py_min. qcases; lra.
  - rewrite H. unfold map_regime_to_direction. simpl (String.eqb _ _). cbv iota beta.
    split; [reflexivity|]. cbn [ti_strength]. unfold py_min. qcases; lra.
  - rewrite H. unfold map_regime_to_direction. simpl (String.eqb _ _). cbv iota beta.
    split; [reflexivity|]. cbn [ti_strength]. unfold py_min. qcases; lra.
  - destruct H as [H|H]; rewrite H;
      unfold map_regime_to_direction; simpl (String.eqb _ _); cbv iota beta;
      destruct (Qltb 0.2 score) eqn:E1;
      [ | destruct (Qltb score (-0.2)) eqn:E2 | | destruct (Qltb score (-0.2)) eqn:E2 ];
      qhyps; simpl ti_direction; cbn [ti_strength].
    all: unfold py_min; qcases.
    all: try (left; split; [lra|]; split; [reflexivity | lra]).
    all: try (right; left; split; [lra|]; split; [reflexivity | lra]).
    all: try (right; right; split; [lra|]; split; [reflexivity | lra]).
Qed.

(** C6, amended.  For every indicator set that [analyze] returns (so for a
    history of at least 200 points), with base strength
    [|technical_score|]: in the oversold-zone and overbought-zone regimes
    the strength is 0.8 * 0.7 = 0.56 times the base strength; in the
    consolidation regime it is 0.5 * 0.3 = 0.15 times the base strength; in
    a trend regime it is the base strength itself when the direction is
    bullish or bearish and 0.3 times the base strength when the direction
    is neutral (a score within [-0.2, 0.2]). *)
Theorem analyze_strength_by_regime
    (tanh : Q -> Q) (symbol : string) (prices : list PricePoint)
    (ind : TechnicalIndicators) :
  analyze tanh symbol prices = Ok ind ->
  let base := Qabs (ti_technical_score ind) in
  (200 <= List.length prices)%nat /\
  (ti_regime ind = "oversold-zone" \/ ti_regime ind = "overbought-zone" ->
   ti_strength ind == 0.56 * base) /\
  (ti_regime ind = "consolidation" ->
   ti_direction ind = "neutral" /\ ti_strength ind == 0.15 * base) /\
  (ti_regime ind = "bullish-trend" \/ ti_regime ind = "bearish-trend" ->
   (ti_direction ind = "neutral" -> ti_strength ind == 0.3 * base) /\
   (ti_direction ind <> "neutral" -> ti_strength ind == base)).
Proof.
  intro H. apply analyze_ok_finish in H.
  destruct H as [Hlen [cp [i [_ ->]]]]. cbv zeta.
  destruct (analyze_finish_fields tanh cp i) as [Hr [Hs _]].
  rewrite Hr, Hs.
  pose proof (analyze_finish_strength tanh cp i) as Hf. cbv zeta in Hf.
  destruct Hf as [Ho [Hb [Hc Ht]]].
  split; [exact Hlen|]. split; [|split].
  - intros [E|E]; [apply Ho, E | apply Hb, E].
  - intro E. apply Hc, E.
  - intro E. destruct (Ht E) as [[_ [Hd Hst]] | [[_ [Hd Hst]] | [_ [Hd Hst]]]];
      rewrite Hd; split; intro N; try discriminate N; try exact Hst;
      exfalso; apply N; reflexivity.
Qed.

Lemma hard_tanh_like : tanh_like hard_tanh.
Proof.
  intro x. unfold hard_tanh, py_max, py_min. qcases; repeat split; intros; lra.
Qed.

Lemma blip_history_indicators :
  Forall well_formed blip_history /\ chronological blip_history /\
  List.length blip_history = 200%nat /\
  analyze_indicators "TEST" blip_history = Ok (100, blip_indicators).
Proof.
  split; [apply well_formed_all; vm_compute; reflexivity|].
  split; [vm_compute; reflexivity|].
  split; vm_compute; reflexivity.
Qed.

Lemma slide_history_indicators :
  Forall well_formed slide_history /\ chronological slide_history /\
  List.length slide_history = 200%nat /\
  analyze_indicators "TEST" slide_history = Ok (86, slide_indicators).
Proof.
  split; [apply well_formed_all; vm_compute; reflexivity|].
  split; [vm_compute; reflexivity|].
  split; vm_compute; reflexivity.
Qed.

(** On [blip_history] the regime is consolidation and the strength is 0.15
    times a base strength of at least 0.3, for every function of the kind
    of tanh. *)
Lemma blip_history_strength (tanh : Q -> Q) :
  tanh_like tanh ->
  exists ind,
    analyze tanh "TEST" blip_history = Ok ind /\
    ti_regime ind = "consolidation" /\
    0.3 <= Qabs (ti_technical_score ind) /\
    ti_strength ind == 0.15 * Qabs (ti_technical_score ind).
Proof.
  intro Ht.
  destruct blip_history_indicators as [_ [_ [_ E]]].
  exists (analyze_finish tanh 100 blip_indicators).
  split; [rewrite analyze_split, E; reflexivity|].
  destruct (analyze_finish_fields tanh 100 blip_indicators) as [Hr [Hs _]].
  assert (Hreg : classify_regime 100 blip_indicators = "consolidation")
    by (vm_compute; reflexivity).
  pose proof (analyze_finish_strength tanh 100 blip_indicators) as Hf.
  cbv zeta in Hf. destruct Hf as [_ [_ [Hc _]]].
  destruct (Hc Hreg) as [_ Hst].
  rewrite Hr, Hs. split; [exact Hreg|]. split; [|exact Hst].
  unfold generate_technical_score, _calculate_macd_score. cbv zeta.
  assert (Hma : _calculate_ma_score blip_indicators == 1) by (vm_compute; reflexivity).
  assert (Hrs : _calculate_rsi_score (ti_rsi blip_indicators) == 0)
    by (vm_compute; reflexivity).
  assert (Hd : 0 < (ti_macd blip_indicators - ti_macd_signal blip_indicators) / 2.0)
    by (vm_compute; reflexivity).
  destruct (Ht ((ti_macd blip_indicators - ti_macd_signal blip_indicators) / 2.0))
    as [Hb [Hpos _]].
  specialize (Hpos Hd).
  set (t := tanh _) in *.
  unfold py_sum. cbn [fold_left].
  set (ma := _calculate_ma_score blip_indicators) in *.
  set (rs := _calculate_rsi_score (ti_rsi blip_indicators)) in *.
  apply Qle_trans with (y := py_max (-1.0) (py_min 1.0 (0 + ma * 0.30 + rs * 0.30 + t * 0.40))).
  - unfold py_max, py_min. qcases; lra.
  - apply Qle_Qabs.
Qed.

(** On [slide_history] the regime is oversold-zone and the strength is 0.56
    times a base strength that is not zero. *)
Lemma slide_history_strength (tanh : Q -> Q) :
  tanh_like tanh ->
  exists ind,
    analyze tanh "TEST" slide_history = Ok ind /\
    ti_regime ind = "oversold-zone" /\
    0 < Qabs (ti_technical_score ind) /\
    ti_strength ind == 0.56 * Qabs (ti_technical_score ind).
Proof.
  intro Ht.
  destruct slide_history_indicators as [_ [_ [_ E]]].
  exists (analyze_finish tanh 86 slide_indicators).
  split; [rewrite analyze_split, E; reflexivity|].
  destruct (analyze_finish_fields tanh 86 slide_indicators) as [Hr [Hs _]].
  assert (Hreg : classify_regime 86 slide_indicators = "oversold-zone")
    by (vm_compute; reflexivity).
  pose proof (analyze_finish_strength tanh 86 slide_indicators) as Hf.
  cbv zeta in Hf. destruct Hf as [Ho _].
  destruct (Ho Hreg) as [_ Hst].
  rewrite Hr, Hs. split; [exact Hreg|]. split; [|exact Hst].
  unfold generate_technical_score, _calculate_macd_score. cbv zeta.
  assert (Hma : _calculate_ma_score slide_indicators == -1) by (vm_compute; reflexivity).
  assert (Hrs : _calculate_rsi_score (ti_rsi slide_indicators) == 1)
    by (vm_compute; reflexivity).
  assert (Hd : (ti_macd slide_indicators - ti_macd_signal slide_indicators) / 2.0 < 0)
    by (vm_compute; reflexivity).
  destruct (Ht ((ti_macd slide_indicators - ti_macd_signal slide_indicators) / 2.0))
    as [Hb [_ Hneg]].
  specialize (Hneg Hd).
  set (t := tanh _) in *.
  unfold py_sum. cbn [fold_left].
  set (ma := _calculate_ma_score slide_indicators) in *.
  set (rs := _calculate_rsi_score (ti_rsi slide_indicators)) in *.
  set (s := py_max _ _).
  assert (Hsneg : s < 0).
  { unfold s, py_max, py_min. qcases; lra. }
  rewrite Qabs_neg by lra. lra.
Qed.

(** C6, as stated, fails: in the consolidation regime the strength is not
    0.3 times the base strength (it is 0.15 times), and in the oversold-zone
    regime it is not 0.7 times the base strength (it is 0.56 times). *)
Lemma strength_discounts_not_07_03 :
  ~ (forall tanh : Q -> Q, tanh_like tanh ->
     forall ind,
       analyze tanh "TEST" blip_history = Ok ind ->
       ti_regime ind = "consolidation" ->
       ti_strength ind == 0.3 * Qabs (ti_technical_score ind)) /\
  ~ (forall tanh : Q -> Q, tanh_like tanh ->
     forall ind,
       analyze tanh "TEST" slide_history = Ok ind ->
       ti_regime ind = "oversold-zone" ->
       ti_strength ind == 0.7 * Qabs (ti_technical_score ind)).
Proof.
  split; intro H.
  - destruct (blip_history_strength hard_tanh hard_tanh_like)
      as [ind [Ha [Hr [Hb Hs]]]].
    specialize (H hard_tanh hard_tanh_like ind Ha Hr). lra.
  - destruct (slide_history_strength hard_tanh hard_tanh_like)
      as [ind [Ha [Hr [Hb Hs]]]].
    specialize (H hard_tanh hard_tanh_like ind Ha Hr). lra.
Qed.

Lemma analyze_strength_by_regime_witness :
  exists ind,
    analyze hard_tanh "TEST" slide_history = Ok ind /\
    ti_regime ind = "oversold-zone" /\
    let base := Qabs (ti_technical_score ind) in
    (200 <= List.length slide_history)%nat /\
    (ti_regime ind = "oversold-zone" \/ ti_regime ind = "overbought-zone" ->
     ti_strength ind == 0.56 * base) /\
    (ti_regime ind = "consolidation" ->
     ti_direction ind = "neutral" /\ ti_strength ind == 0.15 * base) /\
    (ti_regime ind = "bullish-trend" \/ ti_regime ind = "bearish-trend" ->
     (ti_direction ind = "neutral" -> ti_strength ind == 0.3 * base) /\
     (ti_direction ind <> "neutral" -> ti_strength ind == base)).
Proof.
  eexists. split; [vm_compute; reflexivity|]. split; [reflexivity|].
  apply (analyze_strength_by_regime hard_tanh "TEST" slide_history).
  vm_compute. reflexivity.
Defined.

(** ** Supporting facts on the confidence calculation and the final action *)

Lemma ConfidenceBreakdown_post_init_ok (b0 b : ConfidenceBreakdown) :
  ConfidenceBreakdown_post_init b0 = Ok b -> b = b0.
Proof.
  unfold ConfidenceBreakdown_post_init.
  repeat match goal with
  | |- context [if ?c then _ else _] => destruct c; try discriminate
  end.
  intro H. inversion H. reflexivity.
Qed.

(** The agreement score that [calculate_confidence] reports is the bucket of
    the number of agreeing signals, each counted by [agrees_with_signal]
    or, for the market, by [market_agrees_of]. *)
Lemma calculate_confidence_agreement
    (sentiment : SentimentData) (technical : TechnicalIndicators)
    (fundamental : FundamentalMetrics) (combined_score : Q)
    (market_context : option MarketContext)
    (confidence : Q) (breakdown : ConfidenceBreakdown) :
  calculate_confidence sentiment technical fundamental combined_score market_context
    = Ok (confidence, breakdown) ->
  let d := signal_direction_of combined_score in
  let ag :=
    agreements_of (agrees_with_signal (sn_sentiment_score sentiment) d)
      (agrees_with_signal (ti_technical_score technical) d)
      (agrees_with_signal (fm_fundamental_score fundamental) d)
      (market_agrees_of market_context d) market_context in
  cb_agreement_score breakdown = py_round2 (agreement_score_of (fst ag) (snd ag)) /\
  0 <= confidence <= 1.
Proof.
  unfold calculate_confidence. cbv zeta.
  destruct (agreements_of _ _ _ _ _) as [agreements total].
  destruct (match market_context with Some _ => _ | None => _ end) as [q f].
  intro H. apply bind_ok in H. destruct H as [b [Hb H]].
  apply ConfidenceBreakdown_post_init_ok in Hb.
  inversion H; subst. simpl. split; [reflexivity|].
  match goal with
  | |- context [py_min 1.0 ?X] => generalize X; intro x
  end.
  unfold py_max, py_min. qcases; lra.
Qed.

Lemma agrees_with_signal_band (combined_score score : Q) :
  let direction := signal_direction_of combined_score in
  agrees_with_signal score direction = true <->
  (direction = "bullish" /\ 0.2 < score) \/
  (direction = "bearish" /\ score < -0.2) \/
  (direction = "neutral" /\ -0.2 <= score <= 0.2).
Proof.
  cbv zeta.
  destruct (signal_direction_of_cases combined_score)
    as [[_ Hd] | [[_ Hd] | [_ Hd]]]; rewrite Hd;
    unfold agrees_with_signal; cbn [String.eqb Ascii.eqb Bool.eqb andb].
  - rewrite Qltb_lt. split; [intro H; left; split; [reflexivity | exact H]|].
    intros [[_ H] | [[H _] | [H _]]]; [exact H | discriminate H | discriminate H].
  - rewrite Qltb_lt. split; [intro H; right; left; split; [reflexivity | exact H]|].
    intros [[H _] | [[_ H] | [H _]]]; [discriminate H | exact H | discriminate H].
  - rewrite andb_true_iff, !Qleb_le.
    split; [intro H; right; right; split; [reflexivity | exact H]|].
    intros [[H _] | [[H _] | [_ H]]]; [discriminate H | discriminate H | exact H].
Qed.

Lemma market_agrees_of_state (combined_score : Q)
    (market_context : option MarketContext) :
  let direction := signal_direction_of combined_score in
  market_agrees_of market_context direction = true <->
  exists mc,
    market_context = Some mc /\
    ((direction = "bullish" /\
      (market_state mc = "bullish" \/ market_state mc = "neutral")) \/
     (direction = "bearish" /\
      (market_state mc = "bearish" \/ market_state mc = "neutral")) \/
     (direction = "neutral" /\ market_state mc = "neutral")).
Proof.
  cbv zeta. destruct market_context as [mc|].
  2:{ cbn [market_agrees_of]. split; [discriminate | intros [mc [H _]]; discriminate H]. }
  destruct (signal_direction_of_cases combined_score)
    as [[_ Hd] | [[_ Hd] | [_ Hd]]]; rewrite Hd;
    unfold market_agrees_of, str_in;
    cbn [String.eqb Ascii.eqb Bool.eqb andb existsb].
  - rewrite orb_false_r, orb_true_iff, !String.eqb_eq. split.
    + intro H. exists mc. split; [reflexivity|]. left. split; [reflexivity | exact H].
    + intros [mc' [Hmc [[_ H] | [[H _] | [H _]]]]];
        [inversion Hmc; subst mc'; exact H | discriminate H | discriminate H].
  - rewrite orb_false_r, orb_true_iff, !String.eqb_eq. split.
    + intro H. exists mc. split; [reflexivity|]. right. left.
      split; [reflexivity | exact H].
    + intros [mc' [Hmc [[H _] | [[_ H] | [H _]]]]];
        [discriminate H | inversion Hmc; subst mc'; exact H | discriminate H].
  - rewrite String.eqb_eq. split.
    + intro H. exists mc. split; [reflexivity|]. right. right.
      split; [reflexivity | exact H].
    + intros [mc' [Hmc [[H _] | [[H _] | [_ H]]]]];
        [discriminate H | discriminate H | inversion Hmc; subst mc'; exact H].
Qed.

(** C4, amended.  In [calculate_confidence] the fused direction is bullish
    when the combined score is above +0.3, bearish when it is below -0.3,
    neutral otherwise.  Each of the sentiment, technical and fundamental
    signals is counted as agreeing exactly when its own score is above +0.2
    (bullish direction), below -0.2 (bearish) or within [-0.2, 0.2]
    (neutral).  The market signal, when a MarketContext is present, is
    counted by market state instead: with a bullish direction when the state
    is bullish or neutral, with a bearish direction when it is bearish or
    neutral, with a neutral direction when it is neutral; without a
    MarketContext it is not counted at all.  The agreement score that the
    returned breakdown reports is the bucket of that count, out of four
    signals with a MarketContext and out of three without. *)
Theorem agreement_rule
    (sentiment : SentimentData) (technical : TechnicalIndicators)
    (fundamental : FundamentalMetrics) (combined_score : Q)
    (market_context : option MarketContext)
    (confidence : Q) (breakdown : ConfidenceBreakdown) :
  calculate_confidence sentiment technical fundamental combined_score market_context
    = Ok (confidence, breakdown) ->
  let direction := signal_direction_of combined_score in
  let agrees (score : Q) : Prop :=
    (direction = "bullish" /\ 0.2 < score) \/
    (direction = "bearish" /\ score < -0.2) \/
    (direction = "neutral" /\ -0.2 <= score <= 0.2) in
  let market_agrees : Prop :=
    exists mc,
      market_context = Some mc /\
      ((direction = "bullish" /\
        (market_state mc = "bullish" \/ market_state mc = "neutral")) \/
       (direction = "bearish" /\
        (market_state mc = "bearish" \/ market_state mc = "neutral")) \/
       (direction = "neutral" /\ market_state mc = "neutral")) in
  ((0.3 < combined_score /\ direction = "bullish") \/
   (combined_score < -0.3 /\ direction = "bearish") \/
   (-0.3 <= combined_score <= 0.3 /\ direction = "neutral")) /\
  exists sentiment_agrees technical_agrees fundamental_agrees market_counted : bool,
    (sentiment_agrees = true <-> agrees (sn_sentiment_score sentiment)) /\
    (technical_agrees = true <-> agrees (ti_technical_score technical)) /\
    (fundamental_agrees = true <-> agrees (fm_fundamental_score fundamental)) /\
    (market_counted = true <-> market_agrees) /\
    cb_agreement_score breakdown =
    py_round2
      (match market_context with
       | Some _ =>
           agreement_score_of
             (bool_int sentiment_agrees + bool_int technical_agrees +
              bool_int fundamental_agrees + bool_int market_counted) 4
       | None =>
           agreement_score_of
             (bool_int sentiment_agrees + bool_int technical_agrees +
              bool_int fundamental_agrees) 3
       end).
Proof.
  intro H. cbv zeta.
  split; [apply signal_direction_of_cases|].
  destruct (calculate_confidence_agreement _ _ _ _ _ _ _ H) as [Hag _].
  exists (agrees_with_signal (sn_sentiment_score sentiment)
            (signal_direction_of combined_score)),
         (agrees_with_signal (ti_technical_score technical)
            (signal_direction_of combined_score)),
         (agrees_with_signal (fm_fundamental_score fundamental)
            (signal_direction_of combined_score)),
         (market_agrees_of market_context (signal_direction_of combined_score)).
  split; [apply agrees_with_signal_band|].
  split; [apply agrees_with_signal_band|].
  split; [apply agrees_with_signal_band|].
  split; [apply market_agrees_of_state|].
  rewrite Hag. unfold agreements_of.
  destruct market_context; reflexivity.
Qed.

Lemma agreement_rule_witness :
  exists confidence breakdown,
    calculate_confidence example_sentiment example_indicators example_fundamental
      0.5 (Some neutral_context) = Ok (confidence, breakdown) /\
    let direction := signal_direction_of 0.5 in
    let agrees (score : Q) : Prop :=
      (direction = "bullish" /\ 0.2 < score) \/
      (direction = "bearish" /\ score < -0.2) \/
      (direction = "neutral" /\ -0.2 <= score <= 0.2) in
    let market_agrees : Prop :=
      exists mc,
        Some neutral_context = Some mc /\
        ((direction = "bullish" /\
          (market_state mc = "bullish" \/ market_state mc = "neutral")) \/
         (direction = "bearish" /\
          (market_state mc = "bearish" \/ market_state mc = "neutral")) \/
         (direction = "neutral" /\ market_state mc = "neutral")) in
    ((0.3 < 0.5 /\ direction = "bullish") \/
     (0.5 < -0.3 /\ direction = "bearish") \/
     (-0.3 <= 0.5 <= 0.3 /\ direction = "neutral")) /\
    exists sentiment_agrees technical_agrees fundamental_agrees market_counted : bool,
      (sentiment_agrees = true <-> agrees (sn_sentiment_score example_sentiment)) /\
      (technical_agrees = true <-> agrees (ti_technical_score example_indicators)) /\
      (fundamental_agrees = true <->
       agrees (fm_fundamental_score example_fundamental)) /\
      (market_counted = true <-> market_agrees) /\
      cb_agreement_score breakdown =
      py_round2
        (agreement_score_of
           (bool_int sentiment_agrees + bool_int technical_agrees +
            bool_int fundamental_agrees + bool_int market_counted) 4).
Proof.
  eexists. eexists. split; [vm_compute; reflexivity|].
  eapply (agreement_rule example_sentiment example_indicators example_fundamental
            0.5 (Some neutral_context)).
  vm_compute. reflexivity.
Defined.

Lemma generate_recommendation_action
    (self : RecommendationEngine) (sentiment : SentimentData)
    (technical : TechnicalIndicators) (fundamental : FundamentalMetrics)
    (current_price : Q) (market_context : option MarketContext)
    (r : Recommendation) :
  generate_recommendation self sentiment technical fundamental current_price
    market_context = Ok r ->
  rec_action r =
  final_action_of
    (combined_score_of self sentiment technical fundamental market_context)
    market_context.
Proof.
  unfold generate_recommendation. intro H.
  apply bind_ok in H. destruct H as [[confidence breakdown] [_ H]].
  cbv beta iota in H.
  apply bind_ok in H. destruct H as [fields [_ H]].
  destruct fields as [[[[el eh] xl] xh] tl]. cbv beta iota in H.
  apply Recommendation_post_init_ok in H. subst r. reflexivity.
Qed.

(** A bearish context downgrades the BUY of the example inputs (combined
    score 0.385 under the bearish weights) to HOLD, and the recommendation
    then carries no price range and no trade levels. *)
Example bearish_downgrade_to_hold :
  exists r,
    generate_recommendation example_engine example_sentiment example_indicators
      example_fundamental 100.0
      (Some (mkMarketContext "bearish" "bearish" "moderate" "bearish"
               20000 20500 21000 44000 45000 46000 18 0 0.75 0.385)) = Ok r /\
    rec_action r = "HOLD" /\ rec_trade_levels r = None /\
    rec_entry_price_low r = None /\ rec_exit_price_low r = None.
Proof.
  eexists. split; [vm_compute; reflexivity|]. repeat split.
Qed.

(** ** When [analyze] returns *)

Lemma fold_left_Qplus_le (l : list Q) (a b : Q) :
  a <= b -> Forall (fun x => 0 <= x) l -> a <= fold_left Qplus l b.
Proof.
  revert a b. induction l as [|x l IH]; intros a b Hab Hl; simpl.
  - exact Hab.
  - inversion Hl; subst. apply IH; [lra | assumption].
Qed.

Lemma py_sum_nonneg (l : list Q) :
  Forall (fun x => 0 <= x) l -> 0 <= py_sum l.
Proof. intro H. unfold py_sum. apply fold_left_Qplus_le; [lra | exact H]. Qed.

Lemma Forall_pos_nonneg (l : list Q) :
  Forall (fun x => 0 < x) l -> Forall (fun x => 0 <= x) l.
Proof. apply Forall_impl. intros; lra. Qed.

Lemma py_sum_pos (x : Q) (l : list Q) :
  Forall (fun y => 0 < y) (x :: l) -> 0 < py_sum (x :: l).
Proof.
  intro H. inversion H; subst. unfold py_sum. simpl.
  apply Qlt_le_trans with (y := 0 + x); [lra|].
  apply fold_left_Qplus_le; [lra | apply Forall_pos_nonneg; assumption].
Qed.

Lemma Forall_skipn {A : Type} (P : A -> Prop) (n : nat) (l : list A) :
  Forall P l -> Forall P (skipn n l).
Proof.
  revert l. induction n as [|n IH]; intros l H; simpl; [exact H|].
  destruct l; [constructor|]. inversion H; subst. apply IH. assumption.
Qed.

Lemma Qdiv_nonneg (a b : Q) : 0 <= a -> 0 <= b -> 0 <= a / b.
Proof.
  intros Ha Hb. unfold Qdiv. apply Qmult_le_0_compat; [exact Ha|].
  apply Qinv_le_0_compat. exact Hb.
Qed.

Lemma inject_nat_nonneg (n : nat) : 0 <= inject_Z (Z.of_nat n).
Proof. unfold Qle. simpl. lia. Qed.

Lemma rolling_mean_last_nonneg (n : nat) (xs : list Q) :
  Forall (fun x => 0 <= x) xs -> 0 <= rolling_mean_last n xs.
Proof.
  intro H. unfold rolling_mean_last. apply Qdiv_nonneg.
  - apply py_sum_nonneg. unfold last_n. apply Forall_skipn. exact H.
  - apply inject_nat_nonneg.
Qed.

(** The RSI that [calculate_rsi] returns is NaN or a number in [0, 100]. *)
Lemma calculate_rsi_range (prices : list PricePoint) (period : nat) (r : npfloat) :
  calculate_rsi prices period = Ok r ->
  r = NaN \/ exists q, r = Fin q /\ 0 <= q <= 100.
Proof.
  unfold calculate_rsi.
  destruct (List.length prices <? period + 1)%nat; [discriminate|].
  cbv zeta.
  set (delta := series_diff _).
  set (g := rolling_mean_last period (map _ delta)).
  set (l := rolling_mean_last period (map (fun d => - where_or_zero _ d) delta)).
  assert (Hg : 0 <= g).
  { apply rolling_mean_last_nonneg. apply Forall_forall. intros x Hx.
    apply in_map_iff in Hx. destruct Hx as [d [<- _]].
    destruct d as [d|]; simpl; [|lra]. qcases; lra. }
  assert (Hl : 0 <= l).
  { apply rolling_mean_last_nonneg. apply Forall_forall. intros x Hx.
    apply in_map_iff in Hx. destruct Hx as [d [<- _]].
    destruct d as [d|]; simpl; [|lra]. qcases; lra. }
  intro H. inversion H; subst r; clear H.
  unfold np_div.
  destruct (Qeqb l 0) eqn:El.
  - destruct (Qeqb g 0) eqn:Eg; [left; reflexivity|].
    destruct (Qltb 0 g) eqn:Eg'; qhyps.
    + right. exists (100.0 - 0). split; [reflexivity | lra].
    + exfalso. apply Eg. lra.
  - qhyps. right. simpl np_radd. simpl np_rdiv. unfold np_div.
    assert (Hq : 0 <= g / l) by (apply Qdiv_nonneg; assumption).
    destruct (Qeqb (1.0 + g / l) 0) eqn:E1; qhyps; [exfalso; lra|].
    simpl np_rsub. eexists. split; [reflexivity|].
    assert (Hx : 0 <= 100.0 / (1.0 + g / l)) by (apply Qdiv_nonneg; lra).
    assert (Hy : 100.0 / (1.0 + g / l) <= 100).
    { apply Qle_shift_div_r; lra. }
    lra.
Qed.

Lemma Forall_insert_sorted (P : Q -> Prop) (x : Q) (l : list Q) :
  P x -> Forall P l -> Forall P (insert_sorted x l).
Proof.
  intros Hx Hl. induction Hl as [|y l Hy Hl IH]; simpl.
  - constructor; [exact Hx | constructor].
  - destruct (Qleb x y); constructor; auto.
Qed.

Lemma Forall_sorted (P : Q -> Prop) (l : list Q) :
  Forall P l -> Forall P (sorted l).
Proof.
  induction 1 as [|x l Hx Hl IH]; simpl; [constructor|].
  apply Forall_insert_sorted; assumption.
Qed.

Lemma cluster_avg_ok (x : Q) (l : list Q) :
  Forall (fun y => 0 < y) (x :: l) ->
  exists avg,
    py_div (py_sum (x :: l)) (inject_Z (Z.of_nat (List.length (x :: l)))) = Ok avg /\
    0 < avg.
Proof.
  intro H. pose proof (py_sum_pos x l H) as Hs.
  assert (Hn : 0 < inject_Z (Z.of_nat (List.length (x :: l)))).
  { unfold Qlt. simpl. lia. }
  exists (py_sum (x :: l) / inject_Z (Z.of_nat (List.length (x :: l)))).
  split.
  - apply py_div_ok. lra.
  - apply Qlt_shift_div_l; lra.
Qed.

Lemma cluster_loop_nil (threshold_pct : Q) (clustered : list Q) (x : Q) (cur : list Q) :
  cluster_loop threshold_pct [] clustered (x :: cur) =
  bind (py_div (py_sum (x :: cur)) (inject_Z (Z.of_nat (List.length (x :: cur)))))
       (fun avg => Ok (clustered ++ [avg])%list).
Proof. reflexivity. Qed.

Lemma cluster_loop_cons (threshold_pct level : Q) (rest clustered cur : list Q) :
  cluster_loop threshold_pct (level :: rest) clustered cur =
  bind (py_div (py_sum cur) (inject_Z (Z.of_nat (List.length cur))))
       (fun cluster_avg =>
          bind (py_div (Qabs (level - cluster_avg)) cluster_avg)
               (fun ratio =>
                  if Qleb ratio threshold_pct
                  then cluster_loop threshold_pct rest clustered (cur ++ [level])%list
                  else
                    bind (py_div (py_sum cur) (inject_Z (Z.of_nat (List.length cur))))
                         (fun avg =>
                            cluster_loop threshold_pct rest (clustered ++ [avg])%list
                              [level]))).
Proof. reflexivity. Qed.

(** On positive levels the clustering never divides by zero. *)
Lemma cluster_loop_ok (threshold_pct : Q) (levels : list Q) :
  Forall (fun y => 0 < y) levels ->
  forall (clustered : list Q) (x : Q) (cur : list Q),
    Forall (fun y => 0 < y) (x :: cur) ->
    exists r, cluster_loop threshold_pct levels clustered (x :: cur) = Ok r.
Proof.
  induction 1 as [|level rest Hlevel Hrest IH]; intros clustered x cur Hcur.
  - rewrite cluster_loop_nil. destruct (cluster_avg_ok x cur Hcur) as [avg [Ha _]].
    rewrite Ha. simpl. eauto.
  - rewrite cluster_loop_cons. destruct (cluster_avg_ok x cur Hcur) as [avg [Ha Hpos]].
    rewrite Ha. cbn [bind].
    rewrite (py_div_ok (Qabs (level - avg)) avg) by lra. cbn [bind].
    destruct (Qleb _ threshold_pct).
    + change ((x :: cur) ++ [level])%list with (x :: (cur ++ [level]))%list.
      apply IH. inversion Hcur; subst. constructor; [assumption|].
      apply Forall_app. split; [assumption | constructor; [assumption | constructor]].
    + apply IH. constructor; [assumption | constructor].
Qed.

Lemma _cluster_levels_ok (levels : list Q) (threshold_pct : Q) :
  Forall (fun y => 0 < y) levels ->
  exists r, _cluster_levels levels threshold_pct = Ok r.
Proof.
  intro H. apply Forall_sorted in H. unfold _cluster_levels.
  destruct (sorted levels) as [|l0 rest]; [eauto|].
  inversion H; subst. apply cluster_loop_ok; [assumption|].
  constructor; [assumption | constructor].
Qed.

Lemma Forall_insert_by_date (P : PricePoint -> Prop) (p : PricePoint)
    (l : list PricePoint) :
  P p -> Forall P l -> Forall P (insert_by_date p l).
Proof.
  intros Hp Hl. induction Hl as [|q l Hq Hl IH]; simpl.
  - constructor; [exact Hp | constructor].
  - destruct (pp_date p <=? pp_date q)%Z; constructor; auto.
Qed.

Lemma Forall_sort_values_date (P : PricePoint -> Prop) (l : list PricePoint) :
  Forall P l -> Forall P (sort_values_date l).
Proof.
  induction 1 as [|p l Hp Hl IH]; simpl; [constructor|].
  apply Forall_insert_by_date; assumption.
Qed.

Lemma argrelextrema_levels_pos (data : list Q) (cmp : Q -> Q -> bool) (order : nat) :
  Forall (fun y => 0 < y) data ->
  Forall (fun y => 0 < y) (map (fun i => nth i data 0) (argrelextrema data cmp order)).
Proof.
  intro H. apply Forall_forall. intros y Hy.
  apply in_map_iff in Hy. destruct Hy as [i [<- Hi]].
  unfold argrelextrema in Hi. apply filter_In in Hi. destruct Hi as [Hi _].
  apply in_seq in Hi. rewrite Forall_forall in H. apply H.
  apply nth_In. lia.
Qed.

Lemma find_support_resistance_ok (prices : list PricePoint) :
  (20 <= List.length prices)%nat ->
  Forall (fun p => 0 < pp_low p /\ 0 < pp_high p) prices ->
  exists r, find_support_resistance prices = Ok r.
Proof.
  intros Hlen Hpos. unfold find_support_resistance.
  apply Nat.ltb_ge in Hlen. rewrite Hlen. cbv zeta.
  apply Forall_sort_values_date in Hpos.
  assert (Hlow : Forall (fun y => 0 < y) (map pp_low (sort_values_date prices))).
  { apply Forall_map. revert Hpos. apply Forall_impl. tauto. }
  assert (Hhigh : Forall (fun y => 0 < y) (map pp_high (sort_values_date prices))).
  { apply Forall_map. revert Hpos. apply Forall_impl. tauto. }
  destruct (_cluster_levels_ok _ 0.02
              (argrelextrema_levels_pos _ Qleb
                 (Nat.max 5 (List.length prices / 20)) Hlow)) as [s Hs].
  rewrite Hs. cbn [bind].
  destruct (_cluster_levels_ok _ 0.02
              (argrelextrema_levels_pos _ (fun a b => Qleb b a)
                 (Nat.max 5 (List.length prices / 20)) Hhigh)) as [r Hr].
  rewrite Hr. cbn [bind]. eauto.
Qed.

Lemma well_formed_low_le_high (p : PricePoint) :
  well_formed p -> pp_low p <= pp_high p.
Proof.
  unfold well_formed, PricePoint_post_init.
  destruct (_ || _); [discriminate|].
  destruct (pp_volume p <? 0)%Z; [discriminate|].
  destruct (Qltb (pp_high p) (pp_low p)) eqn:E; [discriminate|].
  intros _. qhyps. exact E.
Qed.

(** X1.  [analyze] returns on every history of at least 200 well-formed points
    with positive lows whose RSI is a number (some closing price moved
    within the last 14 days), for a non-empty symbol; the RSI of the
    result lies in [0, 100] and its technical score in [-1, 1]. *)
Theorem analyze_returns (tanh : Q -> Q) (symbol : string) (prices : list PricePoint) :
  symbol <> "" ->
  (200 <= List.length prices)%nat ->
  Forall well_formed prices ->
  Forall (fun p => 0 < pp_low p) prices ->
  calculate_rsi prices 14 <> Ok NaN ->
  exists ind,
    analyze tanh symbol prices = Ok ind /\
    0 <= ti_rsi ind <= 100 /\ -1 <= ti_technical_score ind <= 1.
Proof.
  intros Hsym Hlen Hwf Hpos Hrsi.
  assert (E : exists ind, analyze tanh symbol prices = Ok ind).
  { unfold analyze.
    assert (H200 : (List.length prices <? 200)%nat = false) by (apply Nat.ltb_ge; lia).
    rewrite H200.
    unfold calculate_moving_averages.
    assert (H20 : (List.length prices <? 20)%nat = false) by (apply Nat.ltb_ge; lia).
    rewrite H20. cbv zeta. cbn [bind].
    destruct (calculate_rsi prices 14) as [r|e] eqn:Er.
    2:{ unfold calculate_rsi in Er.
        assert (H15 : (List.length prices <? 14 + 1)%nat = false)
          by (apply Nat.ltb_ge; lia).
        rewrite H15 in Er. discriminate Er. }
    cbn [bind].
    unfold calculate_macd.
    assert (H35 : (List.length prices <? 35)%nat = false) by (apply Nat.ltb_ge; lia).
    rewrite H35. cbv zeta. cbn [bind].
    unfold calculate_atr.
    assert (H15 : (List.length prices <? 14 + 1)%nat = false) by (apply Nat.ltb_ge; lia).
    rewrite H15. cbv zeta. cbn [bind].
    destruct (find_support_resistance_ok prices) as [[sup res] Hsr]; [lia| |].
    { rewrite Forall_forall in *. intros p Hp. split; [apply Hpos, Hp|].
      apply Qlt_le_trans with (y := pp_low p);
        [apply Hpos, Hp | apply well_formed_low_le_high, Hwf, Hp]. }
    rewrite Hsr. cbn [bind].
    destruct (calculate_rsi_range prices 14 r Er) as [-> | [q [-> Hq]]];
      [exfalso; apply Hrsi; reflexivity|].
    unfold TechnicalIndicators_init.
    apply String.eqb_neq in Hsym. rewrite Hsym.
    assert (Hb : np_between 0.0 (Fin q) 100.0 = true).
    { simpl. apply andb_true_iff. split; apply Qleb_le; lra. }
    rewrite Hb. simpl. eauto. }
  destruct E as [ind E]. exists ind. split; [exact E|].
  apply (analyze_ok_ranges tanh symbol prices ind E).
Qed.

(** The falling history of the examples meets every assumption of the
    theorem above. *)
Lemma analyze_returns_slide_history :
  exists ind,
    analyze hard_tanh "TEST" slide_history = Ok ind /\
    0 <= ti_rsi ind <= 100 /\ -1 <= ti_technical_score ind <= 1.
Proof.
  destruct slide_history_indicators as [Hwf [_ [Hlen _]]].
  apply analyze_returns.
  - discriminate.
  - rewrite Hlen. apply le_n.
  - exact Hwf.
  - apply Forall_forall. intros p Hp.
    assert (H : forallb (fun p => Qltb 0 (pp_low p)) slide_history = true)
      by (vm_compute; reflexivity).
    rewrite forallb_forall in H. apply Qltb_lt, H, Hp.
  - vm_compute. discriminate.
Defined.

(* ================================================================== *)
(** * Further properties of the code *)
(* ================================================================== *)

(** [qsplit] is [qcases] that also reduces the conditionals it decides, so
    that comparisons nested in their branches come into reach. *)
Ltac qsplit :=
  repeat (match goal with
          | |- context [Qltb ?a ?b] =>
              no_if a; no_if b;
              let E := fresh "E" in
              destruct (Qltb a b) eqn:E;
              [apply Qltb_lt in E | apply Qltb_ge in E]
          | |- context [Qleb ?a ?b] =>
              no_if a; no_if b;
              let E := fresh "E" in
              destruct (Qleb a b) eqn:E;
              [apply Qleb_le in E | apply Qleb_gt in E]
          end; cbv iota).

(** ** The indicator engine, continued *)

Lemma fold_left_Qplus_bounds (lo hi : Q) (l : list Q) (a : Q) :
  Forall (fun x => lo <= x <= hi) l ->
  a + lo * inject_Z (Z.of_nat (List.length l)) <= fold_left Qplus l a /\
  fold_left Qplus l a <= a + hi * inject_Z (Z.of_nat (List.length l)).
Proof.
  intro H. revert a. induction H as [|x l Hx Hl IH]; intro a.
  - cbn [fold_left List.length Z.of_nat]. change (inject_Z 0) with 0. split; lra.
  - cbn [fold_left List.length]. destruct (IH (a + x)) as [H1 H2].
    cbv beta in Hx.
    assert (Hs : inject_Z (Z.of_nat (S (List.length l)))
                 == inject_Z (Z.of_nat (List.length l)) + 1).
    { rewrite Nat2Z.inj_succ. unfold Z.succ. rewrite inject_Z_plus. reflexivity. }
    rewrite Hs. split; nra.
Qed.

Lemma length_last_n {A : Type} (n : nat) (l : list A) :
  (n <= List.length l)%nat -> List.length (last_n n l) = n.
Proof. intro H. unfold last_n. rewrite length_skipn. lia. Qed.

(** A rolling mean lies between the bounds of the series. *)
Lemma rolling_mean_last_bounds (lo hi : Q) (n : nat) (xs : list Q) :
  (0 < n)%nat -> (n <= List.length xs)%nat ->
  Forall (fun x => lo <= x <= hi) xs ->
  lo <= rolling_mean_last n xs <= hi.
Proof.
  intros Hn Hlen H. unfold rolling_mean_last, py_sum.
  assert (Hw : Forall (fun x => lo <= x <= hi) (last_n n xs))
    by (unfold last_n; apply Forall_skipn; exact H).
  destruct (fold_left_Qplus_bounds lo hi _ 0 Hw) as [H1 H2].
  rewrite (length_last_n n xs Hlen) in H1, H2.
  assert (Hpos : 0 < inject_Z (Z.of_nat n)).
  { unfold Qlt. simpl. lia. }
  split.
  - apply Qle_shift_div_l; [exact Hpos | lra].
  - apply Qle_shift_div_r; [exact Hpos | lra].
Qed.

Lemma length_insert_by_date (p : PricePoint) (l : list PricePoint) :
  List.length (insert_by_date p l) = S (List.length l).
Proof.
  induction l as [|q r IH]; simpl; [reflexivity|].
  destruct (pp_date p <=? pp_date q)%Z; simpl; [reflexivity | rewrite IH; reflexivity].
Qed.

Lemma length_sort_values_date (l : list PricePoint) :
  List.length (sort_values_date l) = List.length l.
Proof.
  induction l as [|p r IH]; simpl; [reflexivity|].
  rewrite length_insert_by_date, IH. reflexivity.
Qed.

Lemma closes_bounded (lo hi : Q) (prices : list PricePoint) :
  Forall (fun p => lo <= pp_close p <= hi) prices ->
  Forall (fun x => lo <= x <= hi) (map pp_close (sort_values_date prices)).
Proof.
  intro H. apply Forall_map. apply Forall_sort_values_date. exact H.
Qed.

(** X2.  The three moving averages lie between the lowest and the highest
    closing price of the history, also where the 50-day and the 200-day
    average fall back on a shorter one. *)
Theorem calculate_moving_averages_bounds
    (lo hi : Q) (prices : list PricePoint) (mas : MovingAverages) :
  calculate_moving_averages prices = Ok mas ->
  Forall (fun p => lo <= pp_close p <= hi) prices ->
  lo <= ma_20 mas <= hi /\ lo <= ma_50 mas <= hi /\ lo <= ma_200 mas <= hi.
Proof.
  unfold calculate_moving_averages.
  destruct (List.length prices <? 20)%nat eqn:E20; [discriminate|].
  apply Nat.ltb_ge in E20. cbv zeta.
  destruct (50 <=? List.length prices)%nat eqn:E50;
    destruct (200 <=? List.length prices)%nat eqn:E200;
    intros H Hb; inversion H; subst; clear H;
    pose proof (closes_bounded lo hi prices Hb) as Hc;
    assert (Hlen : List.length (map pp_close (sort_values_date prices))
                   = List.length prices)
      by (rewrite length_map; apply length_sort_values_date);
    try apply Nat.leb_le in E50; try apply Nat.leb_le in E200;
    unfold ma_20, ma_50, ma_200;
    (split; [|split]); apply rolling_mean_last_bounds; try exact Hc; lia.
Qed.

Lemma calculate_moving_averages_bounds_witness :
  exists mas,
    calculate_moving_averages slide_history = Ok mas /\
    86 <= ma_20 mas <= 100 /\ 86 <= ma_50 mas <= 100 /\ 86 <= ma_200 mas <= 100.
Proof.
  eexists. split; [vm_compute; reflexivity|].
  apply (calculate_moving_averages_bounds 86 100 slide_history).
  - vm_compute. reflexivity.
  - apply Forall_forall. intros p Hp.
    assert (H : forallb (fun p => Qleb 86 (pp_close p) && Qleb (pp_close p) 100)
                  slide_history = true) by (vm_compute; reflexivity).
    rewrite forallb_forall in H. specialize (H p Hp).
    apply andb_true_iff in H. destruct H. qhyps. split; assumption.
Defined.

Lemma well_formed_range (p : PricePoint) :
  well_formed p -> 0 <= pp_low p /\ pp_low p <= pp_high p.
Proof.
  intro H. split; [|apply well_formed_low_le_high, H].
  unfold well_formed, PricePoint_post_init in H.
  destruct (Qltb (pp_open p) 0 || Qltb (pp_high p) 0 || Qltb (pp_low p) 0 ||
            Qltb (pp_close p) 0) eqn:E; [discriminate|].
  apply orb_false_iff in E. destruct E as [E _].
  apply orb_false_iff in E. destruct E as [_ E]. qhyps. exact E.
Qed.

Lemma true_range_nonneg (rows : list PricePoint) (prev_close : option Q) :
  Forall well_formed rows ->
  Forall (fun x => 0 <= x) (true_range prev_close rows).
Proof.
  intro H. revert prev_close. induction H as [|p r Hp Hr IH]; intro prev_close.
  - constructor.
  - cbn [true_range]. constructor; [|apply IH].
    destruct (well_formed_range p Hp) as [_ Hlh].
    unfold true_range_row. destruct prev_close as [c|]; [|lra].
    unfold py_max. qsplit; lra.
Qed.

(** X3.  The ATR of a well-formed history is never negative, for every period,
    and also where too few points make it the default 0.0. *)
Theorem calculate_atr_nonneg (prices : list PricePoint) (period : nat) (atr : Q) :
  Forall well_formed prices ->
  calculate_atr prices period = Ok atr ->
  0 <= atr.
Proof.
  intros Hwf. unfold calculate_atr.
  destruct (List.length prices <? period + 1)%nat; intro H; inversion H; subst.
  - lra.
  - apply rolling_mean_last_nonneg. apply true_range_nonneg.
    apply Forall_sort_values_date. exact Hwf.
Qed.

Lemma calculate_atr_nonneg_witness :
  exists atr, calculate_atr slide_history 14 = Ok atr /\ 0 <= atr.
Proof.
  eexists. split; [vm_compute; reflexivity|].
  apply (calculate_atr_nonneg slide_history 14).
  - apply slide_history_indicators.
  - vm_compute. reflexivity.
Defined.

Lemma ewm_from_bounds (alpha lo hi : Q) (xs : list Q) :
  0 <= alpha <= 1 ->
  Forall (fun x => lo <= x <= hi) xs ->
  forall prev, lo <= prev <= hi ->
  Forall (fun x => lo <= x <= hi) (ewm_from alpha prev xs).
Proof.
  intros Ha H. induction H as [|x r Hx Hr IH]; intros prev Hp.
  - constructor.
  - cbn [ewm_from]. cbv zeta. cbv beta in Hx.
    assert (Hy : lo <= Qred ((1 - alpha) * prev + alpha * x) <= hi).
    { rewrite Qred_correct.
      assert (H1 : 0 <= (1 - alpha) * (prev - lo)) by (apply Qmult_le_0_compat; lra).
      assert (H2 : 0 <= alpha * (x - lo)) by (apply Qmult_le_0_compat; lra).
      assert (H3 : 0 <= (1 - alpha) * (hi - prev)) by (apply Qmult_le_0_compat; lra).
      assert (H4 : 0 <= alpha * (hi - x)) by (apply Qmult_le_0_compat; lra).
      split; lra. }
    constructor; [exact Hy | apply IH; exact Hy].
Qed.

(** An exponential moving average stays between the bounds of its series. *)
Lemma ewm_mean_bounds (span : nat) (lo hi : Q) (xs : list Q) :
  (1 <= span)%nat ->
  Forall (fun x => lo <= x <= hi) xs ->
  Forall (fun x => lo <= x <= hi) (ewm_mean span xs).
Proof.
  intros Hs H. unfold ewm_mean. cbv zeta.
  destruct xs as [|x0 r]; [constructor|].
  inversion H; subst. constructor; [assumption|].
  apply ewm_from_bounds; try assumption.
  assert (Hn : 1 <= inject_Z (Z.of_nat span)).
  { unfold Qle. simpl. lia. }
  split.
  - apply Qdiv_nonneg; lra.
  - apply Qle_shift_div_r; lra.
Qed.

Lemma series_sub_bounds (lo hi : Q) (xs : list Q) :
  Forall (fun x => lo <= x <= hi) xs ->
  forall ys, Forall (fun x => lo <= x <= hi) ys ->
  Forall (fun d => lo - hi <= d <= hi - lo) (series_sub xs ys).
Proof.
  induction 1 as [|x xr Hx Hxr IH]; intros ys Hys.
  - constructor.
  - destruct Hys as [|y yr Hy Hyr]; [constructor|].
    cbn [series_sub]. constructor; [|apply IH; exact Hyr].
    rewrite Qred_correct. cbv beta in Hx. lra.
Qed.

Lemma Forall_last_default {A : Type} (P : A -> Prop) (l : list A) (d : A) :
  P d -> Forall P l -> P (last l d).
Proof.
  intros Hd H. induction H as [|x r Hx Hr IH]; [exact Hd|].
  destruct r as [|y r']; [exact Hx | exact IH].
Qed.

(** X4.  The MACD line and its signal line are differences of averages of the
    closing prices: neither can exceed the spread between the highest and
    the lowest close. *)
Theorem calculate_macd_bounds
    (lo hi : Q) (prices : list PricePoint) (macd signal : Q) :
  calculate_macd prices = Ok (macd, signal) ->
  Forall (fun p => lo <= pp_close p <= hi) prices ->
  Qabs macd <= hi - lo /\ Qabs signal <= hi - lo.
Proof.
  unfold calculate_macd.
  destruct (List.length prices <? 35)%nat eqn:E; [discriminate|].
  cbv zeta. intros H Hb. inversion H; subst; clear H.
  assert (Hlohi : lo <= hi).
  { destruct Hb as [|p r Hp _]; [discriminate E|]. cbv beta in Hp. lra. }
  pose proof (closes_bounded lo hi prices Hb) as Hc.
  assert (Hm : Forall (fun d => lo - hi <= d <= hi - lo)
                 (series_sub (ewm_mean 12 (map pp_close (sort_values_date prices)))
                             (ewm_mean 26 (map pp_close (sort_values_date prices))))).
  { apply series_sub_bounds; apply ewm_mean_bounds; try exact Hc; lia. }
  assert (Hs : Forall (fun d => lo - hi <= d <= hi - lo)
                 (ewm_mean 9
                    (series_sub (ewm_mean 12 (map pp_close (sort_values_date prices)))
                                (ewm_mean 26 (map pp_close (sort_values_date prices)))))).
  { apply ewm_mean_bounds; [lia | exact Hm]. }
  unfold iloc_last. split; apply Qabs_le_iff.
  - pose proof (Forall_last_default (fun d => lo - hi <= d <= hi - lo) _ 0
                  ltac:(cbv beta; lra) Hm) as Hl.
    cbv beta in Hl. lra.
  - pose proof (Forall_last_default (fun d => lo - hi <= d <= hi - lo) _ 0
                  ltac:(cbv beta; lra) Hs) as Hl.
    cbv beta in Hl. lra.
Qed.

Lemma slide_history_closes :
  Forall (fun p => 86 <= pp_close p <= 100) slide_history.
Proof.
  apply Forall_forall. intros p Hp.
  assert (H : forallb (fun p => Qleb 86 (pp_close p) && Qleb (pp_close p) 100)
                slide_history = true) by (vm_compute; reflexivity).
  rewrite forallb_forall in H. specialize (H p Hp).
  apply andb_true_iff in H. destruct H. qhyps. split; assumption.
Qed.

Lemma calculate_macd_bounds_witness :
  exists macd signal,
    calculate_macd slide_history = Ok (macd, signal) /\
    Qabs macd <= 100 - 86 /\ Qabs signal <= 100 - 86.
Proof.
  eexists. eexists. split; [vm_compute; reflexivity|].
  apply (calculate_macd_bounds 86 100 slide_history).
  - vm_compute. reflexivity.
  - exact slide_history_closes.
Defined.

(** *** Support and resistance *)

Lemma insert_sorted_Sorted (x : Q) (l : list Q) :
  Sorted Qle l -> Sorted Qle (insert_sorted x l).
Proof.
  induction l as [|a l IH]; intro Hs; cbn [insert_sorted].
  - constructor; constructor.
  - destruct (Qleb x a) eqn:E; qhyps.
    + constructor; [exact Hs | constructor; exact E].
    + apply Sorted_inv in Hs. destruct Hs as [Hs Hhd].
      constructor; [apply IH; exact Hs|].
      destruct l as [|b l']; cbn [insert_sorted].
      * constructor. lra.
      * destruct (Qleb x b); constructor; [lra|].
        inversion Hhd; assumption.
Qed.

Lemma sorted_Sorted (l : list Q) : Sorted Qle (sorted l).
Proof.
  induction l as [|x r IH]; cbn [sorted]; [constructor|].
  apply insert_sorted_Sorted. exact IH.
Qed.

Lemma Sorted_skipn (n : nat) (l : list Q) :
  Sorted Qle l -> Sorted Qle (skipn n l).
Proof.
  revert l. induction n as [|n IH]; intros l Hs; [exact Hs|].
  destruct l as [|x r]; [exact Hs|].
  cbn [skipn]. apply IH. apply Sorted_inv in Hs. tauto.
Qed.

Lemma length_last_n_le {A : Type} (n : nat) (l : list A) :
  (List.length (last_n n l) <= n)%nat.
Proof. unfold last_n. rewrite length_skipn. lia. Qed.

Lemma cluster_avg_bounds (lo hi : Q) (cur : list Q) (avg : Q) :
  Forall (fun x => lo <= x <= hi) cur ->
  py_div (py_sum cur) (inject_Z (Z.of_nat (List.length cur))) = Ok avg ->
  lo <= avg <= hi.
Proof.
  intros H. unfold py_div.
  destruct (Qeqb (inject_Z (Z.of_nat (List.length cur))) 0) eqn:E; [discriminate|].
  intro Ha. inversion Ha; subst; clear Ha.
  apply Qeqb_neq in E.
  assert (Hpos : 0 < inject_Z (Z.of_nat (List.length cur))).
  { destruct cur as [|c r]; [exfalso; apply E; reflexivity|].
    unfold Qlt. simpl. lia. }
  destruct (fold_left_Qplus_bounds lo hi cur 0 H) as [H1 H2].
  unfold py_sum. split.
  - apply Qle_shift_div_l; [exact Hpos | lra].
  - apply Qle_shift_div_r; [exact Hpos | lra].
Qed.

Lemma cluster_loop_bounds (lo hi threshold_pct : Q) (levels : list Q) :
  Forall (fun x => lo <= x <= hi) levels ->
  forall (clustered cur r : list Q),
    Forall (fun x => lo <= x <= hi) clustered ->
    Forall (fun x => lo <= x <= hi) cur ->
    cluster_loop threshold_pct levels clustered cur = Ok r ->
    Forall (fun x => lo <= x <= hi) r.
Proof.
  induction 1 as [|level rest Hlevel Hrest IH]; intros clustered cur r Hcl Hcur H.
  - cbn [cluster_loop] in H. destruct cur as [|c cur'].
    + inversion H; subst. exact Hcl.
    + apply bind_ok in H. destruct H as [avg [Ha H]].
      inversion H; subst. apply Forall_app. split; [exact Hcl|].
      constructor; [|constructor]. apply (cluster_avg_bounds lo hi _ _ Hcur Ha).
  - rewrite cluster_loop_cons in H.
    apply bind_ok in H. destruct H as [avg [Ha H]].
    apply bind_ok in H. destruct H as [ratio [_ H]].
    pose proof (cluster_avg_bounds lo hi _ _ Hcur Ha) as Havg.
    destruct (Qleb ratio threshold_pct).
    + apply (IH clustered (cur ++ [level])%list r); try assumption.
      apply Forall_app. split; [exact Hcur | constructor; [exact Hlevel | constructor]].
    + apply bind_ok in H. destruct H as [avg' [Ha' H]].
      rewrite Ha in Ha'. inversion Ha'; subst avg'.
      apply (IH (clustered ++ [avg])%list [level] r); try assumption.
      * apply Forall_app. split; [exact Hcl | constructor; [exact Havg | constructor]].
      * constructor; [exact Hlevel | constructor].
Qed.

Lemma _cluster_levels_bounds (lo hi threshold_pct : Q) (levels r : list Q) :
  Forall (fun x => lo <= x <= hi) levels ->
  _cluster_levels levels threshold_pct = Ok r ->
  Forall (fun x => lo <= x <= hi) r.
Proof.
  intros H. apply Forall_sorted in H. unfold _cluster_levels.
  destruct (sorted levels) as [|l0 rest].
  - intro E. inversion E. constructor.
  - inversion H; subst. intro E.
    apply (cluster_loop_bounds lo hi threshold_pct rest H3 [] [l0] r);
      [constructor | constructor; [assumption | constructor] | exact E].
Qed.

Lemma argrelextrema_levels_in (P : Q -> Prop) (data : list Q)
    (cmp : Q -> Q -> bool) (order : nat) :
  Forall P data ->
  Forall P (map (fun i => nth i data 0) (argrelextrema data cmp order)).
Proof.
  intro H. apply Forall_forall. intros y Hy.
  apply in_map_iff in Hy. destruct Hy as [i [<- Hi]].
  unfold argrelextrema in Hi. apply filter_In in Hi. destruct Hi as [Hi _].
  apply in_seq in Hi. rewrite Forall_forall in H. apply H.
  apply nth_In. lia.
Qed.

(** X5.  Whenever [find_support_resistance] returns, it gives at most five
    support levels and at most five resistance levels, each list in
    ascending order, and every level lies within the range of the lows
    (for a support) or of the highs (for a resistance) of the history. *)
Theorem find_support_resistance_levels
    (lo hi : Q) (prices : list PricePoint) (support resistance : list Q) :
  find_support_resistance prices = Ok (support, resistance) ->
  Forall (fun p => lo <= pp_low p /\ pp_high p <= hi /\ pp_low p <= pp_high p)
         prices ->
  (List.length support <= 5)%nat /\ (List.length resistance <= 5)%nat /\
  Sorted Qle support /\ Sorted Qle resistance /\
  Forall (fun x => lo <= x <= hi) support /\
  Forall (fun x => lo <= x <= hi) resistance.
Proof.
  unfold find_support_resistance.
  destruct (List.length prices <? 20)%nat; [discriminate|].
  cbv zeta. intros H Hb.
  apply bind_ok in H. destruct H as [s [Hs H]].
  apply bind_ok in H. destruct H as [r [Hr H]].
  inversion H; subst; clear H.
  apply Forall_sort_values_date in Hb.
  assert (Hlow : Forall (fun x => lo <= x <= hi) (map pp_low (sort_values_date prices))).
  { apply Forall_map. revert Hb. apply Forall_impl. intros p Hp. lra. }
  assert (Hhigh : Forall (fun x => lo <= x <= hi) (map pp_high (sort_values_date prices))).
  { apply Forall_map. revert Hb. apply Forall_impl. intros p Hp. lra. }
  split; [apply length_last_n_le|].
  split; [apply length_last_n_le|].
  split; [apply Sorted_skipn, sorted_Sorted|].
  split; [apply Sorted_skipn, sorted_Sorted|].
  split; unfold last_n; apply Forall_skipn; apply Forall_sorted.
  - refine (_cluster_levels_bounds lo hi 0.02 _ s _ Hs).
    apply argrelextrema_levels_in. exact Hlow.
  - refine (_cluster_levels_bounds lo hi 0.02 _ r _ Hr).
    apply argrelextrema_levels_in. exact Hhigh.
Qed.

Lemma find_support_resistance_levels_witness :
  exists support resistance,
    find_support_resistance slide_history = Ok (support, resistance) /\
    (List.length support <= 5)%nat /\ (List.length resistance <= 5)%nat /\
    Sorted Qle support /\ Sorted Qle resistance /\
    Forall (fun x => 80 <= x <= 110) support /\
    Forall (fun x => 80 <= x <= 110) resistance.
Proof.
  eexists. eexists. split; [vm_compute; reflexivity|].
  apply (find_support_resistance_levels 80 110 slide_history).
  - vm_compute. reflexivity.
  - apply Forall_forall. intros p Hp.
    assert (H : forallb (fun p => Qleb 80 (pp_low p) && Qleb (pp_high p) 110 &&
                                  Qleb (pp_low p) (pp_high p))
                  slide_history = true) by (vm_compute; reflexivity).
    rewrite forallb_forall in H. specialize (H p Hp).
    apply andb_true_iff in H. destruct H as [H H3].
    apply andb_true_iff in H. destruct H as [H1 H2]. qhyps. tauto.
Defined.

(** *** Regime, direction, strength and confidence *)

(** The ladder of [classify_regime] with the strict trend criteria removed:
    they select nothing the relaxed criteria below them would not. *)
Lemma classify_regime_ladder (cp : Q) (i : TechnicalIndicators) :
  classify_regime cp i =
  if Qltb (ti_rsi i) 25 && Qltb (ti_macd i) 0 && Qltb cp (ti_ma_20 i)
  then "oversold-zone"
  else if Qltb 75 (ti_rsi i) && Qltb 0 (ti_macd i) && Qltb (ti_ma_20 i) cp
  then "overbought-zone"
  else if Qltb (ti_ma_20 i) cp && Qltb 0 (ti_macd i) then "bullish-trend"
  else if Qltb cp (ti_ma_20 i) && Qltb (ti_macd i) 0 then "bearish-trend"
  else "consolidation".
Proof.
  unfold classify_regime. cbv zeta.
  destruct (Qltb (ti_rsi i) 25 && Qltb (ti_macd i) 0 && Qltb cp (ti_ma_20 i));
    [reflexivity|].
  destruct (Qltb 75 (ti_rsi i) && Qltb 0 (ti_macd i) && Qltb (ti_ma_20 i) cp);
    [reflexivity|].
  destruct (Qltb (ti_ma_20 i) cp) eqn:A; destruct (Qltb 0 (ti_macd i)) eqn:D;
    destruct (Qltb cp (ti_ma_20 i)) eqn:A'; destruct (Qltb (ti_macd i) 0) eqn:D';
    qhyps; try (exfalso; lra);
    rewrite ?andb_true_l, ?andb_false_l, ?andb_false_r, ?andb_true_r; cbv iota;
    repeat match goal with
    | |- context [if ?c then _ else _] => destruct c
    end; reflexivity.
Qed.

(** X6.  The regime of an indicator set is decided by three comparisons only:
    the price against the 20-day average, the MACD against zero, and the
    RSI against 25 and 75.  The 50-day and 200-day averages and the RSI
    bands 50-70 and 30-50 of the strict trend criteria never change it, and
    the regime is never "neutral". *)
Theorem classify_regime_spec (cp : Q) (i : TechnicalIndicators) :
  (classify_regime cp i = "oversold-zone" <->
     ti_rsi i < 25 /\ ti_macd i < 0 /\ cp < ti_ma_20 i) /\
  (classify_regime cp i = "overbought-zone" <->
     75 < ti_rsi i /\ 0 < ti_macd i /\ ti_ma_20 i < cp) /\
  (classify_regime cp i = "bullish-trend" <->
     ti_rsi i <= 75 /\ 0 < ti_macd i /\ ti_ma_20 i < cp) /\
  (classify_regime cp i = "bearish-trend" <->
     25 <= ti_rsi i /\ ti_macd i < 0 /\ cp < ti_ma_20 i) /\
  (classify_regime cp i = "consolidation" <->
     ~ (0 < ti_macd i /\ ti_ma_20 i < cp) /\ ~ (ti_macd i < 0 /\ cp < ti_ma_20 i)) /\
  classify_regime cp i <> "neutral".
Proof.
  rewrite classify_regime_ladder.
  destruct (Qltb (ti_rsi i) 25) eqn:R1; destruct (Qltb 75 (ti_rsi i)) eqn:R2;
    destruct (Qltb (ti_ma_20 i) cp) eqn:A; destruct (Qltb 0 (ti_macd i)) eqn:D;
    destruct (Qltb cp (ti_ma_20 i)) eqn:A'; destruct (Qltb (ti_macd i) 0) eqn:D';
    qhyps; try (exfalso; lra); cbn [andb];
    (split; [|split; [|split; [|split; [|split]]]]);
    try discriminate;
    (split; [intro H; first [discriminate H | repeat split; try lra; intros [? ?]; lra]
            | intro H; first [reflexivity | exfalso; try lra; tauto]]).
Qed.

Lemma analyze_finish_confidence (tanh : Q -> Q) (cp : Q) (i : TechnicalIndicators) :
  0 <= ti_confidence (analyze_finish tanh cp i) <= 1.
Proof.
  unfold analyze_finish.
  destruct (map_regime_to_direction _) as [d m].
  match goal with
  | |- context [let '(_, _) := ?X in _] => destruct X as [d' s']
  end.
  cbn [ti_confidence].
  set (a := Qabs (generate_technical_score tanh i)).
  destruct (str_in _ ["bullish-trend"; "bearish-trend"]);
    [|destruct (str_in _ ["oversold-zone"; "overbought-zone"])];
    unfold py_min; qsplit; lra.
Qed.

Lemma analyze_ok_symbol (tanh : Q -> Q) (symbol : string) (prices : list PricePoint)
    (ind : TechnicalIndicators) :
  analyze tanh symbol prices = Ok ind ->
  symbol <> "" /\ ti_symbol ind = symbol /\
  exists cp i, ind = analyze_finish tanh cp i.
Proof.
  unfold analyze.
  destruct (List.length prices <? 200)%nat eqn:El; [discriminate|].
  intro H.
  apply bind_ok in H. destruct H as [mas [_ H]].
  apply bind_ok in H. destruct H as [rsi [_ H]].
  apply bind_ok in H. destruct H as [[macd sig] [_ H]].
  apply bind_ok in H. destruct H as [atr [_ H]].
  apply bind_ok in H. destruct H as [[sup res] [_ H]].
  apply bind_ok in H. destruct H as [i [Hi H]].
  inversion H; subst ind; clear H.
  unfold TechnicalIndicators_init in Hi.
  destruct (String.eqb symbol "") eqn:Es; [discriminate|].
  apply String.eqb_neq in Es.
  destruct (np_between 0.0 rsi 100.0); simpl in Hi; [|discriminate].
  destruct rsi as [r| | |]; try discriminate.
  inversion Hi; subst i; clear Hi.
  split; [exact Es|]. split.
  - unfold analyze_finish.
    destruct (map_regime_to_direction _) as [d m].
    match goal with
    | |- context [let '(_, _) := ?X in _] => destruct X as [d' s']
    end.
    reflexivity.
  - eauto.
Qed.

(** X7.  [analyze] assigns regime, score, direction, strength and confidence to
    the indicator object after its constructor has run, so the constructor
    does not check them.  They meet its invariants all the same: the symbol
    is the non-empty one given, the direction is bullish, bearish or
    neutral, strength and confidence lie in [0, 1], and the regime is one
    of the five that [classify_regime] produces. *)
Theorem analyze_result_valid
    (tanh : Q -> Q) (symbol : string) (prices : list PricePoint)
    (ind : TechnicalIndicators) :
  analyze tanh symbol prices = Ok ind ->
  ti_symbol ind = symbol /\ symbol <> "" /\
  In (ti_direction ind) ["bullish"; "bearish"; "neutral"] /\
  0 <= ti_strength ind <= 1 /\
  0 <= ti_confidence ind <= 1 /\
  In (ti_regime ind)
     ["oversold-zone"; "overbought-zone"; "bullish-trend"; "bearish-trend";
      "consolidation"] /\
  str_in (ti_regime ind) valid_regimes = true.
Proof.
  intro H. apply analyze_ok_symbol in H.
  destruct H as [Hne [Hsym [cp [i ->]]]].
  split; [exact Hsym|]. split; [exact Hne|].
  pose proof (analyze_finish_strength tanh cp i) as Hst. cbv zeta in Hst.
  destruct Hst as [H1 [H2 [H3 H4]]].
  pose proof (Qabs_score_le_1 tanh i) as Hb.
  destruct (analyze_finish_fields tanh cp i) as [Hr _].
  pose proof (classify_regime_values cp i) as Hv.
  assert (Hds : In (ti_direction (analyze_finish tanh cp i))
                   ["bullish"; "bearish"; "neutral"] /\
                0 <= ti_strength (analyze_finish tanh cp i) <= 1).
  { simpl in Hv.
    destruct Hv as [E|[E|[E|[E|[E|[]]]]]]; symmetry in E.
    - destruct (H1 E) as [-> Hs]. split; [simpl; auto | lra].
    - destruct (H2 E) as [-> Hs]. split; [simpl; auto | lra].
    - destruct (H4 (or_introl E)) as [[_ [-> Hs]]|[[_ [-> Hs]]|[_ [-> Hs]]]];
        (split; [simpl; auto | lra]).
    - destruct (H4 (or_intror E)) as [[_ [-> Hs]]|[[_ [-> Hs]]|[_ [-> Hs]]]];
        (split; [simpl; auto | lra]).
    - destruct (H3 E) as [-> Hs]. split; [simpl; auto | lra]. }
  destruct Hds as [Hd Hs].
  split; [exact Hd|]. split; [exact Hs|].
  split; [apply analyze_finish_confidence|].
  rewrite Hr. split; [exact Hv|].
  simpl in Hv.
  destruct Hv as [E|[E|[E|[E|[E|[]]]]]]; rewrite <- E; reflexivity.
Qed.

Lemma analyze_result_valid_witness :
  exists ind,
    analyze hard_tanh "TEST" slide_history = Ok ind /\
    ti_symbol ind = "TEST" /\ "TEST" <> "" /\
    In (ti_direction ind) ["bullish"; "bearish"; "neutral"] /\
    0 <= ti_strength ind <= 1 /\
    0 <= ti_confidence ind <= 1 /\
    In (ti_regime ind)
       ["oversold-zone"; "overbought-zone"; "bullish-trend"; "bearish-trend";
        "consolidation"] /\
    str_in (ti_regime ind) valid_regimes = true.
Proof.
  eexists. split; [vm_compute; reflexivity|].
  apply (analyze_result_valid hard_tanh "TEST" slide_history).
  vm_compute. reflexivity.
Defined.

(** X8.  [calculate_rsi] raises only for a history shorter than period + 1; on
    every longer one it returns, and what it returns is NaN or a number in
    [0, 100]. *)
Theorem calculate_rsi_total (prices : list PricePoint) (period : nat) :
  ((List.length prices < period + 1)%nat /\
   exists msg, calculate_rsi prices period = Err (ValueError msg)) \/
  ((period + 1 <= List.length prices)%nat /\
   exists r, calculate_rsi prices period = Ok r /\
             (r = NaN \/ exists q, r = Fin q /\ 0 <= q <= 100)).
Proof.
  destruct (List.length prices <? period + 1)%nat eqn:E.
  - left. apply Nat.ltb_lt in E. split; [exact E|].
    unfold calculate_rsi. apply Nat.ltb_lt in E. rewrite E. eauto.
  - right. split; [apply Nat.ltb_ge in E; exact E|].
    destruct (calculate_rsi prices period) as [r|e] eqn:Er.
    + exists r. split; [reflexivity|]. apply (calculate_rsi_range prices period r Er).
    + unfold calculate_rsi in Er. rewrite E in Er. discriminate Er.
Qed.

(** *** Clustering of levels *)

Lemma length_insert_sorted (x : Q) (l : list Q) :
  List.length (insert_sorted x l) = S (List.length l).
Proof.
  induction l as [|y r IH]; simpl; [reflexivity|].
  destruct (Qleb x y); simpl; [reflexivity | rewrite IH; reflexivity].
Qed.

Lemma length_sorted (l : list Q) : List.length (sorted l) = List.length l.
Proof.
  induction l as [|x r IH]; simpl; [reflexivity|].
  rewrite length_insert_sorted, IH. reflexivity.
Qed.

Lemma Exists_insert_sorted (P : Q -> Prop) (x : Q) (l : list Q) :
  Exists P (x :: l) -> Exists P (insert_sorted x l).
Proof.
  induction l as [|y r IH]; intro H; cbn [insert_sorted]; [exact H|].
  destruct (Qleb x y); [exact H|].
  inversion H as [? ? Hx | ? ? Hr]; subst.
  - apply Exists_cons_tl. apply IH. apply Exists_cons_hd. exact Hx.
  - inversion Hr as [? ? Hy | ? ? Hr']; subst.
    + apply Exists_cons_hd. exact Hy.
    + apply Exists_cons_tl. apply IH. apply Exists_cons_tl. exact Hr'.
Qed.

Lemma Exists_sorted (P : Q -> Prop) (l : list Q) :
  Exists P l -> Exists P (sorted l).
Proof.
  induction l as [|x r IH]; intro H; cbn [sorted]; [exact H|].
  apply Exists_insert_sorted.
  inversion H; subst; [apply Exists_cons_hd; assumption|].
  apply Exists_cons_tl. apply IH. assumption.
Qed.

(** X9.  The clustering divides each level's distance by the running cluster
    average, so a level of 0 that is the lowest of two or more levels
    makes [_cluster_levels] raise ZeroDivisionError. *)
Theorem _cluster_levels_zero_level_raises (levels : list Q) (threshold_pct : Q) :
  (2 <= List.length levels)%nat ->
  Forall (fun x => 0 <= x) levels ->
  Exists (fun x => x == 0) levels ->
  _cluster_levels levels threshold_pct = Err ZeroDivisionError.
Proof.
  intros Hlen Hnn Hz.
  pose proof (sorted_Sorted levels) as Hs.
  apply Sorted_StronglySorted in Hs; [|intros a b c; apply Qle_trans].
  apply Forall_sorted in Hnn. apply Exists_sorted in Hz.
  rewrite <- length_sorted in Hlen.
  unfold _cluster_levels.
  destruct (sorted levels) as [|l0 [|l1 rest]]; try (simpl in Hlen; lia).
  assert (H0 : l0 == 0).
  { inversion Hnn as [|? ? Hl0 _]; subst.
    apply StronglySorted_inv in Hs. destruct Hs as [_ Hmin].
    inversion Hz as [? ? Hx | ? ? Hr]; subst; [exact Hx|].
    apply Exists_exists in Hr. destruct Hr as [z [Hin Hz0]].
    rewrite Forall_forall in Hmin. specialize (Hmin z Hin). lra. }
  rewrite cluster_loop_cons.
  rewrite (py_div_ok (py_sum [l0]) (inject_Z (Z.of_nat (List.length [l0]))))
    by (intro H; vm_compute in H; discriminate H).
  cbn [bind]. unfold py_div at 1.
  assert (E : Qeqb (py_sum [l0] / inject_Z (Z.of_nat (List.length [l0]))) 0 = true).
  { apply Qeqb_eq. unfold py_sum. cbn [fold_left List.length Z.of_nat].
    rewrite H0. reflexivity. }
  rewrite E. reflexivity.
Qed.

Lemma _cluster_levels_zero_level_raises_witness :
  _cluster_levels [5; 0] 0.02 = Err ZeroDivisionError.
Proof.
  apply (_cluster_levels_zero_level_raises [5; 0] 0.02).
  - simpl. lia.
  - repeat constructor; unfold Qle; simpl; lia.
  - apply Exists_cons_tl. apply Exists_cons_hd. reflexivity.
Defined.

(** ** The market context, continued *)

Lemma str_in_In (x : string) (l : list string) : str_in x l = true <-> In x l.
Proof.
  unfold str_in. rewrite existsb_exists. split.
  - intros [y [Hy E]]. apply String.eqb_eq in E. subst. exact Hy.
  - intro H. exists x. split; [exact H | apply String.eqb_refl].
Qed.

Lemma reachable_cache_produced (self : MarketContextAnalyzer) :
  reachable self -> forall c, _cache self = Some c -> produced_context c.
Proof.
  induction 1 as [|self dp now uc Hr IH]; intros c Hc.
  - discriminate Hc.
  - unfold get_market_context in Hc.
    destruct (_cache self) as [cached|] eqn:Ec;
      [destruct (_cache_time self) as [t|];
       [destruct (uc && (now - t <? _cache_duration)%Z) |] |];
      cbn [snd _cache] in Hc.
    + apply IH. rewrite <- Ec. exact Hc.
    + inversion Hc. exists dp, now. reflexivity.
    + inversion Hc. exists dp, now. reflexivity.
    + inversion Hc. exists dp, now. reflexivity.
Qed.

(** Every context that [get_market_context] returns on a reachable
    analyzer, fresh or cached, was computed by the analyzer from some
    provider's data. *)
Lemma get_market_context_produced (self : MarketContextAnalyzer)
    (data_provider : DataProvider) (now : Z) (use_cache : bool) :
  reachable self ->
  produced_context (fst (get_market_context self data_provider now use_cache)).
Proof.
  intro Hr. pose proof (reachable_cache_produced self Hr) as Hc.
  unfold get_market_context.
  destruct (_cache self) as [cached|] eqn:Ec;
    [destruct (_cache_time self) as [t|];
     [destruct (use_cache && (now - t <? _cache_duration)%Z) |] |];
    cbn [fst].
  - apply Hc. reflexivity.
  - exists data_provider, now. reflexivity.
  - exists data_provider, now. reflexivity.
  - exists data_provider, now. reflexivity.
Qed.

Lemma _determine_trend_values (price ma_20 ma_50 : Q) :
  In (_determine_trend price ma_20 ma_50) ["bullish"; "bearish"; "neutral"].
Proof.
  unfold _determine_trend.
  repeat match goal with
  | |- context [if ?c then _ else _] => destruct c
  end; simpl; auto.
Qed.

Lemma produced_context_state (c : MarketContext) :
  produced_context c ->
  vix_level c = _determine_vix_level (vix_value c) /\
  market_state c
  = _determine_market_state (nifty_trend c) (banknifty_trend c) (vix_level c) /\
  In (nifty_trend c) ["bullish"; "bearish"; "neutral"] /\
  In (banknifty_trend c) ["bullish"; "bearish"; "neutral"].
Proof.
  intros [dp [t ->]]. unfold fresh_market_context. cbv zeta.
  cbn [vix_level vix_value market_state nifty_trend banknifty_trend].
  split; [reflexivity|]. split; [reflexivity|].
  split; apply _determine_trend_values.
Qed.

Lemma produced_context_scores (c : MarketContext) :
  produced_context c ->
  0 <= market_signal_quality c <= 1 /\ 0 <= market_favorability c <= 1.
Proof.
  intros [dp [t ->]]. unfold fresh_market_context. cbv zeta.
  cbn [market_signal_quality market_favorability].
  split.
  - unfold _calculate_signal_quality. cbv zeta.
    match goal with
    | |- _ <= py_min 1.0 (py_max 0.0 ?X) <= _ => generalize X; intro x
    end.
    unfold py_min, py_max. qsplit; lra.
  - unfold _calculate_favorability. cbv zeta.
    match goal with
    | |- _ <= py_min 1.0 (py_max 0.0 ?X) <= _ => generalize X; intro x
    end.
    unfold py_min, py_max. qsplit; lra.
Qed.

(** X10.  In every context that the analyzer returns the market state follows
    from the VIX and the two index trends: it is volatile exactly when the
    VIX is 20 or more, whatever the indices do; below 20 it is bullish
    exactly when both indices are bullish, bearish exactly when both are
    bearish, and neutral otherwise.  A bearish or bullish state therefore
    never comes with a high or very high VIX level.  The signal quality and
    the favorability of the context lie in [0, 1], as the confidence
    calculation of the engine requires. *)
Theorem get_market_context_state
    (self : MarketContextAnalyzer) (data_provider : DataProvider) (now : Z)
    (use_cache : bool) :
  reachable self ->
  let c := fst (get_market_context self data_provider now use_cache) in
  (market_state c = "volatile" <-> 20 <= vix_value c) /\
  (market_state c = "bullish" <->
     vix_value c < 20 /\ nifty_trend c = "bullish" /\ banknifty_trend c = "bullish") /\
  (market_state c = "bearish" <->
     vix_value c < 20 /\ nifty_trend c = "bearish" /\ banknifty_trend c = "bearish") /\
  In (market_state c) ["volatile"; "bullish"; "bearish"; "neutral"] /\
  (In (vix_level c) ["high"; "very_high"] <-> 20 <= vix_value c) /\
  0 <= market_signal_quality c <= 1 /\ 0 <= market_favorability c <= 1.
Proof.
  intro Hr. cbv zeta.
  pose proof (get_market_context_produced self data_provider now use_cache Hr) as Hp.
  set (c := fst (get_market_context self data_provider now use_cache)) in *.
  destruct (produced_context_state c Hp) as [Hv [Hs [Hn Hb]]].
  pose proof (produced_context_scores c Hp) as Hsc.
  cut ((market_state c = "volatile" <-> 20 <= vix_value c) /\
       (market_state c = "bullish" <->
          vix_value c < 20 /\ nifty_trend c = "bullish" /\
          banknifty_trend c = "bullish") /\
       (market_state c = "bearish" <->
          vix_value c < 20 /\ nifty_trend c = "bearish" /\
          banknifty_trend c = "bearish") /\
       In (market_state c) ["volatile"; "bullish"; "bearish"; "neutral"] /\
       (In (vix_level c) ["high"; "very_high"] <-> 20 <= vix_value c));
    [tauto|].
  clear Hsc.
  rewrite Hs, Hv. unfold _determine_market_state, _determine_vix_level,
    VIX_LOW, VIX_MODERATE, VIX_HIGH.
  simpl in Hn, Hb.
  destruct Hn as [<-|[<-|[<-|[]]]]; destruct Hb as [<-|[<-|[<-|[]]]];
    destruct (Qltb (vix_value c) 15.0) eqn:E1;
    destruct (Qltb (vix_value c) 20.0) eqn:E2;
    destruct (Qltb (vix_value c) 25.0) eqn:E3;
    qhyps; try (exfalso; lra); cbn [str_in existsb String.eqb Ascii.eqb Bool.eqb orb andb];
    (split; [|split; [|split; [|split]]]).
  all: try (split; intro H;
            [first [discriminate H | lra] | first [reflexivity | exfalso; lra]]).
  all: try (split; intro H;
            [first [discriminate H | repeat split; first [lra | reflexivity]]
            | destruct H as [H1 [H2 H3]];
              first [reflexivity | discriminate H2 | discriminate H3 | exfalso; lra]]).
  all: try (simpl; auto 6; fail).
  all: split; intro H;
    [simpl in H; destruct H as [H|[H|[]]]; first [discriminate H | lra]
    | first [exfalso; lra | simpl; auto]].
Qed.

Lemma get_market_context_state_witness :
  let c := fst (get_market_context MarketContextAnalyzer_init bearish_provider 0 true) in
  (market_state c = "volatile" <-> 20 <= vix_value c) /\
  (market_state c = "bullish" <->
     vix_value c < 20 /\ nifty_trend c = "bullish" /\ banknifty_trend c = "bullish") /\
  (market_state c = "bearish" <->
     vix_value c < 20 /\ nifty_trend c = "bearish" /\ banknifty_trend c = "bearish") /\
  In (market_state c) ["volatile"; "bullish"; "bearish"; "neutral"] /\
  (In (vix_level c) ["high"; "very_high"] <-> 20 <= vix_value c) /\
  0 <= market_signal_quality c <= 1 /\ 0 <= market_favorability c <= 1.
Proof.
  apply (get_market_context_state MarketContextAnalyzer_init bearish_provider 0 true).
  apply reachable_init.
Defined.

(** ** The no-trade gate, continued *)

(** X11.  The reasons, the severity and the flag of a signal that the enabled
    gate returns for a context always agree: trading is blocked exactly
    when at least one rule fired, which is exactly when the severity is
    not low; the severity is high exactly when the bearish-and-volatile
    rule or the VIX-spike rule fired; and the suggested action is chosen
    by the severity. *)
Theorem check_market_conditions_signal_consistent
    (self : NoTradeDetector) (mc : MarketContext) (signal : NoTradeSignal) :
  enable_no_trade self = true ->
  check_market_conditions self (Some mc) = Ok signal ->
  (is_no_trade signal = true <-> reasons signal <> []) /\
  (is_no_trade signal = false <-> severity signal = "low") /\
  In (severity signal) ["low"; "medium"; "high"] /\
  (severity signal = "high" <->
     (market_state mc = "bearish" /\ In (vix_level mc) ["high"; "very_high"]) \/
     vix_spike_threshold self < vix_value mc) /\
  (suggested_action signal = StayInCash <-> severity signal = "high") /\
  (suggested_action signal = ExtremeCaution <-> severity signal = "medium") /\
  (suggested_action signal = AllowTrading <-> severity signal = "low") /\
  (List.length (reasons signal) <= 5)%nat.
Proof.
  intros Hen H. unfold check_market_conditions in H. rewrite Hen in H.
  cbn [negb] in H.
  destruct (String.eqb (market_state mc) "bearish") eqn:Es;
    destruct (str_in (vix_level mc) ["high"; "very_high"]) eqn:Ev;
    cbn [andb] in H;
    (apply bind_ok in H; destruct H as [below [_ H]]);
    destruct (Qltb below (- nifty_drop_threshold self));
    destruct (Qltb (vix_spike_threshold self) (vix_value mc)) eqn:E3;
    destruct (String.eqb (nifty_trend mc) "bearish" &&
              String.eqb (banknifty_trend mc) "bearish" &&
              str_in (vix_level mc) ["moderate"; "high"; "very_high"]);
    destruct (String.eqb (market_state mc) "volatile" && Qltb 20 (vix_value mc));
    cbn in H; inversion H; subst signal; clear H;
    cbn [is_no_trade reasons severity suggested_action List.length];
    match type of Es with
    | _ = true => apply String.eqb_eq in Es
    | _ = false => apply String.eqb_neq in Es
    end;
    match type of Ev with
    | _ = true => apply str_in_In in Ev
    | _ = false =>
        assert (Ev' : ~ In (vix_level mc) ["high"; "very_high"])
          by (intro Hin; apply str_in_In in Hin; congruence)
    end;
    qhyps;
    (split; [|split; [|split; [|split; [|split; [|split; [|split]]]]]]).
  all: try lia.
  all: try (simpl; auto; fail).
  all: try (split; intro H; first [discriminate H | reflexivity | congruence]).
  all: split; intro H;
    first [discriminate H
          | left; split; assumption
          | right; assumption
          | reflexivity
          | destruct H as [[H1 H2]|H]; first [contradiction | exfalso; lra] ].
Qed.

Lemma check_market_conditions_signal_consistent_witness :
  exists signal,
    check_market_conditions default_NoTradeDetector (Some bearish_very_high)
    = Ok signal /\
    (is_no_trade signal = true <-> reasons signal <> []) /\
    (is_no_trade signal = false <-> severity signal = "low") /\
    In (severity signal) ["low"; "medium"; "high"] /\
    (severity signal = "high" <->
       (market_state bearish_very_high = "bearish" /\
        In (vix_level bearish_very_high) ["high"; "very_high"]) \/
       vix_spike_threshold default_NoTradeDetector < vix_value bearish_very_high) /\
    (suggested_action signal = StayInCash <-> severity signal = "high") /\
    (suggested_action signal = ExtremeCaution <-> severity signal = "medium") /\
    (suggested_action signal = AllowTrading <-> severity signal = "low") /\
    (List.length (reasons signal) <= 5)%nat.
Proof.
  eexists. split; [vm_compute; reflexivity|].
  apply (check_market_conditions_signal_consistent default_NoTradeDetector
           bearish_very_high).
  - reflexivity.
  - vm_compute. reflexivity.
Defined.

Lemma produced_context_not_bearish_volatile (c : MarketContext) :
  produced_context c ->
  String.eqb (market_state c) "bearish" && str_in (vix_level c) ["high"; "very_high"]
  = false.
Proof.
  intro Hp. destruct (produced_context_state c Hp) as [_ [Hs _]].
  rewrite Hs. unfold _determine_market_state.
  destruct (str_in (vix_level c) ["high"; "very_high"]); [reflexivity|].
  apply andb_false_r.
Qed.

(** X12.  The first rule of the gate (market bearish with high or very high VIX
    level) can never fire on a context that the analyzer returns: the
    analyzer calls every market with such a VIX level volatile, never
    bearish.  No signal for such a context lists that reason. *)
Theorem check_market_conditions_first_rule_dead
    (self : MarketContextAnalyzer) (data_provider : DataProvider) (now : Z)
    (use_cache : bool) (detector : NoTradeDetector) (signal : NoTradeSignal) :
  reachable self ->
  check_market_conditions detector
    (Some (fst (get_market_context self data_provider now use_cache))) = Ok signal ->
  forall (level : string) (vix : Q),
    ~ In (BearishWithVolatility level vix) (reasons signal).
Proof.
  intros Hr H level vix.
  pose proof (get_market_context_produced self data_provider now use_cache Hr) as Hp.
  set (c := fst (get_market_context self data_provider now use_cache)) in *.
  pose proof (produced_context_not_bearish_volatile c Hp) as Hd.
  unfold check_market_conditions in H.
  destruct (enable_no_trade detector); cbn [negb] in H.
  2:{ inversion H. simpl. tauto. }
  rewrite Hd in H.
  apply bind_ok in H. destruct H as [below [_ H]].
  destruct (Qltb below (- nifty_drop_threshold detector));
    destruct (Qltb (vix_spike_threshold detector) (vix_value c));
    destruct (String.eqb (nifty_trend c) "bearish" &&
              String.eqb (banknifty_trend c) "bearish" &&
              str_in (vix_level c) ["moderate"; "high"; "very_high"]);
    destruct (String.eqb (market_state c) "volatile" && Qltb 20 (vix_value c));
    cbn in H; inversion H; subst signal; clear H;
    cbn [reasons]; intro Hin; simpl in Hin;
    repeat match goal with
    | Hin : _ \/ _ |- _ => destruct Hin as [Hin|Hin]
    end; first [discriminate Hin | contradiction].
Qed.

Lemma check_market_conditions_first_rule_dead_witness :
  exists signal,
    check_market_conditions default_NoTradeDetector
      (Some (fst (get_market_context MarketContextAnalyzer_init bearish_provider 0 true)))
    = Ok signal /\
    forall (level : string) (vix : Q),
      ~ In (BearishWithVolatility level vix) (reasons signal).
Proof.
  eexists. split; [vm_compute; reflexivity|].
  apply (check_market_conditions_first_rule_dead MarketContextAnalyzer_init
           bearish_provider 0 true default_NoTradeDetector).
  - apply reachable_init.
  - vm_compute. reflexivity.
Defined.

Lemma get_market_context_refresh (self : MarketContextAnalyzer)
    (data_provider : DataProvider) (now : Z) :
  get_market_context self data_provider now false
  = (fresh_market_context data_provider now,
     mkMarketContextAnalyzer (Some (fresh_market_context data_provider now))
       (Some now)).
Proof.
  unfold get_market_context.
  destruct (_cache self); [destruct (_cache_time self)|]; reflexivity.
Qed.

(** X13.  When the provider cannot deliver the Nifty 50 data, [_fetch_index_data]
    reports price and averages 0.0 and the context is built all the same,
    with a neutral Nifty trend.  The enabled gate then divides by the
    50-day average of that context: [check_market_conditions] raises
    ZeroDivisionError, and so does [get_market_safety_score]. *)
Theorem nifty_fetch_failure_raises
    (self : MarketContextAnalyzer) (data_provider : DataProvider) (now : Z)
    (detector : NoTradeDetector) (e : pyerr) :
  data_provider NIFTY_50 = Err e ->
  enable_no_trade detector = true ->
  let c := fst (get_market_context self data_provider now false) in
  nifty_trend c = "neutral" /\ nifty_50dma c = 0.0 /\
  check_market_conditions detector (Some c) = Err ZeroDivisionError /\
  get_market_safety_score detector (Some c) = Err ZeroDivisionError.
Proof.
  intros Hf Hen. cbv zeta. rewrite get_market_context_refresh. cbn [fst].
  assert (Hn : _fetch_index_data data_provider NIFTY_50 = mkIndexData 0.0 0.0 0.0).
  { unfold _fetch_index_data. rewrite Hf. reflexivity. }
  assert (H50 : nifty_50dma (fresh_market_context data_provider now) = 0.0).
  { unfold fresh_market_context. cbv zeta. cbn [nifty_50dma]. rewrite Hn. reflexivity. }
  assert (Ht : nifty_trend (fresh_market_context data_provider now) = "neutral").
  { unfold fresh_market_context. cbv zeta. cbn [nifty_trend]. rewrite Hn. reflexivity. }
  split; [exact Ht|]. split; [exact H50|]. split.
  - unfold check_market_conditions. rewrite Hen. cbn [negb].
    destruct (_ && _); rewrite H50; reflexivity.
  - unfold get_market_safety_score. cbv zeta. rewrite H50. reflexivity.
Qed.

Lemma nifty_fetch_failure_raises_witness :
  let c := fst (get_market_context MarketContextAnalyzer_init failing_provider 0 false) in
  nifty_trend c = "neutral" /\ nifty_50dma c = 0.0 /\
  check_market_conditions default_NoTradeDetector (Some c) = Err ZeroDivisionError /\
  get_market_safety_score default_NoTradeDetector (Some c) = Err ZeroDivisionError.
Proof.
  apply (nifty_fetch_failure_raises MarketContextAnalyzer_init failing_provider 0
           default_NoTradeDetector (ValueError "unavailable")).
  - reflexivity.
  - reflexivity.
Defined.

(** X14.  A call that refreshes the context fills the cache; a later cached call
    less than 15 minutes (900 seconds) after it returns that same context
    and leaves the analyzer as it is, whatever the provider would answer
    now; from 15 minutes on it computes a fresh context from the
    provider's current data and caches that one. *)
Theorem get_market_context_cache
    (self : MarketContextAnalyzer) (data_provider later_provider : DataProvider)
    (now later : Z) :
  let first := get_market_context self data_provider now false in
  fst first = fresh_market_context data_provider now /\
  get_market_context (snd first) later_provider later true =
    if (later - now <? 900)%Z then (fst first, snd first)
    else (fresh_market_context later_provider later,
          mkMarketContextAnalyzer (Some (fresh_market_context later_provider later))
            (Some later)).
Proof.
  cbv zeta. rewrite get_market_context_refresh. cbn [fst snd].
  split; [reflexivity|].
  unfold get_market_context. cbn [_cache _cache_time andb].
  unfold _cache_duration. destruct (later - now <? 900)%Z; reflexivity.
Qed.

(** X15.  The safety score is defined exactly for an absent context (0.5) and for
    a context whose Nifty 50-day average is not 0, where it lies in
    [0, 1]; on a context with a 50-day average of 0 the function raises
    ZeroDivisionError.  It reaches 1 only when the state is neither bearish
    nor volatile and the VIX level is none of moderate, high, very_high and
    the Nifty is no more than 3% below its average. *)
Theorem get_market_safety_score_range
    (self : NoTradeDetector) (mc : MarketContext) :
  get_market_safety_score self None = Ok 0.5 /\
  ((nifty_50dma mc == 0 /\
    get_market_safety_score self (Some mc) = Err ZeroDivisionError) \/
   (~ nifty_50dma mc == 0 /\
    exists score,
      get_market_safety_score self (Some mc) = Ok score /\
      0 <= score <= 1 /\
      (score == 1 ->
       market_state mc <> "bearish" /\ market_state mc <> "volatile" /\
       ~ In (vix_level mc) ["moderate"; "high"; "very_high"] /\
       -0.03 <= (nifty_price mc - nifty_50dma mc) / nifty_50dma mc))).
Proof.
  split; [reflexivity|].
  unfold get_market_safety_score. cbv zeta. unfold py_div.
  destruct (Qeqb (nifty_50dma mc) 0) eqn:E0.
  - left. apply Qeqb_eq in E0. split; [exact E0 | reflexivity].
  - right. apply Qeqb_neq in E0. split; [exact E0|]. cbn [bind].
    eexists. split; [reflexivity|].
    set (below := (nifty_price mc - nifty_50dma mc) / nifty_50dma mc).
    destruct (String.eqb (market_state mc) "bearish") eqn:S1;
      [|destruct (String.eqb (market_state mc) "volatile") eqn:S2];
      (destruct (String.eqb (vix_level mc) "very_high") eqn:V1;
       [|destruct (String.eqb (vix_level mc) "high") eqn:V2;
         [|destruct (String.eqb (vix_level mc) "moderate") eqn:V3]]);
      (destruct (Qltb below (-0.05)) eqn:B1;
       [|destruct (Qltb below (-0.03)) eqn:B2]);
      qhyps; unfold py_max, py_min; qsplit;
      (split; [lra|]); intro H1; try (exfalso; lra).
    apply String.eqb_neq in S1, S2, V1, V2, V3.
    split; [exact S1|]. split; [exact S2|]. split; [|lra].
    simpl. intros [H|[H|[H|[]]]]; congruence.
Qed.

(** X16.  The gate's own [should_block_recommendation] and the override step of
    [AgentCore.analyze_stock] implement the same policy: for a signal of
    the gate, the override rewrites the action of a recommendation exactly
    when [should_block_recommendation] answers True for that action; only a
    BUY is ever rewritten, always to HOLD, and the confidence, the entry
    prices and the trade levels of the recommendation stay as they were. *)
Theorem override_agrees_with_should_block
    (detector : NoTradeDetector) (mc : option MarketContext)
    (signal : NoTradeSignal) (r : Recommendation) :
  check_market_conditions detector mc = Ok signal ->
  let r' := override_buy_on_no_trade signal r in
  (should_block_recommendation detector (rec_action r) mc = Ok true <->
   rec_action r' <> rec_action r) /\
  (rec_action r' <> rec_action r -> rec_action r = "BUY" /\ rec_action r' = "HOLD") /\
  (rec_action r <> "BUY" ->
   should_block_recommendation detector (rec_action r) mc = Ok false /\ r' = r) /\
  rec_confidence r' = rec_confidence r /\
  rec_trade_levels r' = rec_trade_levels r /\
  rec_entry_price_low r' = rec_entry_price_low r /\
  rec_entry_price_high r' = rec_entry_price_high r.
Proof.
  intro H. cbv zeta.
  unfold should_block_recommendation, override_buy_on_no_trade. rewrite H.
  cbn [bind].
  destruct (String.eqb (rec_action r) "BUY") eqn:Eb;
    destruct (is_no_trade signal); cbn [negb andb rec_action rec_confidence
      rec_trade_levels rec_entry_price_low rec_entry_price_high].
  - apply String.eqb_eq in Eb. rewrite Eb.
    split; [split; [intros _ Hc; discriminate Hc | reflexivity]|].
    split; [intros _; split; reflexivity|].
    split; [intro Hc; exfalso; apply Hc; reflexivity|].
    repeat split.
  - apply String.eqb_eq in Eb.
    split; [split; [intro Hc; discriminate Hc | intro Hc; exfalso; apply Hc; reflexivity]|].
    split; [intro Hc; exfalso; apply Hc; reflexivity|].
    split; [intro Hc; exfalso; apply Hc; exact Eb|].
    repeat split.
  - split; [split; [intro Hc; discriminate Hc | intro Hc; exfalso; apply Hc; reflexivity]|].
    split; [intro Hc; exfalso; apply Hc; reflexivity|].
    split; [intros _; split; reflexivity|].
    repeat split.
  - split; [split; [intro Hc; discriminate Hc | intro Hc; exfalso; apply Hc; reflexivity]|].
    split; [intro Hc; exfalso; apply Hc; reflexivity|].
    split; [intros _; split; reflexivity|].
    repeat split.
Qed.

Lemma generate_recommendation_buy_fields
    (self : RecommendationEngine) (sentiment : SentimentData)
    (technical : TechnicalIndicators) (fundamental : FundamentalMetrics)
    (current_price : Q) (market_context : option MarketContext)
    (r : Recommendation) :
  generate_recommendation self sentiment technical fundamental current_price
    market_context = Ok r ->
  rec_action r = "BUY" ->
  Recommendation_post_init r = Ok r /\
  rec_trade_levels r <> None /\
  rec_entry_price_low r <> None /\ rec_entry_price_high r <> None.
Proof.
  unfold generate_recommendation. intros H Ha.
  apply bind_ok in H. destruct H as [[confidence breakdown] [_ H]].
  cbv beta iota in H.
  match type of H with
  | context [String.eqb ?a "BUY"] => set (action := a) in H
  end.
  apply bind_ok in H. destruct H as [fields [Hf H]].
  destruct fields as [[[[el eh] xl] xh] tl]. cbv beta iota in H.
  pose proof H as Hv.
  apply Recommendation_post_init_ok in H.
  rewrite <- H in Hv. split; [exact Hv|].
  assert (Eb : String.eqb action "BUY" = true).
  { apply String.eqb_eq. rewrite H in Ha. exact Ha. }
  rewrite Eb in Hf.
  destruct (suggest_price_range action current_price technical) as [low high].
  apply bind_ok in Hf. destruct Hf as [levels [_ Hf]].
  inversion Hf; subst. cbn. repeat split; discriminate.
Qed.

(** X17.  When the no-trade signal is active, the BUY that the engine generated
    leaves [analyze_stock] as a HOLD that still carries the BUY's trade
    levels and entry prices, with its confidence unchanged -- unlike every
    HOLD that the engine itself generates, which carries none. *)
Theorem no_trade_override_keeps_trade_levels
    (self : RecommendationEngine) (sentiment : SentimentData)
    (technical : TechnicalIndicators) (fundamental : FundamentalMetrics)
    (current_price : Q) (market_context : option MarketContext)
    (signal : NoTradeSignal) (r : Recommendation) :
  generate_recommendation self sentiment technical fundamental current_price
    market_context = Ok r ->
  rec_action r = "BUY" ->
  is_no_trade signal = true ->
  let r' := override_buy_on_no_trade signal r in
  rec_action r' = "HOLD" /\
  rec_trade_levels r' = rec_trade_levels r /\ rec_trade_levels r' <> None /\
  rec_entry_price_low r' <> None /\ rec_entry_price_high r' <> None /\
  rec_confidence r' = rec_confidence r.
Proof.
  intros H Ha Hn. cbv zeta.
  destruct (generate_recommendation_buy_fields _ _ _ _ _ _ _ H Ha)
    as [_ [Htl [Hlo Hhi]]].
  unfold override_buy_on_no_trade. rewrite Hn, Ha. cbn.
  repeat split; assumption.
Qed.

Lemma no_trade_override_keeps_trade_levels_witness :
  exists r,
    generate_recommendation example_engine example_sentiment example_indicators
      example_fundamental 100.0 None = Ok r /\
    let r' := override_buy_on_no_trade
                (mkNoTradeSignal true [VixSpikeDetected 28 25] StayInCash "high") r in
    rec_action r' = "HOLD" /\
    rec_trade_levels r' = rec_trade_levels r /\ rec_trade_levels r' <> None /\
    rec_entry_price_low r' <> None /\ rec_entry_price_high r' <> None /\
    rec_confidence r' = rec_confidence r.
Proof.
  eexists. split; [vm_compute; reflexivity|].
  apply (no_trade_override_keeps_trade_levels example_engine example_sentiment
           example_indicators example_fundamental 100.0 None).
  - vm_compute. reflexivity.
  - reflexivity.
  - reflexivity.
Defined.

Lemma override_agrees_with_should_block_witness :
  exists signal,
    check_market_conditions default_NoTradeDetector (Some bearish_very_high)
    = Ok signal /\
    let r := mkRecommendation "TEST" "BUY" 0.8 (Some 98) (Some 102) None None
               0.1 0.1 0.1 None None None in
    let r' := override_buy_on_no_trade signal r in
    (should_block_recommendation default_NoTradeDetector (rec_action r)
       (Some bearish_very_high) = Ok true <->
     rec_action r' <> rec_action r) /\
    (rec_action r' <> rec_action r -> rec_action r = "BUY" /\ rec_action r' = "HOLD") /\
    (rec_action r <> "BUY" ->
     should_block_recommendation default_NoTradeDetector (rec_action r)
       (Some bearish_very_high) = Ok false /\ r' = r) /\
    rec_confidence r' = rec_confidence r /\
    rec_trade_levels r' = rec_trade_levels r /\
    rec_entry_price_low r' = rec_entry_price_low r /\
    rec_entry_price_high r' = rec_entry_price_high r.
Proof.
  eexists. split; [vm_compute; reflexivity|].
  apply (override_agrees_with_should_block default_NoTradeDetector
           (Some bearish_very_high)).
  vm_compute. reflexivity.
Defined.

(** ** The reversal watch (src/reversal_watch_detector.py) *)

(** X18.  Fundamentals count as fair exactly when the score is not negative and
    each of the four metrics that is present is within its limit; the
    limits themselves (a P/E of 30, a P/B of 5, a debt-to-equity of 2.0, a
    revenue growth of -10) are accepted. *)
Theorem check_fundamental_quality_spec (fundamental : FundamentalMetrics) :
  fst (check_fundamental_quality fundamental) = true <->
  0 <= fm_fundamental_score fundamental /\
  (forall pe, fm_pe_ratio fundamental = Some pe -> pe <= 30) /\
  (forall pb, fm_pb_ratio fundamental = Some pb -> pb <= 5) /\
  (forall de, fm_debt_to_equity fundamental = Some de -> de <= 2) /\
  (forall g, fm_revenue_growth fundamental = Some g -> -10 <= g).
Proof.
  unfold check_fundamental_quality. cbv zeta.
  destruct (Qltb (fm_fundamental_score fundamental) 0) eqn:E0; qhyps.
  { cbn [fst]. split; [discriminate | intros [H _]; lra]. }
  destruct (fm_pe_ratio fundamental) as [pe|];
    [destruct (Qltb 30 pe) eqn:E1; qhyps|]; cbn [or_return fst].
  1:{ split; [discriminate|]. intros [_ [H _]]. specialize (H pe eq_refl). lra. }
  all: (destruct (fm_pb_ratio fundamental) as [pb|];
        [destruct (Qltb 5 pb) eqn:E2; qhyps|]; cbn [or_return fst]).
  1,4:(split; [discriminate|]; intros [_ [_ [H _]]]; specialize (H pb eq_refl); lra).
  all: (destruct (fm_debt_to_equity fundamental) as [de|];
        [destruct (Qltb 2.0 de) eqn:E3; qhyps|]; cbn [or_return fst]).
  all: try (split; [discriminate|]; intros [_ [_ [_ [H _]]]];
            specialize (H de eq_refl); lra).
  all: (destruct (fm_revenue_growth fundamental) as [g|];
        [destruct (Qltb g (-10)) eqn:E4; qhyps|]; cbn [or_return fst]).
  all: try (split; [discriminate|]; intros [_ [_ [_ [_ H]]]];
            specialize (H g eq_refl); lra).
  all: split; [intros _|reflexivity].
  all: split; [lra|].
  all: repeat split; intros x Hx; inversion Hx; subst; lra.
Qed.

Lemma check_reversal_triggers_shape (technical : TechnicalIndicators)
    (prices : list PricePoint) :
  exists volume_met volume_ratio,
    check_reversal_triggers technical prices =
    [mkReversalTrigger "RSI Recovery" (Qltb 30 (ti_rsi technical))
       (ti_rsi technical) 30.0;
     mkReversalTrigger "MACD Momentum"
       (Qltb 0 (ti_macd technical - ti_macd_signal technical))
       (ti_macd technical - ti_macd_signal technical) 0.0;
     mkReversalTrigger "Volume Spike" volume_met volume_ratio 1.5] /\
    ((List.length prices < 20)%nat -> volume_met = false).
Proof.
  unfold check_reversal_triggers. cbv zeta.
  destruct (20 <=? List.length prices)%nat eqn:E.
  - eexists. eexists. split; [reflexivity|].
    apply Nat.leb_le in E. intro H. lia.
  - eexists. eexists. split; [reflexivity|]. reflexivity.
Qed.

(** X19.  What [detect] reports: a reversal setup exactly when the regime is
    oversold-zone, the fundamentals are fair and the market is not in
    panic.  Without a setup the status is not-applicable, with no triggers
    and confidence 0.  With a setup the three triggers are listed, and the
    status is triggered with confidence 0.85 when all three are met, and
    watch-only otherwise, with confidence 0.65 for two and 0.45 for fewer. *)
Theorem detect_spec
    (symbol : string) (technical : TechnicalIndicators)
    (fundamental : FundamentalMetrics) (market_context : option MarketContext)
    (prices : list PricePoint) :
  let w := detect symbol technical fundamental market_context prices in
  (rw_is_reversal_setup w = true <->
     ti_regime technical = "oversold-zone" /\
     fst (check_fundamental_quality fundamental) = true /\
     fst (check_market_panic market_context) = false) /\
  ((rw_is_reversal_setup w = false /\ rw_status w = "not-applicable" /\
    rw_triggers w = [] /\ rw_confidence w = 0.0) \/
   (rw_is_reversal_setup w = true /\
    rw_triggers w = check_reversal_triggers technical prices /\
    List.length (rw_triggers w) = 3%nat /\
    ((count_met (rw_triggers w) = 3%nat /\ rw_status w = "triggered" /\
      rw_confidence w = 0.85) \/
     (count_met (rw_triggers w) = 2%nat /\ rw_status w = "watch-only" /\
      rw_confidence w = 0.65) \/
     ((count_met (rw_triggers w) < 2)%nat /\ rw_status w = "watch-only" /\
      rw_confidence w = 0.45)))).
Proof.
  cbv zeta. unfold detect. cbv zeta.
  destruct (String.eqb (ti_regime technical) "oversold-zone") eqn:Er; cbn [negb].
  2:{ apply String.eqb_neq in Er. split.
      - split; [discriminate | intros [H _]; contradiction].
      - left. repeat split. }
  apply String.eqb_eq in Er.
  destruct (check_fundamental_quality fundamental) as [ok why]. cbn [fst].
  destruct ok; cbn [negb].
  2:{ split.
      - split; [discriminate | intros [_ [H _]]; discriminate H].
      - left. repeat split. }
  destruct (check_market_panic market_context) as [panic why']. cbn [fst].
  destruct panic.
  { split.
    - split; [discriminate | intros [_ [_ H]]; discriminate H].
    - left. repeat split. }
  destruct (check_reversal_triggers_shape technical prices) as [vm [vr [Ht _]]].
  rewrite Ht. unfold count_met.
  cbn [filter rt_met List.length].
  split.
  - destruct (Qltb 30 (ti_rsi technical));
      destruct (Qltb 0 (ti_macd technical - ti_macd_signal technical));
      destruct vm; cbn; (split; [intros _; repeat split; assumption | reflexivity]).
  - right.
    destruct (Qltb 30 (ti_rsi technical));
      destruct (Qltb 0 (ti_macd technical - ti_macd_signal technical));
      destruct vm; cbn;
      (split; [reflexivity|]); (split; [reflexivity|]); (split; [reflexivity|]);
      first [left; repeat split; reflexivity
            | right; left; repeat split; reflexivity
            | right; right; repeat split; lia].
Qed.

(** X20.  On the indicator set that [analyze] returns, [detect] can never report
    the status triggered: the regime is oversold-zone only for an RSI below
    25, and the first trigger asks for an RSI above 30.  At most two of the
    three triggers are met and the confidence is at most 0.65. *)
Theorem detect_never_triggered_after_analyze
    (tanh : Q -> Q) (symbol : string) (prices : list PricePoint)
    (ind : TechnicalIndicators)
    (fundamental : FundamentalMetrics) (market_context : option MarketContext)
    (recent : list PricePoint) :
  analyze tanh symbol prices = Ok ind ->
  let w := detect symbol ind fundamental market_context recent in
  rw_status w <> "triggered" /\
  (count_met (rw_triggers w) <= 2)%nat /\
  rw_confidence w <= 0.65.
Proof.
  intro H. cbv zeta.
  apply analyze_ok_finish in H. destruct H as [_ [cp [i [_ ->]]]].
  destruct (analyze_finish_fields tanh cp i) as [Hreg [_ Hrsi]].
  unfold detect. cbv zeta. rewrite Hreg.
  destruct (String.eqb (classify_regime cp i) "oversold-zone") eqn:Er; cbn [negb].
  2:{ cbn. split; [discriminate|]. split; [lia|]. unfold Qle; simpl; lia. }
  apply String.eqb_eq in Er.
  rewrite classify_regime_ladder in Er.
  assert (Hlow : ti_rsi i < 25).
  { destruct (Qltb (ti_rsi i) 25) eqn:E1; qhyps; [exact E1|].
    cbn [andb] in Er.
    repeat match type of Er with
    | (if ?c then _ else _) = _ => destruct c
    end; discriminate Er. }
  destruct (check_fundamental_quality fundamental) as [ok why].
  destruct ok; cbn [negb].
  2:{ cbn. split; [discriminate|]. split; [lia|]. unfold Qle; simpl; lia. }
  destruct (check_market_panic market_context) as [panic why'].
  destruct panic.
  { cbn. split; [discriminate|]. split; [lia|]. unfold Qle; simpl; lia. }
  destruct (check_reversal_triggers_shape (analyze_finish tanh cp i) recent)
    as [vm [vr [Ht _]]].
  rewrite Ht, Hrsi. unfold count_met. cbn [filter rt_met List.length].
  assert (E30 : Qltb 30 (ti_rsi i) = false).
  { destruct (Qltb 30 (ti_rsi i)) eqn:E; qhyps; [exfalso; lra | reflexivity]. }
  rewrite E30. clear Er.
  destruct (Qltb 0 (ti_macd (analyze_finish tanh cp i)
                    - ti_macd_signal (analyze_finish tanh cp i)));
    destruct vm; cbn;
    (split; [discriminate|]); (split; [lia|]); unfold Qle; simpl; lia.
Qed.

Lemma detect_never_triggered_after_analyze_witness :
  exists ind,
    analyze hard_tanh "TEST" slide_history = Ok ind /\
    let w := detect "TEST" ind example_fundamental None slide_history in
    rw_status w <> "triggered" /\
    (count_met (rw_triggers w) <= 2)%nat /\
    rw_confidence w <= 0.65.
Proof.
  eexists. split; [vm_compute; reflexivity|].
  apply (detect_never_triggered_after_analyze hard_tanh "TEST" slide_history).
  vm_compute. reflexivity.
Defined.

(** ** The fusion engine, continued *)

(** Turns a decided string comparison into an equation or a disequation. *)
Ltac str_hyp H :=
  match type of H with
  | String.eqb _ _ = true => apply String.eqb_eq in H
  | String.eqb _ _ = false => apply String.eqb_neq in H
  end.

Lemma py_max_list_lt (c : Q) (xs : list Q) :
  forall x, x < c -> Forall (fun y => y < c) xs -> py_max_list x xs < c.
Proof.
  unfold py_max_list. induction xs as [|y r IH]; intros x Hx H; cbn [fold_left].
  - exact Hx.
  - inversion H; subst. apply IH; [|assumption].
    unfold py_max. destruct (Qltb x y); assumption.
Qed.

Lemma py_min_list_gt (c : Q) (xs : list Q) :
  forall x, c < x -> Forall (fun y => c < y) xs -> c < py_min_list x xs.
Proof.
  unfold py_min_list. induction xs as [|y r IH]; intros x Hx H; cbn [fold_left].
  - exact Hx.
  - inversion H; subst. apply IH; [|assumption].
    unfold py_min. destruct (Qltb y x); assumption.
Qed.

Lemma filter_Forall_Qltb_l (c : Q) (l : list Q) :
  Forall (fun y => y < c) (filter (fun s => Qltb s c) l).
Proof.
  apply Forall_forall. intros y Hy. apply filter_In in Hy.
  destruct Hy as [_ Hy]. apply Qltb_lt in Hy. exact Hy.
Qed.

Lemma filter_Forall_Qltb_r (c : Q) (l : list Q) :
  Forall (fun y => c < y) (filter (fun r => Qltb c r) l).
Proof.
  apply Forall_forall. intros y Hy. apply filter_In in Hy.
  destruct Hy as [_ Hy]. apply Qltb_lt in Hy. exact Hy.
Qed.

Lemma suggest_price_range_brackets
    (action : string) (current_price : Q) (technical : TechnicalIndicators) :
  0 < current_price ->
  fst (suggest_price_range action current_price technical) < current_price /\
  current_price < snd (suggest_price_range action current_price technical).
Proof.
  intro Hp. unfold suggest_price_range.
  destruct (String.eqb action "BUY"); [|destruct (String.eqb action "SELL")].
  - destruct (ti_support_levels technical) as [|s l] eqn:El; cbn [fst snd];
      [split; lra|].
    pose proof (filter_Forall_Qltb_l current_price (s :: l)) as Hf.
    destruct (filter _ (s :: l)) as [|s0 rest]; cbn [fst snd]; [split; lra|].
    inversion Hf; subst. split; [apply py_max_list_lt; assumption | lra].
  - destruct (ti_resistance_levels technical) as [|s l] eqn:El; cbn [fst snd];
      [split; lra|].
    pose proof (filter_Forall_Qltb_r current_price (s :: l)) as Hf.
    destruct (filter _ (s :: l)) as [|r0 rest]; cbn [fst snd]; [split; lra|].
    inversion Hf; subst. split; [lra | apply py_min_list_gt; assumption].
  - cbn [fst snd]. split; lra.
Qed.

(** X21.  The price range that [suggest_price_range] returns for a positive
    current price always brackets that price, low < price < high, for
    every action and whatever support and resistance levels the indicators
    hold; a BUY range never reaches more than 2% above the price and a SELL
    range never more than 2% below it. *)
Theorem suggest_price_range_brackets_price
    (action : string) (current_price : Q) (technical : TechnicalIndicators) :
  0 < current_price ->
  let range := suggest_price_range action current_price technical in
  fst range < current_price /\ current_price < snd range /\
  (action = "BUY" -> snd range == current_price * 1.02) /\
  (action = "SELL" -> fst range == current_price * 0.98).
Proof.
  intro Hp. cbv zeta.
  destruct (suggest_price_range_brackets action current_price technical Hp) as [H1 H2].
  split; [exact H1|]. split; [exact H2|]. split; intros ->.
  - unfold suggest_price_range. cbn [String.eqb Ascii.eqb Bool.eqb andb].
    destruct (ti_support_levels technical); [reflexivity|].
    destruct (filter _ _); reflexivity.
  - unfold suggest_price_range.
    change (String.eqb "SELL" "BUY") with false.
    change (String.eqb "SELL" "SELL") with true. cbv iota.
    destruct (ti_resistance_levels technical); [reflexivity|].
    destruct (filter _ _); reflexivity.
Qed.

Lemma suggest_price_range_brackets_price_witness :
  let range := suggest_price_range "BUY" 100 example_indicators in
  fst range < 100 /\ 100 < snd range /\
  ("BUY" = "BUY" -> snd range == 100 * 1.02) /\
  ("BUY" = "SELL" -> fst range == 100 * 0.98).
Proof.
  apply (suggest_price_range_brackets_price "BUY" 100 example_indicators).
  reflexivity.
Defined.

(** X22.  The action of a generated recommendation, read off the combined score
    and the market state: a BUY needs a combined score above 0.3, of at
    least 0.5 in a volatile market and of at least 0.6 in a bearish one; a
    SELL needs a score below -0.3, and of at most -0.5 in a volatile
    market; everything else is a HOLD.  The market context never turns a
    HOLD or a SELL into a BUY. *)
Theorem generate_recommendation_action_thresholds
    (self : RecommendationEngine) (sentiment : SentimentData)
    (technical : TechnicalIndicators) (fundamental : FundamentalMetrics)
    (current_price : Q) (market_context : option MarketContext)
    (r : Recommendation) :
  generate_recommendation self sentiment technical fundamental current_price
    market_context = Ok r ->
  let s := combined_score_of self sentiment technical fundamental market_context in
  In (rec_action r) ["BUY"; "SELL"; "HOLD"] /\
  (rec_action r = "BUY" ->
   0.3 < s /\
   forall mc, market_context = Some mc ->
     (market_state mc = "volatile" -> 0.5 <= s) /\
     (market_state mc = "bearish" -> 0.6 <= s)) /\
  (rec_action r = "SELL" ->
   s < -0.3 /\
   forall mc, market_context = Some mc -> market_state mc = "volatile" -> s <= -0.5) /\
  (rec_action r = "HOLD" ->
   -0.5 < s < 0.6).
Proof.
  intro H. cbv zeta. rewrite (generate_recommendation_action _ _ _ _ _ _ _ H).
  set (s := combined_score_of self sentiment technical fundamental market_context).
  clear H. unfold final_action_of. cbv zeta.
  destruct market_context as [mc|].
  - unfold _adjust_for_market_context.
    destruct (String.eqb (market_state mc) "volatile") eqn:Ev;
      destruct (String.eqb (market_state mc) "bearish") eqn:Eb;
      destruct (Qltb 0.3 s) eqn:E1; destruct (Qltb s (-0.3)) eqn:E2;
      destruct (Qltb s 0.5) eqn:E3; destruct (Qltb (-0.5) s) eqn:E4;
      destruct (Qltb s 0.6) eqn:E5;
      qhyps; try (exfalso; lra);
      str_hyp Ev; str_hyp Eb; try (exfalso; congruence);
      cbn [String.eqb Ascii.eqb Bool.eqb andb];
      (split; [simpl; auto|]);
      (split; [intro Ha;
               first [discriminate Ha
                     | split; [lra|];
                       intros mc' Hmc; inversion Hmc; subst mc';
                       split; intro Hs; first [lra | congruence]]|]);
      (split; [intro Ha;
               first [discriminate Ha
                     | split; [lra|];
                       intros mc' Hmc Hs; inversion Hmc; subst mc';
                       first [lra | congruence]]|]);
      intro Ha; first [discriminate Ha | lra].
  - destruct (Qltb 0.3 s) eqn:E1; destruct (Qltb s (-0.3)) eqn:E2; qhyps;
      try (exfalso; lra);
      (split; [simpl; auto|]);
      (split; [intro Ha;
               first [discriminate Ha
                     | split; [lra|]; intros mc' Hmc; discriminate Hmc]|]);
      (split; [intro Ha;
               first [discriminate Ha
                     | split; [lra|]; intros mc' Hmc; discriminate Hmc]|]);
      intro Ha; first [discriminate Ha | lra].
Qed.

Lemma generate_recommendation_action_thresholds_witness :
  exists r,
    generate_recommendation example_engine example_sentiment example_indicators
      example_fundamental 100.0 None = Ok r /\
    let s := combined_score_of example_engine example_sentiment example_indicators
               example_fundamental None in
    In (rec_action r) ["BUY"; "SELL"; "HOLD"] /\
    (rec_action r = "BUY" ->
     0.3 < s /\
     forall mc, None = Some mc ->
       (market_state mc = "volatile" -> 0.5 <= s) /\
       (market_state mc = "bearish" -> 0.6 <= s)) /\
    (rec_action r = "SELL" ->
     s < -0.3 /\
     forall mc, None = Some mc -> market_state mc = "volatile" -> s <= -0.5) /\
    (rec_action r = "HOLD" ->
     -0.5 < s < 0.6).
Proof.
  eexists. split; [vm_compute; reflexivity|].
  apply (generate_recommendation_action_thresholds example_engine example_sentiment
           example_indicators example_fundamental 100.0 None).
  vm_compute. reflexivity.
Defined.

(** *** Rounding *)

Lemma round_half_even_floor (y : Q) :
  (Qfloor y <= round_half_even y <= Qfloor y + 1)%Z.
Proof.
  unfold round_half_even. cbv zeta.
  destruct (Qltb _ (1 # 2)); [lia|].
  destruct (Qltb (1 # 2) _); [lia|].
  destruct (Z.even _); lia.
Qed.

Lemma round_half_even_le (y : Q) (k : Z) :
  y <= inject_Z k -> (round_half_even y <= k)%Z.
Proof.
  intro H. unfold round_half_even. cbv zeta.
  pose proof (Qfloor_le y) as Hf.
  assert (Hk : (Qfloor y <= k)%Z).
  { rewrite <- (Qfloor_Z k). apply Qfloor_resp_le. exact H. }
  assert (Hup : 1 # 2 <= y - inject_Z (Qfloor y) -> (Qfloor y + 1 <= k)%Z).
  { intro Hr. assert (Hlt : inject_Z (Qfloor y) < inject_Z k) by lra.
    rewrite <- Zlt_Qlt in Hlt. lia. }
  destruct (Qltb (y - inject_Z (Qfloor y)) (1 # 2)) eqn:E1; [exact Hk|].
  apply Qltb_ge in E1.
  destruct (Qltb (1 # 2) _); [apply Hup; exact E1|].
  destruct (Z.even _); [exact Hk | apply Hup; exact E1].
Qed.

Lemma round_half_even_ge (y : Q) (k : Z) :
  inject_Z k <= y -> (k <= round_half_even y)%Z.
Proof.
  intro H. pose proof (round_half_even_floor y) as [Hf _].
  assert (Hk : (k <= Qfloor y)%Z).
  { rewrite <- (Qfloor_Z k). apply Qfloor_resp_le. exact H. }
  lia.
Qed.

(** Rounding to two decimals keeps a value of [0, 1] in [0, 1]. *)
Lemma py_round2_unit (x : Q) : 0 <= x <= 1 -> 0 <= py_round2 x <= 1.
Proof.
  intros [H0 H1]. unfold py_round2.
  assert (Hlo : (0 <= round_half_even (x * 100))%Z)
    by (apply round_half_even_ge; change (inject_Z 0) with 0; lra).
  assert (Hhi : (round_half_even (x * 100) <= 100)%Z)
    by (apply round_half_even_le; change (inject_Z 100) with 100; lra).
  unfold Qle. simpl. lia.
Qed.

Lemma unit_interval_true (x : Q) : 0 <= x <= 1 -> unit_interval x = true.
Proof.
  intros [H0 H1]. unfold unit_interval. apply andb_true_iff.
  split; apply Qleb_le; lra.
Qed.

(** *** When the confidence calculation and the engine return *)

Lemma calculate_confidence_ok
    (sentiment : SentimentData) (technical : TechnicalIndicators)
    (fundamental : FundamentalMetrics) (combined_score : Q)
    (market_context : option MarketContext) :
  sn_confidence sentiment <= 1 ->
  (forall mc, market_context = Some mc ->
     0 <= market_signal_quality mc <= 1 /\ 0 <= market_favorability mc <= 1) ->
  exists confidence breakdown,
    calculate_confidence sentiment technical fundamental combined_score market_context
    = Ok (confidence, breakdown) /\
    0 <= confidence <= 1.
Proof.
  intros Hc Hm.
  destruct (calculate_confidence sentiment technical fundamental combined_score
              market_context) as [[confidence breakdown]|e] eqn:E.
  - exists confidence, breakdown. split; [reflexivity|].
    apply (calculate_confidence_agreement _ _ _ _ _ _ _ E).
  - exfalso. revert E. unfold calculate_confidence. cbv zeta.
    destruct (agreements_of _ _ _ _ _) as [agreements total].
    assert (Hq : exists q f,
               match market_context with
               | Some mc => (market_signal_quality mc, market_favorability mc)
               | None => (0.0, 0.0)
               end = (q, f) /\ 0 <= q <= 1 /\ 0 <= f <= 1).
    { destruct market_context as [mc|].
      - destruct (Hm mc eq_refl) as [H1 H2]. eexists. eexists.
        split; [reflexivity|]. split; assumption.
      - eexists. eexists. split; [reflexivity|]. split; lra. }
    destruct Hq as [q [f [-> [Hq Hf]]]].
    unfold ConfidenceBreakdown_post_init.
    cbn [cb_sentiment_confidence cb_technical_confidence cb_fundamental_confidence
         cb_market_signal_quality cb_market_favorability cb_agreement_score
         cb_data_quality_penalty].
    rewrite (unit_interval_true (py_round2 _)).
    2:{ apply py_round2_unit.
        destruct (Qltb 0 (sn_confidence sentiment)) eqn:E0; qhyps;
          destruct (sn_sources sentiment <? 2)%nat;
          [| destruct (5 <=? sn_sources sentiment)%nat
           | | destruct (5 <=? sn_sources sentiment)%nat ];
          unfold py_min; qsplit; lra. }
    rewrite (unit_interval_true (py_round2 _)).
    2:{ apply py_round2_unit. qsplit; lra. }
    rewrite (unit_interval_true (py_round2 _)).
    2:{ apply py_round2_unit.
        destruct (_ =? 0)%nat; [lra|]. destruct (2 <=? _)%nat; lra. }
    rewrite (unit_interval_true (py_round2 q)) by (apply py_round2_unit; exact Hq).
    rewrite (unit_interval_true (py_round2 f)) by (apply py_round2_unit; exact Hf).
    rewrite (unit_interval_true (py_round2 _)).
    2:{ apply py_round2_unit. unfold agreement_score_of.
        repeat match goal with
        | |- context [if ?c then _ else _] => destruct c
        end; lra. }
    rewrite (unit_interval_true (py_round2 _)).
    2:{ apply py_round2_unit.
        match goal with
        | |- _ <= py_min 0.3 ?X <= _ =>
            assert (Hx : 0 <= X);
            [| generalize dependent X; intros x Hx; unfold py_min; qsplit; lra]
        end.
        repeat match goal with
        | |- context [if ?c then _ else _] => destruct c
        end; lra. }
    cbn [negb bind]. discriminate.
Qed.

(** X23.  [calculate_confidence] returns, with a confidence in [0, 1], whenever
    the sentiment confidence is at most 1 and the market context, if there
    is one, has its signal quality and its favorability in [0, 1] -- which
    the unvalidated [MarketContext] class does not itself ensure. *)
Theorem calculate_confidence_returns
    (sentiment : SentimentData) (technical : TechnicalIndicators)
    (fundamental : FundamentalMetrics) (combined_score : Q)
    (market_context : option MarketContext) :
  sn_confidence sentiment <= 1 ->
  (forall mc, market_context = Some mc ->
     0 <= market_signal_quality mc <= 1 /\ 0 <= market_favorability mc <= 1) ->
  exists confidence breakdown,
    calculate_confidence sentiment technical fundamental combined_score market_context
    = Ok (confidence, breakdown) /\
    0 <= confidence <= 1.
Proof.
  intros Hc Hm.
  apply (calculate_confidence_ok sentiment technical fundamental combined_score
           market_context Hc Hm).
Qed.

Lemma calculate_confidence_returns_witness :
  exists confidence breakdown,
    calculate_confidence example_sentiment example_indicators example_fundamental
      0.5 (Some bullish_low)
    = Ok (confidence, breakdown) /\
    0 <= confidence <= 1.
Proof.
  apply (calculate_confidence_returns example_sentiment example_indicators
           example_fundamental 0.5 (Some bullish_low)).
  - vm_compute. discriminate.
  - intros mc H. inversion H; subst mc. vm_compute.
    repeat split; discriminate.
Defined.

(** X24.  On validated inputs -- a non-empty symbol, a sentiment confidence of at
    most 1, a positive price, and a context whose quality and favorability
    lie in [0, 1] -- the only way [generate_recommendation] can raise is the
    validation of the trade levels of a BUY: it returns whenever the final
    action is not BUY or the trade levels can be built, and otherwise it
    raises the error of [calculate_trade_levels]. *)
Theorem generate_recommendation_returns
    (self : RecommendationEngine) (sentiment : SentimentData)
    (technical : TechnicalIndicators) (fundamental : FundamentalMetrics)
    (current_price : Q) (market_context : option MarketContext) :
  sn_symbol sentiment <> "" ->
  sn_confidence sentiment <= 1 ->
  0 < current_price ->
  (forall mc, market_context = Some mc ->
     0 <= market_signal_quality mc <= 1 /\ 0 <= market_favorability mc <= 1) ->
  let action :=
    final_action_of
      (combined_score_of self sentiment technical fundamental market_context)
      market_context in
  match calculate_trade_levels current_price technical "BUY" with
  | Err e =>
      if String.eqb action "BUY"
      then generate_recommendation self sentiment technical fundamental
             current_price market_context = Err e
      else exists r,
             generate_recommendation self sentiment technical fundamental
               current_price market_context = Ok r /\
             rec_action r = action /\ rec_trade_levels r = None
  | Ok levels =>
      exists r,
        generate_recommendation self sentiment technical fundamental
          current_price market_context = Ok r /\
        rec_action r = action /\
        (action = "BUY" -> rec_trade_levels r = Some levels) /\
        (action <> "BUY" -> rec_trade_levels r = None)
  end.
Proof.
  intros Hsym Hconf Hprice Hmc. cbv zeta.
  destruct (calculate_confidence_ok sentiment technical fundamental
              (combined_score_of self sentiment technical fundamental market_context)
              market_context Hconf Hmc) as [confidence [breakdown [Hcc Hrange]]].
  unfold generate_recommendation. cbv zeta.
  unfold combined_score_of in Hcc. cbv zeta in Hcc. rewrite Hcc. cbn [bind].
  fold (combined_score_of self sentiment technical fundamental market_context).
  change (match market_context with
          | Some mc =>
              _adjust_for_market_context
                (if Qltb 0.3 (combined_score_of self sentiment technical fundamental
                                market_context)
                 then "BUY"
                 else if Qltb (combined_score_of self sentiment technical fundamental
                                 market_context) (-0.3)
                 then "SELL" else "HOLD")
                (combined_score_of self sentiment technical fundamental market_context)
                mc
          | None =>
              if Qltb 0.3 (combined_score_of self sentiment technical fundamental
                             market_context)
              then "BUY"
              else if Qltb (combined_score_of self sentiment technical fundamental
                              market_context) (-0.3)
              then "SELL" else "HOLD"
          end)
    with (final_action_of
            (combined_score_of self sentiment technical fundamental market_context)
            market_context).
  set (action := final_action_of _ market_context).
  assert (Hact : In action ["BUY"; "SELL"; "HOLD"]).
  { unfold action, final_action_of. cbv zeta.
    destruct market_context as [mc|]; [unfold _adjust_for_market_context|];
      repeat match goal with
      | |- context [if ?c then _ else _] => destruct c
      end; simpl; auto. }
  assert (Hpost : forall el eh xl xh tl,
             (action = "BUY" -> exists l h, el = Some l /\ eh = Some h /\ l <= h) ->
             (action = "SELL" -> exists l h, xl = Some l /\ xh = Some h /\ l <= h) ->
             Recommendation_post_init
               (mkRecommendation (sn_symbol sentiment) action confidence el eh xl xh
                  (sn_sentiment_score sentiment *
                   w_sentiment (_get_dynamic_weights self market_context))
                  (ti_technical_score technical *
                   w_technical (_get_dynamic_weights self market_context))
                  (fm_fundamental_score fundamental *
                   w_fundamental (_get_dynamic_weights self market_context))
                  tl (Some breakdown)
                  (Some (mkWeights
                           (w_sentiment (_get_dynamic_weights self market_context))
                           (w_technical (_get_dynamic_weights self market_context))
                           (w_fundamental (_get_dynamic_weights self market_context))
                           (w_source (_get_dynamic_weights self market_context)))))
             = Ok (mkRecommendation (sn_symbol sentiment) action confidence el eh xl xh
                  (sn_sentiment_score sentiment *
                   w_sentiment (_get_dynamic_weights self market_context))
                  (ti_technical_score technical *
                   w_technical (_get_dynamic_weights self market_context))
                  (fm_fundamental_score fundamental *
                   w_fundamental (_get_dynamic_weights self market_context))
                  tl (Some breakdown)
                  (Some (mkWeights
                           (w_sentiment (_get_dynamic_weights self market_context))
                           (w_technical (_get_dynamic_weights self market_context))
                           (w_fundamental (_get_dynamic_weights self market_context))
                           (w_source (_get_dynamic_weights self market_context)))))).
  { intros el eh xl xh tl Hb Hs. unfold Recommendation_post_init.
    cbn [rec_symbol rec_action rec_confidence rec_entry_price_low
         rec_entry_price_high rec_exit_price_low rec_exit_price_high].
    apply String.eqb_neq in Hsym. rewrite Hsym.
    assert (Hin : str_in action ["BUY"; "SELL"; "HOLD"] = true)
      by (apply str_in_In; exact Hact).
    rewrite Hin. cbn [negb].
    assert (Hcr : Qleb 0.0 confidence && Qleb confidence 1.0 = true)
      by (apply andb_true_iff; split; apply Qleb_le; lra).
    rewrite Hcr. cbn [negb].
    destruct (String.eqb action "BUY") eqn:Eb.
    - apply String.eqb_eq in Eb. destruct (Hb Eb) as [l [h [-> [-> Hlh]]]].
      unfold range_check.
      assert (E : Qltb h l = false)
        by (destruct (Qltb h l) eqn:E; qhyps; [exfalso; lra | reflexivity]).
      rewrite E. cbn [bind]. rewrite Eb. reflexivity.
    - cbn [bind]. destruct (String.eqb action "SELL") eqn:Es; [|reflexivity].
      apply String.eqb_eq in Es. destruct (Hs Es) as [l [h [-> [-> Hlh]]]].
      unfold range_check.
      assert (E : Qltb h l = false)
        by (destruct (Qltb h l) eqn:E; qhyps; [exfalso; lra | reflexivity]).
      rewrite E. reflexivity. }
  destruct (suggest_price_range_brackets action current_price technical Hprice)
    as [Hlo Hhi].
  destruct (String.eqb action "BUY") eqn:Eb.
  - apply String.eqb_eq in Eb. rewrite Eb in *.
    destruct (suggest_price_range "BUY" current_price technical) as [low high].
    cbn [fst snd] in Hlo, Hhi.
    destruct (calculate_trade_levels current_price technical "BUY") as [levels|e].
    + cbn [bind]. eexists. split.
      * apply Hpost.
        -- intros _. exists low, high. repeat split; lra.
        -- intro Hc. discriminate Hc.
      * split; [reflexivity|].
        split; [intros _; reflexivity | intro Hc; exfalso; apply Hc; reflexivity].
    + reflexivity.
  - assert (Hnb : action <> "BUY") by (apply String.eqb_neq; exact Eb).
    destruct (String.eqb action "SELL") eqn:Es.
    + apply String.eqb_eq in Es.
      destruct (suggest_price_range action current_price technical) as [low high].
      cbn [fst snd] in Hlo, Hhi. cbn [bind].
      destruct (calculate_trade_levels current_price technical "BUY");
        (eexists; split;
         [apply Hpost;
          [intro Hc; contradiction
          |intros _; exists low, high; repeat split; lra]
         |split;
          [reflexivity
          |first [reflexivity
                 |split; [intro Hc; contradiction | intros _; reflexivity]]]]).
    + assert (Hns : action <> "SELL") by (apply String.eqb_neq; exact Es).
      cbn [bind].
      destruct (calculate_trade_levels current_price technical "BUY");
        (eexists; split;
         [apply Hpost; intro Hc; contradiction
         |split;
          [reflexivity
          |first [reflexivity
                 |split; [intro Hc; contradiction | intros _; reflexivity]]]]).
Qed.

Lemma generate_recommendation_returns_witness :
  let action :=
    final_action_of
      (combined_score_of example_engine example_sentiment example_indicators
         example_fundamental None)
      None in
  match calculate_trade_levels 100 example_indicators "BUY" with
  | Err e =>
      if String.eqb action "BUY"
      then generate_recommendation example_engine example_sentiment
             example_indicators example_fundamental 100 None = Err e
      else exists r,
             generate_recommendation example_engine example_sentiment
               example_indicators example_fundamental 100 None = Ok r /\
             rec_action r = action /\ rec_trade_levels r = None
  | Ok levels =>
      exists r,
        generate_recommendation example_engine example_sentiment
          example_indicators example_fundamental 100 None = Ok r /\
        rec_action r = action /\
        (action = "BUY" -> rec_trade_levels r = Some levels) /\
        (action <> "BUY" -> rec_trade_levels r = None)
  end.
Proof.
  apply (generate_recommendation_returns example_engine example_sentiment
           example_indicators example_fundamental 100 None).
  - discriminate.
  - vm_compute. discriminate.
  - reflexivity.
  - intros mc H. discriminate H.
Defined.

(** ** Configuration weights (src/config.py) *)

(** X25.  On weights that are not negative, [normalize_weights] yields weights
    that pass [validate_weights], sum to 1 and keep their proportions (when
    all three are 0, the defaults 0.5, 0.3 and 0.2). *)
Theorem normalize_weights_valid (c : Configuration) :
  0 <= sentiment_weight c -> 0 <= technical_weight c -> 0 <= fundamental_weight c ->
  let n := normalize_weights c in
  validate_weights n = true /\
  sentiment_weight n + technical_weight n + fundamental_weight n == 1 /\
  sentiment_weight n * technical_weight c == technical_weight n * sentiment_weight c /\
  technical_weight n * fundamental_weight c == fundamental_weight n * technical_weight c /\
  sentiment_weight n * fundamental_weight c == fundamental_weight n * sentiment_weight c.
Proof.
  intros Hs Ht Hf. cbv zeta.
  pose proof (normalize_weights_total c) as Hsum.
  split; [|split; [exact Hsum|]].
  - revert Hsum. unfold normalize_weights.
    set (total := sentiment_weight c + technical_weight c + fundamental_weight c).
    destruct (Qeqb total 0) eqn:E0; [intros _; vm_compute; reflexivity|].
    apply Qeqb_neq in E0.
    assert (Hpos : 0 < total) by (unfold total in *; lra).
    destruct (Qeqb total 1.0) eqn:E1; cbn [negb].
    + apply Qeqb_eq in E1. intros _. unfold validate_weights. cbn [forallb].
      unfold total in E1.
      repeat (apply andb_true_iff; split); try reflexivity; apply Qleb_le; lra.
    + cbn [sentiment_weight technical_weight fundamental_weight]. intro Hsum.
      assert (H1 : 0 <= sentiment_weight c / total) by (apply Qdiv_nonneg; lra).
      assert (H2 : 0 <= technical_weight c / total) by (apply Qdiv_nonneg; lra).
      assert (H3 : 0 <= fundamental_weight c / total) by (apply Qdiv_nonneg; lra).
      unfold validate_weights. cbn [forallb sentiment_weight technical_weight
                                    fundamental_weight].
      repeat (apply andb_true_iff; split); try reflexivity; apply Qleb_le; lra.
  - unfold normalize_weights.
    set (total := sentiment_weight c + technical_weight c + fundamental_weight c).
    destruct (Qeqb total 0) eqn:E0.
    + apply Qeqb_eq in E0. unfold total in E0.
      assert (sentiment_weight c == 0) by lra.
      assert (technical_weight c == 0) by lra.
      assert (fundamental_weight c == 0) by lra.
      cbn [sentiment_weight technical_weight fundamental_weight].
      repeat split; nra.
    + apply Qeqb_neq in E0. destruct (Qeqb total 1.0); cbn [negb].
      * repeat split; ring.
      * cbn [sentiment_weight technical_weight fundamental_weight].
        repeat split; field; exact E0.
Qed.

Lemma normalize_weights_valid_witness :
  let c := mkConfiguration 2 1 1 in
  let n := normalize_weights c in
  validate_weights n = true /\
  sentiment_weight n + technical_weight n + fundamental_weight n == 1 /\
  sentiment_weight n * technical_weight c == technical_weight n * sentiment_weight c /\
  technical_weight n * fundamental_weight c == fundamental_weight n * technical_weight c /\
  sentiment_weight n * fundamental_weight c == fundamental_weight n * sentiment_weight c.
Proof.
  apply (normalize_weights_valid (mkConfiguration 2 1 1)); vm_compute; discriminate.
Defined.

(** ** The fundamental analyzer (src/fundamental_analyzer.py) *)

Lemma component_weights_pos (components : list (Q * Q)) (a : Q) :
  Forall (fun sw => 0 < snd sw) components -> 0 <= a ->
  components <> [] -> 0 < fold_left Qplus (map snd components) a.
Proof.
  revert a. induction components as [|[s w] r IH]; intros a H Ha Hne;
    [contradiction|].
  inversion H; subst. cbn [map fold_left snd] in *.
  destruct r as [|sw r'].
  - cbn [map fold_left]. lra.
  - apply IH; [assumption | lra | discriminate].
Qed.

(** The components that [generate_fundamental_score] collects: every weight
    is positive. *)
Lemma fundamental_components_weights
    (c0 : list (Q * Q)) (pb de g : option Q) (f1 f2 f3 : Q -> Q) :
  Forall (fun sw => 0 < snd sw) c0 ->
  Forall (fun sw => 0 < snd sw)
    (match g with
     | Some x =>
         (match de with
          | Some y =>
              (match pb with
               | Some z => (c0 ++ [(f1 z, 0.25)])%list
               | None => c0
               end ++ [(f2 y, 0.20)])%list
          | None =>
              match pb with
              | Some z => (c0 ++ [(f1 z, 0.25)])%list
              | None => c0
              end
          end ++ [(f3 x, 0.20)])%list
     | None =>
         match de with
         | Some y =>
             (match pb with
              | Some z => (c0 ++ [(f1 z, 0.25)])%list
              | None => c0
              end ++ [(f2 y, 0.20)])%list
         | None =>
             match pb with
             | Some z => (c0 ++ [(f1 z, 0.25)])%list
             | None => c0
             end
         end
     end).
Proof.
  intro H0.
  destruct g; destruct de; destruct pb;
    repeat (apply Forall_app; split); try assumption;
    repeat constructor.
Qed.

Lemma generate_fundamental_score_ok (metrics : FundamentalMetrics) :
  (forall pe avg, fm_pe_ratio metrics = Some pe ->
                  fm_industry_avg_pe metrics = Some avg -> ~ avg == 0) ->
  exists score, generate_fundamental_score metrics = Ok score /\ -1 <= score <= 1.
Proof.
  intro Havg. unfold generate_fundamental_score. cbv zeta.
  assert (Hc : exists c0,
             match fm_pe_ratio metrics, fm_industry_avg_pe metrics with
             | Some pe_ratio, Some industry_avg_pe =>
                 bind (py_div pe_ratio industry_avg_pe)
                   (fun n => Ok ([] ++ [(pe_score_of n, 0.35)])%list)
             | _, _ => Ok []
             end = Ok c0 /\ Forall (fun sw => 0 < snd sw) c0).
  { destruct (fm_pe_ratio metrics) as [pe|]; [|eexists; split; [reflexivity|constructor]].
    destruct (fm_industry_avg_pe metrics) as [avg|];
      [|eexists; split; [reflexivity|constructor]].
    rewrite (py_div_ok pe avg (Havg pe avg eq_refl eq_refl)). cbn [bind app].
    eexists. split; [reflexivity|]. repeat constructor. }
  destruct Hc as [c0 [-> Hc0]]. cbn [bind].
  pose proof (fundamental_components_weights c0 (fm_pb_ratio metrics)
                (fm_debt_to_equity metrics) (fm_revenue_growth metrics)
                pb_score_of de_score_of growth_score_of Hc0) as Hw.
  match type of Hw with
  | Forall _ ?C => set (components := C) in *
  end.
  change (match fm_revenue_growth metrics with
          | Some revenue_growth =>
              (match fm_debt_to_equity metrics with
               | Some debt_to_equity =>
                   (match fm_pb_ratio metrics with
                    | Some pb_ratio => (c0 ++ [(pb_score_of pb_ratio, 0.25)])%list
                    | None => c0
                    end ++ [(de_score_of debt_to_equity, 0.20)])%list
               | None =>
                   match fm_pb_ratio metrics with
                   | Some pb_ratio => (c0 ++ [(pb_score_of pb_ratio, 0.25)])%list
                   | None => c0
                   end
               end ++ [(growth_score_of revenue_growth, 0.20)])%list
          | None =>
              match fm_debt_to_equity metrics with
              | Some debt_to_equity =>
                  (match fm_pb_ratio metrics with
                   | Some pb_ratio => (c0 ++ [(pb_score_of pb_ratio, 0.25)])%list
                   | None => c0
                   end ++ [(de_score_of debt_to_equity, 0.20)])%list
              | None =>
                  match fm_pb_ratio metrics with
                  | Some pb_ratio => (c0 ++ [(pb_score_of pb_ratio, 0.25)])%list
                  | None => c0
                  end
              end
          end) with components.
  destruct components as [|sw rest] eqn:Ec.
  - eexists. split; [reflexivity | lra].
  - assert (Hpos : 0 < py_sum (map snd (sw :: rest))).
    { unfold py_sum. apply component_weights_pos; [exact Hw | lra | discriminate]. }
    rewrite py_div_ok by lra. cbn [bind].
    eexists. split; [reflexivity|].
    match goal with
    | |- _ <= py_max _ (py_min _ ?X) <= _ => generalize X; intro x
    end.
    unfold py_max, py_min. qsplit; lra.
Qed.

(** X26.  [generate_fundamental_score] raises ZeroDivisionError exactly when a
    P/E ratio is to be compared with an industry average of 0; in every
    other case it returns a score in [-1, 1], and without any metric the
    score is 0.0. *)
Theorem generate_fundamental_score_range (metrics : FundamentalMetrics) :
  ((exists pe avg,
      fm_pe_ratio metrics = Some pe /\ fm_industry_avg_pe metrics = Some avg /\
      avg == 0) /\
   generate_fundamental_score metrics = Err ZeroDivisionError) \/
  (~ (exists pe avg,
        fm_pe_ratio metrics = Some pe /\ fm_industry_avg_pe metrics = Some avg /\
        avg == 0) /\
   exists score,
     generate_fundamental_score metrics = Ok score /\ -1 <= score <= 1 /\
     (fm_pe_ratio metrics = None -> fm_pb_ratio metrics = None ->
      fm_debt_to_equity metrics = None -> fm_revenue_growth metrics = None ->
      score = 0.0)).
Proof.
  destruct (fm_pe_ratio metrics) as [pe|] eqn:Epe.
  - destruct (fm_industry_avg_pe metrics) as [avg|] eqn:Eavg.
    + destruct (Qeqb avg 0) eqn:E0.
      * left. apply Qeqb_eq in E0. split.
        -- exists pe, avg. split; [reflexivity|]. split; [reflexivity | exact E0].
        -- unfold generate_fundamental_score. cbv zeta. rewrite Epe, Eavg.
           unfold py_div. apply Qeqb_eq in E0. rewrite E0. reflexivity.
      * right. apply Qeqb_neq in E0. split.
        { intros [pe' [avg' [_ [H Hz]]]]. inversion H; subst avg'. apply E0, Hz. }
        destruct (generate_fundamental_score_ok metrics) as [score [Hs Hr]].
        { intros pe' avg' _ H. rewrite Eavg in H. inversion H; subst. exact E0. }
        exists score. split; [exact Hs|]. split; [exact Hr|].
        intro Hc. discriminate Hc.
    + right. split.
      { intros [pe' [avg' [_ [H _]]]]. discriminate H. }
      destruct (generate_fundamental_score_ok metrics) as [score [Hs Hr]].
      { intros pe' avg' _ H. rewrite Eavg in H. discriminate H. }
      exists score. split; [exact Hs|]. split; [exact Hr|].
      intro Hc. discriminate Hc.
  - right. split.
    { intros [pe' [avg' [H _]]]. discriminate H. }
    destruct (generate_fundamental_score_ok metrics) as [score [Hs Hr]].
    { intros pe' avg' H _. rewrite Epe in H. discriminate H. }
    exists score. split; [exact Hs|]. split; [exact Hr|].
    intros _ Hpb Hde Hg. revert Hs. unfold generate_fundamental_score. cbv zeta.
    rewrite Epe, Hpb, Hde, Hg. cbn [bind]. intro Hs. inversion Hs. reflexivity.
Qed.

Lemma industry_average_pos (industry : string) :
  0 < dict_get industry_averages industry 18.0.
Proof.
  unfold industry_averages. cbn [dict_get].
  repeat match goal with
  | |- context [if ?c then _ else _] => destruct c
  end; lra.
Qed.

(** X27.  [FundamentalAnalyzer.analyze] returns for every company with a
    non-empty symbol, whatever figures are present, missing, zero or
    negative: the industry averages it divides by are never 0.  The score
    of the result lies in [-1, 1], the direction follows the score with
    the thresholds 0.2 and -0.2, the strength lies in [0, 1] and the
    confidence is 0.9, 0.7 or 0.5. *)
Theorem FundamentalAnalyzer_analyze_returns
    (financials : CompanyFinancials) (current_price : Q) (industry : string) :
  cf_symbol financials <> "" ->
  exists signal,
    FundamentalAnalyzer_analyze financials current_price industry = Ok signal /\
    fm_symbol (fs_metrics signal) = cf_symbol financials /\
    -1 <= fm_fundamental_score (fs_metrics signal) <= 1 /\
    (fs_direction signal = "bullish" <-> 0.2 < fm_fundamental_score (fs_metrics signal)) /\
    (fs_direction signal = "bearish" <-> fm_fundamental_score (fs_metrics signal) < -0.2) /\
    In (fs_direction signal) ["bullish"; "bearish"; "neutral"] /\
    0 <= fs_strength signal <= 1 /\
    In (fs_confidence signal) [0.9; 0.7; 0.5].
Proof.
  intro Hsym. unfold FundamentalAnalyzer_analyze.
  unfold calculate_ratios. cbv zeta. unfold FundamentalMetrics_post_init.
  cbn [fm_symbol fm_fundamental_score].
  apply String.eqb_neq in Hsym. rewrite Hsym.
  change (Qleb (-1.0) 0.0 && Qleb 0.0 1.0) with true. cbn [negb bind].
  match goal with
  | |- context [generate_fundamental_score ?M] => set (metrics := M)
  end.
  destruct (generate_fundamental_score_ok metrics) as [score [Hs Hr]].
  { assert (Havg : fm_industry_avg_pe metrics
                   = Some (dict_get industry_averages industry 18.0)) by reflexivity.
    intros pe avg _ H.
    assert (Ea : avg = dict_get industry_averages industry 18.0) by congruence.
    pose proof (industry_average_pos industry) as Hp. rewrite <- Ea in Hp.
    intro Hz. lra. }
  rewrite Hs. cbn [bind].
  assert (Hsymm : fm_symbol metrics = cf_symbol financials) by reflexivity.
  rewrite Hsymm.
  destruct (Qltb 0.2 score) eqn:E1; [|destruct (Qltb score (-0.2)) eqn:E2]; qhyps;
    (eexists; split; [reflexivity|]);
    cbn [fs_metrics fs_direction fs_strength fs_confidence fm_symbol
         fm_fundamental_score];
    (split; [reflexivity|]); (split; [exact Hr|]);
    (split; [split; intro H; first [reflexivity | discriminate H | lra | exfalso; lra]|]);
    (split; [split; intro H; first [reflexivity | discriminate H | lra | exfalso; lra]|]);
    (split; [simpl; auto|]);
    (split;
     [ assert (Ha : 0 <= Qabs score <= 1)
         by (split; [apply Qabs_nonneg | apply Qabs_le_iff; lra]); lra |]);
    match goal with
    | |- In (if ?c then _ else _) _ =>
        destruct c; [simpl; auto|];
        match goal with
        | |- In (if ?d then _ else _) _ => destruct d; simpl; auto
        end
    end.
Qed.

Lemma FundamentalAnalyzer_analyze_returns_witness :
  exists signal,
    FundamentalAnalyzer_analyze
      (mkCompanyFinancials "TEST" None None None (Some 0) (Some 0) None (Some (-30)) None)
      100 "Mining" = Ok signal /\
    fm_symbol (fs_metrics signal) = "TEST" /\
    -1 <= fm_fundamental_score (fs_metrics signal) <= 1 /\
    (fs_direction signal = "bullish" <-> 0.2 < fm_fundamental_score (fs_metrics signal)) /\
    (fs_direction signal = "bearish" <-> fm_fundamental_score (fs_metrics signal) < -0.2) /\
    In (fs_direction signal) ["bullish"; "bearish"; "neutral"] /\
    0 <= fs_strength signal <= 1 /\
    In (fs_confidence signal) [0.9; 0.7; 0.5].
Proof.
  apply (FundamentalAnalyzer_analyze_returns
           (mkCompanyFinancials "TEST" None None None (Some 0) (Some 0) None
              (Some (-30)) None) 100 "Mining").
  discriminate.
Defined.

(** ** Actionable recommendations (src/agent_core.py) *)

Lemma insert_by_key_perm {A : Type} (key : A -> Q * Z) (x : A) (l : list A) :
  Permutation (insert_by_key key x l) (x :: l).
Proof.
  induction l as [|y r IH]; cbn [insert_by_key]; [apply Permutation_refl|].
  destruct (key_le (key x) (key y)); [apply Permutation_refl|].
  apply perm_trans with (y :: x :: r); [apply perm_skip; exact IH | apply perm_swap].
Qed.

Lemma sort_by_key_perm {A : Type} (key : A -> Q * Z) (l : list A) :
  Permutation (sort_by_key key l) l.
Proof.
  induction l as [|x r IH]; cbn [sort_by_key]; [apply Permutation_refl|].
  apply perm_trans with (x :: sort_by_key key r);
    [apply insert_by_key_perm | apply perm_skip; exact IH].
Qed.

Lemma key_le_total (k1 k2 : Q * Z) : key_le k1 k2 = false -> key_le k2 k1 = true.
Proof.
  unfold key_le. destruct k1 as [a1 b1], k2 as [a2 b2]. cbn [fst snd].
  intro H. apply orb_false_iff in H. destruct H as [H1 H2].
  apply Qltb_ge in H1.
  destruct (Qltb a2 a1) eqn:E; [reflexivity|]. apply Qltb_ge in E.
  assert (Heq : a1 == a2) by lra.
  assert (E1 : Qeqb a1 a2 = true) by (apply Qeqb_eq; exact Heq).
  assert (E2 : Qeqb a2 a1 = true) by (apply Qeqb_eq; lra).
  rewrite E1 in H2. rewrite E2. cbn [andb orb] in *.
  apply Z.leb_gt in H2. apply Z.leb_le. lia.
Qed.

Lemma insert_by_key_Sorted {A : Type} (key : A -> Q * Z) (x : A) (l : list A) :
  Sorted (fun a b => key_le (key a) (key b) = true) l ->
  Sorted (fun a b => key_le (key a) (key b) = true) (insert_by_key key x l).
Proof.
  induction l as [|y r IH]; intro Hs; cbn [insert_by_key].
  - constructor; constructor.
  - destruct (key_le (key x) (key y)) eqn:E.
    + constructor; [exact Hs | constructor; exact E].
    + apply Sorted_inv in Hs. destruct Hs as [Hs Hhd].
      constructor; [apply IH; exact Hs|].
      destruct r as [|z r']; cbn [insert_by_key].
      * constructor. apply key_le_total. exact E.
      * destruct (key_le (key x) (key z)); constructor;
          [apply key_le_total; exact E | inversion Hhd; assumption].
Qed.

Lemma sort_by_key_Sorted {A : Type} (key : A -> Q * Z) (l : list A) :
  Sorted (fun a b => key_le (key a) (key b) = true) (sort_by_key key l).
Proof.
  induction l as [|x r IH]; cbn [sort_by_key]; [constructor|].
  apply insert_by_key_Sorted. exact IH.
Qed.

Lemma Sorted_weaken {A : Type} (R R' : A -> A -> Prop) (l : list A) :
  (forall a b, R a b -> R' a b) -> Sorted R l -> Sorted R' l.
Proof.
  intros Himp. induction 1 as [|x l Hs IH Hhd]; constructor; [exact IH|].
  destruct Hhd; constructor. apply Himp. assumption.
Qed.

(** X28.  [filter_actionable_recommendations] returns exactly the BUY and SELL
    results of its input, each as often as it occurs there, ordered by
    confidence from the highest to the lowest, and among results of equal
    confidence by mention count from the highest to the lowest (a symbol
    that was not discovered counting 0 mentions). *)
Theorem filter_actionable_recommendations_sorted
    (analysis_results : list AnalysisResult)
    (discovered_stocks : option (list DiscoveredStock)) :
  let out := filter_actionable_recommendations analysis_results discovered_stocks in
  let confidence r := rec_confidence (ar_recommendation r) in
  let mentions r :=
    dict_get (mention_counts_of discovered_stocks) (ar_symbol r) 0%Z in
  Permutation out
    (filter (fun r => str_in (rec_action (ar_recommendation r)) ["BUY"; "SELL"])
       analysis_results) /\
  (forall r, In r out <->
             In r analysis_results /\
             (rec_action (ar_recommendation r) = "BUY" \/
              rec_action (ar_recommendation r) = "SELL")) /\
  StronglySorted (fun a b => confidence b <= confidence a) out /\
  Sorted (fun a b => confidence b < confidence a \/
                     (confidence a == confidence b /\ (mentions b <= mentions a)%Z))
         out.
Proof.
  cbv zeta. unfold filter_actionable_recommendations. cbv zeta.
  set (key := sort_key (mention_counts_of discovered_stocks)).
  set (actionable := filter _ analysis_results).
  pose proof (sort_by_key_perm key actionable) as Hp.
  pose proof (sort_by_key_Sorted key actionable) as Hs.
  assert (Hlex : Sorted
            (fun a b =>
               rec_confidence (ar_recommendation b) < rec_confidence (ar_recommendation a) \/
               (rec_confidence (ar_recommendation a) == rec_confidence (ar_recommendation b) /\
                (dict_get (mention_counts_of discovered_stocks) (ar_symbol b) 0 <=
                 dict_get (mention_counts_of discovered_stocks) (ar_symbol a) 0)%Z))
            (sort_by_key key actionable)).
  { revert Hs. apply Sorted_weaken. intros a b H.
    unfold key, sort_key, key_le in H. cbv zeta in H. cbn [fst snd] in H.
    apply orb_true_iff in H. destruct H as [H|H].
    - apply Qltb_lt in H. left. lra.
    - apply andb_true_iff in H. destruct H as [H1 H2].
      apply Qeqb_eq in H1. apply Z.leb_le in H2. right. split; [lra | lia]. }
  split; [exact Hp|]. split; [|split; [|exact Hlex]].
  - intro r. split.
    + intro Hin. apply (Permutation_in r Hp) in Hin.
      unfold actionable in Hin. apply filter_In in Hin. destruct Hin as [Hin Ha].
      split; [exact Hin|]. apply str_in_In in Ha. simpl in Ha.
      destruct Ha as [<-|[<-|[]]]; auto.
    + intros [Hin Ha]. apply (Permutation_in r (Permutation_sym Hp)).
      unfold actionable. apply filter_In. split; [exact Hin|].
      apply str_in_In. simpl. destruct Ha as [->| ->]; auto.
  - apply Sorted_StronglySorted.
    + intros a b c Hab Hbc. lra.
    + revert Hlex. apply Sorted_weaken. intros a b [H|[H _]]; lra.
Qed.

(** ** Position sizing (src/risk_manager.py) *)

(** X29.  For a risk manager that its constructor accepted, a positive portfolio
    value and a volatility that is not negative, [suggest_position_size]
    returns; the suggested size lies between 1.25 and 11.25 percent, so
    neither the 20 percent cap nor the floor at 0 is ever reached, and it
    depends on neither the symbol nor the portfolio value. *)
Theorem suggest_position_size_range
    (tolerance : string) (self : RiskManager) (symbol : string)
    (portfolio_value stock_volatility : Q) :
  RiskManager_init tolerance = Ok self ->
  0 < portfolio_value ->
  0 <= stock_volatility ->
  exists size,
    suggest_position_size self symbol portfolio_value stock_volatility None = Ok size /\
    1.25 <= size <= 11.25 /\
    forall (symbol' : string) (portfolio_value' : Q),
      0 < portfolio_value' ->
      suggest_position_size self symbol' portfolio_value' stock_volatility None
      = Ok size.
Proof.
  intros Hinit Hpv Hvol. unfold RiskManager_init in Hinit.
  destruct (dict_mem RISK_TOLERANCE_MULTIPLIERS tolerance) eqn:Em;
    cbn [negb] in Hinit; [|discriminate Hinit].
  inversion Hinit; subst self; clear Hinit.
  assert (Hgen : forall sym pv, 0 < pv ->
            suggest_position_size (mkRiskManager tolerance) sym pv stock_volatility None
            = Ok (py_max 0.0
                    (py_min (5.0 * dict_get RISK_TOLERANCE_MULTIPLIERS tolerance 0 *
                             (if Qltb stock_volatility 0.2 then 1.5
                              else if Qleb stock_volatility 0.4 then 1.0 else 0.5))
                            CONCENTRATION_THRESHOLD))).
  { intros sym pv Hp. unfold suggest_position_size.
    assert (E1 : Qleb pv 0 = false)
      by (destruct (Qleb pv 0) eqn:E; qhyps; [exfalso; lra | reflexivity]).
    assert (E2 : Qltb stock_volatility 0 = false)
      by (destruct (Qltb stock_volatility 0) eqn:E; qhyps; [exfalso; lra | reflexivity]).
    rewrite E1, E2. cbn [risk_tolerance]. rewrite Em. reflexivity. }
  eexists. split; [apply Hgen; exact Hpv|]. split; [|intros; apply Hgen; assumption].
  unfold RISK_TOLERANCE_MULTIPLIERS, dict_mem in Em. cbn [existsb fst] in Em.
  unfold RISK_TOLERANCE_MULTIPLIERS, CONCENTRATION_THRESHOLD. cbn [dict_get].
  destruct (String.eqb "conservative" tolerance);
    [|destruct (String.eqb "moderate" tolerance);
      [|destruct (String.eqb "aggressive" tolerance); [|discriminate Em]]];
    unfold py_max, py_min; qsplit; lra.
Qed.

Lemma suggest_position_size_range_witness :
  exists size,
    suggest_position_size (mkRiskManager "moderate") "TEST" 100000 0.3 None = Ok size /\
    1.25 <= size <= 11.25 /\
    forall (symbol' : string) (portfolio_value' : Q),
      0 < portfolio_value' ->
      suggest_position_size (mkRiskManager "moderate") symbol' portfolio_value' 0.3 None
      = Ok size.
Proof.
  apply (suggest_position_size_range "moderate" (mkRiskManager "moderate") "TEST"
           100000 0.3).
  - reflexivity.
  - reflexivity.
  - vm_compute. discriminate.
Defined.

(** ** Trade levels, continued *)

(** Rounding half to even is monotone. *)
Lemma round_half_even_mono (x y : Q) :
  x <= y -> (round_half_even x <= round_half_even y)%Z.
Proof.
  intro H.
  assert (Hf : (Qfloor x <= Qfloor y)%Z) by (apply Qfloor_resp_le; exact H).
  destruct (Z.eq_dec (Qfloor x) (Qfloor y)) as [E|E].
  - unfold round_half_even. cbv zeta. rewrite E.
    destruct (Qltb (x - inject_Z (Qfloor y)) (1 # 2)) eqn:X1;
      destruct (Qltb (y - inject_Z (Qfloor y)) (1 # 2)) eqn:Y1;
      destruct (Qltb (1 # 2) (x - inject_Z (Qfloor y))) eqn:X2;
      destruct (Qltb (1 # 2) (y - inject_Z (Qfloor y))) eqn:Y2;
      qhyps; try (exfalso; lra); destruct (Z.even (Qfloor y)); lia.
  - pose proof (round_half_even_floor x) as [_ Hx].
    pose proof (round_half_even_floor y) as [Hy _]. lia.
Qed.

Lemma py_round2_mono (x y : Q) : x <= y -> py_round2 x <= py_round2 y.
Proof.
  intro H. unfold py_round2.
  assert (Hm : (round_half_even (x * 100) <= round_half_even (y * 100))%Z)
    by (apply round_half_even_mono; lra).
  unfold Qle. simpl. lia.
Qed.

(** X30.  Every trade-levels value that [calculate_trade_levels] returns has its
    ideal entry at or below 99% of the current price (rounded to the cent),
    a positive stop loss, a risk per trade of exactly 1.5 percent and a
    position size of at most 10 percent of capital. *)
Theorem calculate_trade_levels_sizing
    (current_price : Q) (technical : TechnicalIndicators) (tl : TradeLevels) :
  calculate_trade_levels current_price technical "BUY" = Ok tl ->
  ideal_entry tl <= py_round2 (current_price * 0.99) /\
  0 < stop_loss tl /\
  risk_per_trade_percent tl = 1.5 /\
  position_size_percent tl <= 10.
Proof.
  unfold calculate_trade_levels.
  change (String.eqb "BUY" "BUY") with true. cbn [negb]. cbv zeta.
  intro H.
  apply bind_ok in H. destruct H as [rr [_ H]].
  match type of H with
  | (let '(_, _) := ?c in _) = _ => destruct c as [tg rr']
  end.
  apply bind_ok in H. destruct H as [rf [_ H]].
  apply bind_ok in H. destruct H as [ps [_ H]].
  apply TradeLevels_post_init_ok in H.
  destruct H as [-> [_ [Hstop _]]].
  cbn [ideal_entry stop_loss risk_per_trade_percent position_size_percent] in *.
  split; [|split; [exact Hstop|split; [reflexivity|]]].
  - apply py_round2_mono.
    match goal with
    | |- py_min ?a ?b <= _ => generalize a; intro a0
    end.
    unfold py_min. qsplit; lra.
  - assert (Hle : py_round2 (py_min ps 10.0) <= py_round2 10).
    { apply py_round2_mono. unfold py_min. qsplit; lra. }
    assert (E10 : py_round2 10 == 10) by (vm_compute; reflexivity).
    lra.
Qed.

Lemma calculate_trade_levels_sizing_witness :
  exists tl,
    calculate_trade_levels 100 example_indicators "BUY" = Ok tl /\
    ideal_entry tl <= py_round2 (100 * 0.99) /\
    0 < stop_loss tl /\
    risk_per_trade_percent tl = 1.5 /\
    position_size_percent tl <= 10.
Proof.
  eexists. split; [vm_compute; reflexivity|].
  apply (calculate_trade_levels_sizing 100 example_indicators).
  vm_compute. reflexivity.
Defined.
